(** * PCA-CD drift detector ([molten/distribution/pca_cd.py])

    A shallow embedding of the [PCACD] class and of its density and
    divergence helpers, together with the properties checked against the
    natural-language specification.

    Numbers.  The floats of the data path (observations, principal
    component scores, densities, divergences) are modelled by the type
    [float64] below: a real number, or one of the IEEE special values
    [+inf], [-inf] and [nan].  Arithmetic on finite values is exact (no
    rounding, no overflow, no signed zero), but for the squared bandwidth
    of the kernel density estimator, which a double rounds to 0 when it is
    small enough; the special values follow the numpy rules.  Inputs that
    the code receives as finite data are plain reals.

    The constructor rounds a product of doubles to an integer and takes
    the integer part of a square root: its arithmetic is on binary64
    floats proper, those of [PrimFloat]. *)

From Stdlib Require Import PrimFloat SpecFloat FloatOps FloatAxioms.
From Stdlib Require Import Reals Lra Lia ZArith List String DecimalString.
From stdpp Require Import base gmap strings.
Import ListNotations.

Set Default Proof Using "Type*".
#[local] Set Warnings "-inexact-float".

Local Open Scope R_scope.

(** ** Exceptions and results *)

Inductive exn : Set :=
  | ValueError
  | ZeroDivisionError
  | StatisticsError
  | KeyError
  | IndexError
  | TypeError
  | AttributeError
  | NotFittedError
  | OverflowError.

Inductive Res (A : Type) : Type :=
  | Ok (a : A)
  | Raise (e : exn).

Arguments Ok {A} a.
Arguments Raise {A} e.

Definition res_bind {A B} (r : Res A) (k : A -> Res B) : Res B :=
  match r with
  | Ok a => k a
  | Raise e => Raise e
  end.

Declare Scope res_scope.
Delimit Scope res_scope with res.
Notation "'let*' x := r 'in' k" := (res_bind r (fun x => k))
  (at level 10, x name, r at level 100, k at level 200) : res_scope.

(** ** Floats with the IEEE special values *)

Inductive float64 : Type :=
  | Fin (r : R)
  | PInf
  | NInf
  | NaN.

Module F.

Definition add (a b : float64) : float64 :=
  match a, b with
  | NaN, _ | _, NaN => NaN
  | Fin x, Fin y => Fin (x + y)
  | PInf, NInf | NInf, PInf => NaN
  | PInf, _ | _, PInf => PInf
  | NInf, _ | _, NInf => NInf
  end.

Definition opp (a : float64) : float64 :=
  match a with
  | Fin x => Fin (- x)
  | PInf => NInf
  | NInf => PInf
  | NaN => NaN
  end.

Definition sub (a b : float64) : float64 := add a (opp b).

(** Sign of a float that is not [nan]: [Gt], [Eq] or [Lt] against 0. *)
Definition sgn (x : R) : comparison :=
  if Rlt_dec 0 x then Gt else if Rlt_dec x 0 then Lt else Eq.

Definition inf_of (c : comparison) : float64 :=
  match c with Gt => PInf | Lt => NInf | Eq => NaN end.

Definition flip (c : comparison) : comparison :=
  match c with Gt => Lt | Lt => Gt | Eq => Eq end.

Definition mul (a b : float64) : float64 :=
  match a, b with
  | NaN, _ | _, NaN => NaN
  | Fin x, Fin y => Fin (x * y)
  | PInf, Fin y | Fin y, PInf => inf_of (sgn y)
  | NInf, Fin y | Fin y, NInf => inf_of (flip (sgn y))
  | PInf, PInf | NInf, NInf => PInf
  | PInf, NInf | NInf, PInf => NInf
  end.

(** numpy's [true_divide]: a division by zero is not an exception, it
    yields an infinity, or [nan] for [0 / 0]. *)
Definition div (a b : float64) : float64 :=
  match a, b with
  | NaN, _ | _, NaN => NaN
  | Fin x, Fin y =>
      if Req_dec_T y 0 then inf_of (sgn x) else Fin (x / y)
  | Fin _, (PInf | NInf) => Fin 0
  | PInf, Fin y => if Rlt_dec y 0 then NInf else PInf
  | NInf, Fin y => if Rlt_dec y 0 then PInf else NInf
  | (PInf | NInf), (PInf | NInf) => NaN
  end.

Definition abs (a : float64) : float64 :=
  match a with
  | Fin x => Fin (Rabs x)
  | PInf | NInf => PInf
  | NaN => NaN
  end.

(** [np.log] *)
Definition log (a : float64) : float64 :=
  match a with
  | Fin x =>
      if Rlt_dec 0 x then Fin (ln x)
      else if Rlt_dec x 0 then NaN else NInf
  | PInf => PInf
  | NInf | NaN => NaN
  end.

(** [np.exp] *)
Definition exp (a : float64) : float64 :=
  match a with
  | Fin x => Fin (Rtrigo_def.exp x)
  | PInf => PInf
  | NInf => Fin 0
  | NaN => NaN
  end.

(** The comparison [a < b]; false as soon as a [nan] is involved. *)
Definition ltb (a b : float64) : bool :=
  match a, b with
  | NaN, _ | _, NaN => false
  | Fin x, Fin y => if Rlt_dec x y then true else false
  | NInf, (Fin _ | PInf) => true
  | Fin _, PInf => true
  | _, _ => false
  end.

(** [np.minimum]: propagates [nan]. *)
Definition minimum (a b : float64) : float64 :=
  match a, b with
  | NaN, _ | _, NaN => NaN
  | _, _ => if ltb b a then b else a
  end.

(** [np.sum] of a one-dimensional array. *)
Definition sum (l : list float64) : float64 :=
  fold_left add l (Fin 0).

(** Division of a numpy float by a Python [int]. *)
Definition div_int (a : float64) (n : nat) : float64 :=
  div a (Fin (INR n)).

(** [0 <= a], for a float that may be [+inf]. *)
Definition nonneg (a : float64) : Prop :=
  match a with
  | Fin x => 0 <= x
  | PInf => True
  | NInf | NaN => False
  end.

End F.

(** Python's builtin [max(a, b)]: the first argument is kept unless the
    second is strictly greater. *)
Definition py_max2 (a b : float64) : float64 :=
  if F.ltb a b then b else a.

(** Python's builtin [max] of a list of floats; [ValueError] on an empty
    list. *)
Definition py_max_list (l : list float64) : Res float64 :=
  match l with
  | [] => Raise ValueError
  | x :: l' => Ok (fold_left py_max2 l' x)
  end.

(** Python's builtins [min] and [max] over the values of a pandas Series. *)
Definition py_min_R (l : list R) : Res R :=
  match l with
  | [] => Raise ValueError
  | x :: l' => Ok (fold_left (fun m y => if Rlt_dec y m then y else m) l' x)
  end.

Definition py_max_R (l : list R) : Res R :=
  match l with
  | [] => Raise ValueError
  | x :: l' => Ok (fold_left (fun m y => if Rlt_dec m y then y else m) l' x)
  end.

(** ** Python floats

    Doubles, as the constructor computes with them: the binary64 floats of
    Rocq, read through their specification ([Prim2SF]) as a sign, a
    mantissa [m] and an exponent [e], of value [m * 2 ** e]. *)

(** The double nearest to an integer, a tie going to the even mantissa:
    the conversion of a Python [int], or of a numpy [int64] or [uint64],
    to a float. *)
Definition nearest_double (n : Z) : spec_float :=
  binary_normalize prec emax n 0 false.

(** [float(n)] as [x * n] takes it for a float [x] and an [int] [n]:
    [OverflowError] on an [int] beyond the doubles. *)
Definition float_of_int (n : Z) : Res float :=
  match nearest_double n with
  | S754_infinity _ => Raise OverflowError
  | y => Ok (SF2Prim y)
  end.

(** The integer nearest to [m * 2 ** e], a tie going to the even
    neighbour. *)
Definition round_half_even (m : positive) (e : Z) : Z :=
  if (0 <=? e)%Z then (Z.pos m * 2 ^ e)%Z
  else
    let d := (2 ^ (- e))%Z in
    let q := (Z.pos m / d)%Z in
    match (2 * (Z.pos m mod d) ?= d)%Z with
    | Lt => q
    | Gt => (q + 1)%Z
    | Eq => if Z.even q then q else (q + 1)%Z
    end.

(** The integer nearest to a finite float. *)
Definition round_float (x : float) : Z :=
  match Prim2SF x with
  | S754_finite s m e =>
      if s then (- round_half_even m e)%Z else round_half_even m e
  | _ => 0%Z
  end.

(** Python 3's [round(x)] for a float: to the nearest integer, a tie going
    to the even neighbour; [ValueError] on [nan] and [OverflowError] on an
    infinity. *)
Definition py_round (x : float) : Res Z :=
  match Prim2SF x with
  | S754_nan => Raise ValueError
  | S754_infinity _ => Raise OverflowError
  | _ => Ok (round_float x)
  end.

(** The integer part of a float that is not negative. *)
Definition floor_float (x : float) : Z :=
  match Prim2SF x with
  | S754_finite false m e =>
      if (0 <=? e)%Z then (Z.pos m * 2 ^ e)%Z else (Z.pos m / 2 ^ (- e))%Z
  | _ => 0%Z
  end.

(** [int(np.floor(np.sqrt(n)))] for a Python [int] [n].  numpy takes [n]
    as an [int64] or a [uint64] and [np.sqrt] raises [TypeError] on an
    [int] that fits neither; the square root of a negative number is
    [nan], which [int] refuses with [ValueError]; otherwise the square
    root is taken in doubles, on the double nearest to [n]. *)
Definition floor_sqrt (n : Z) : Res Z :=
  if ((n <? - 2 ^ 63) || (2 ^ 64 <=? n))%Z then Raise TypeError
  else if (n <? 0)%Z then Raise ValueError
  else Ok (floor_float (PrimFloat.sqrt (SF2Prim (nearest_double n)))).

(** [np.sum] of an array of counts. *)
Definition sum_nat (l : list nat) : nat := fold_right Nat.add 0%nat l.

(** ** Histogram backend

    [np.histogram(sample, bins, range, density=True)], by its documented
    contract: [bins] equal-width bins between the two ends of [range] (moved
    apart by one half on each side when they coincide), every bin half-open
    except the last, which also holds its right edge; values outside the
    range are ignored.  With [density=True] the counts [n] are returned as
    [n / db / n.sum()], [db] being the bin widths. *)

Module Np.

Definition outer_edges (lo hi : R) : R * R :=
  if Req_dec_T lo hi then (lo - 1 / 2, hi + 1 / 2) else (lo, hi).

(** [np.linspace(first, last, bins + 1)[i]] *)
Definition edge (first last : R) (bins i : nat) : R :=
  first + INR i * (last - first) / INR bins.

Definition bin_edges (first last : R) (bins : nat) : list R :=
  map (edge first last bins) (seq 0 (S bins)).

(** Is [x] counted in bin [i] (of [bins] bins)? *)
Definition in_bin (first last : R) (bins i : nat) (x : R) : bool :=
  if Rle_dec (edge first last bins i) x then
    if Nat.eqb (S i) bins
    then (if Rle_dec x last then true else false)
    else (if Rlt_dec x (edge first last bins (S i)) then true else false)
  else false.

Definition bin_count (first last : R) (bins : nat) (sample : list R)
    (i : nat) : nat :=
  length (List.filter (in_bin first last bins i) sample).

Definition counts (first last : R) (bins : nat) (sample : list R)
    : list nat :=
  map (bin_count first last bins sample) (seq 0 bins).

Definition histogram_density (sample : list R) (bins : Z) (range : R * R)
    : Res (list float64 * list R) :=
  let '(lo, hi) := range in
  if (bins <? 1)%Z then Raise ValueError
  else if Rlt_dec hi lo then Raise ValueError
  else
    let '(first, last) := outer_edges lo hi in
    let b := Z.to_nat bins in
    let n := counts first last b sample in
    let total := sum_nat n in
    let db i := edge first last b (S i) - edge first last b i in
    Ok (map (fun i => F.div (F.div (Fin (INR (nth i n 0%nat))) (Fin (db i)))
                            (Fin (INR total)))
            (seq 0 b),
        bin_edges first last b).

End Np.

(** The two shapes of density dictionary the class builds:
    [{"bin_edges": ..., "density": ...}] for histograms and
    [{"density": ..., "object": ...}] for kernel density estimates. *)

(** [sklearn.neighbors.KernelDensity] with [kernel="epanechnikov"], once
    fitted on one-dimensional data. *)
Record KernelDensity : Type := {
  kd_bandwidth : R;
  kd_data : list R
}.

Inductive density_dict : Type :=
  | HistDensity (bin_edges : list R) (density : list float64)
  | KdeDensity (density : list float64) (object : KernelDensity).

(** [d["density"]] *)
Definition dd_density (d : density_dict) : list float64 :=
  match d with
  | HistDensity _ dens => dens
  | KdeDensity dens _ => dens
  end.

(** [d["object"]] *)
Definition dd_object (d : density_dict) : Res KernelDensity :=
  match d with
  | HistDensity _ _ => Raise KeyError
  | KdeDensity _ o => Ok o
  end.

(** [PCACD._build_histograms] *)
Definition _build_histograms (sample : list R) (bins : Z) (bin_range : R * R)
    : Res density_dict :=
  (let* density := Np.histogram_density sample bins bin_range in
   Ok (HistDensity (snd density)
         (map (fun d => F.div d (F.sum (fst density))) (fst density))))%res.

(** numpy's broadcasting of two one-dimensional arrays. *)
Definition broadcast (a b : list float64) : Res (list (float64 * float64)) :=
  if Nat.eqb (length a) (length b) then Ok (combine a b)
  else match a, b with
       | [x], _ => Ok (map (fun y => (x, y)) b)
       | _, [y] => Ok (map (fun x => (x, y)) a)
       | _, _ => Raise ValueError
       end.

(** [PCACD._intersection_divergence] *)
Definition _intersection_divergence (density_reference density_test : density_dict)
    : Res float64 :=
  (let* pairs := broadcast (dd_density density_reference) (dd_density density_test) in
   let intersection := F.sum (map (fun p => F.minimum (fst p) (snd p)) pairs) in
   let divergence := F.sub (Fin 1) intersection in
   Ok divergence)%res.

(** ** Kernel backend *)

(** [PCACD._epanechnikov_kernel], in exact arithmetic (a double rounds
    [1 - x_j ** 2] to 1 for the smallest [x_j], not only at 0). *)
Definition _epanechnikov_kernel (x_j : R) : R :=
  if Rle_dec (Rabs x_j) 1 then (3 / 4) * (1 - x_j ^ 2) else 0.

(** [statistics.stdev]: the square root of the sample variance;
    [StatisticsError] with fewer than two data points. *)
Definition Rsum (l : list R) : R := fold_right Rplus 0 l.

Definition mean (l : list R) : R := Rsum l / INR (length l).

Definition variance (l : list R) : R :=
  Rsum (map (fun x => (x - mean l) ^ 2) l) / INR (length l - 1).

Definition stdev (l : list R) : Res R :=
  if (length l <? 2)%nat then Raise StatisticsError
  else Ok (sqrt (variance l)).

(** [KernelDensity(bandwidth=h, kernel="epanechnikov").fit(X)]: the
    bandwidth must be positive, and [X] must hold a sample at least. *)
Definition KernelDensity_fit (h : R) (X : list R) : Res KernelDensity :=
  if Rle_dec h 0 then Raise ValueError
  else match X with
       | [] => Raise ValueError
       | _ => Ok {| kd_bandwidth := h; kd_data := X |}
       end.

(** The estimated density at [x]:
    [1 / (n * h) * sum (K ((x - x_j) / h))], the formula the source keeps in
    a comment of [_build_kde]. *)
Definition kd_pdf (k : KernelDensity) (x : R) : R :=
  1 / (INR (length (kd_data k)) * kd_bandwidth k)
  * Rsum (map (fun x_j => _epanechnikov_kernel ((x - x_j) / kd_bandwidth k))
            (kd_data k)).

(** One entry of [kde.score_samples]: the log-density at [x], [-inf] where
    the density vanishes.  scikit-learn evaluates the kernel of a data point
    at a distance [dist < h] as [log(1 - dist * dist / (h * h))], in
    doubles.  A square of at most [2 ** -1075], half the smallest positive
    double, is rounded to 0: under such a bandwidth the quotient is [0 / 0]
    and the log-density is [nan] at every point within the bandwidth of a
    data point, and [-inf] at the others.  Above it the value is the one of
    the formula (no rounding, no overflow). *)
Definition kd_log_density (k : KernelDensity) (x : R) : float64 :=
  let h := kd_bandwidth k in
  if Rle_dec (h * h) (/ 2 ^ 1075) then
    if existsb (fun x_j => if Rlt_dec (Rabs (x - x_j)) h then true else false)
         (kd_data k)
    then NaN else NInf
  else F.log (Fin (kd_pdf k x)).

(** [kde.score_samples(points)]: the log-density at each point;
    [ValueError] on an array of no points. *)
Definition score_samples (k : KernelDensity) (points : list R)
    : Res (list float64) :=
  match points with
  | [] => Raise ValueError
  | _ => Ok (map (kd_log_density k) points)
  end.

(** [PCACD._build_kde].  [sample_length ** (-1 / 5)] is taken on a sample of
    at least two values, [stdev] having raised otherwise. *)
Definition _build_kde (sample : list R) : Res density_dict :=
  (let sample_length := length sample in
   let* sd := stdev sample in
   let bandwidth := 1.06 * sd * Rpower (INR sample_length) (- 1 / 5) in
   let* kde_object := KernelDensity_fit bandwidth sample in
   let* scores := score_samples kde_object sample in
   let density := map F.exp scores in
   Ok (KdeDensity density kde_object))%res.

(** ** Divergences on kernel estimates *)

Module Scipy.

(** [scipy.special.rel_entr] *)
Definition rel_entr (x y : float64) : float64 :=
  match x, y with
  | NaN, _ | _, NaN => NaN
  | _, _ =>
      if F.ltb (Fin 0) x && F.ltb (Fin 0) y
      then F.mul x (F.log (F.div x y))
      else match x with
           | Fin x0 =>
               if Req_dec_T x0 0
               then (if F.ltb y (Fin 0) then PInf else Fin 0)
               else PInf
           | _ => PInf
           end
  end.

(** [scipy.stats.entropy(pk, qk)]: both arguments are normalised to sum
    to 1, then the relative entropies are summed.  The two arrays are of
    the same length wherever the class calls it. *)
Definition entropy (pk qk : list float64) : Res float64 :=
  if Nat.eqb (length pk) (length qk) then
    let pk := map (fun p => F.div p (F.sum pk)) pk in
    let qk := map (fun q => F.div q (F.sum qk)) qk in
    let vec := map (fun pq => rel_entr (fst pq) (snd pq)) (combine pk qk) in
    Ok (F.sum vec)
  else Raise ValueError.

End Scipy.

(** [PCACD._modified_kl_divergence] *)
Definition _modified_kl_divergence (ref_pca_projection test_pca_projection : list R)
    (density_reference density_test : density_dict) : Res float64 :=
  (let pca_projection := ref_pca_projection ++ test_pca_projection in
   let* ref_estimator := dd_object density_reference in
   let* test_estimator := dd_object density_test in
   let* ref_scores := score_samples ref_estimator pca_projection in
   let ref_estimates := map F.exp ref_scores in
   let* test_scores := score_samples test_estimator pca_projection in
   let test_estimates := map F.exp test_scores in
   let* e1 := Scipy.entropy ref_estimates test_estimates in
   let* e2 := Scipy.entropy test_estimates ref_estimates in
   let kl := py_max2 e1 e2 in
   Ok kl)%res.

(** [PCACD._llh_divergence] *)
Definition _llh_divergence (density_reference : density_dict)
    (test_pca_projection : list R) : Res float64 :=
  (let ref_density_estimates := dd_density density_reference in
   let* ref_estimator := dd_object density_reference in
   let* test_density_estimates :=
     score_samples ref_estimator test_pca_projection in
   let total_llh_ref := F.sum (map F.log ref_density_estimates) in
   let total_llh_test := F.sum test_density_estimates in
   let divergence :=
     F.abs (F.sub (F.div_int total_llh_test (length ref_density_estimates))
                  (F.div_int total_llh_ref (length test_pca_projection))) in
   Ok divergence)%res.

(** ** The detector

    A pandas DataFrame is a list of rows, a Series of numbers a list of
    reals.  An observation is a one-row frame: its index label and its
    values. *)

Definition DataFrame : Type := list (list R).

Record Obs : Type := {
  obs_label : Z;
  obs_values : list R
}.

(** [df.iloc[:, i]]: column [i]; [IndexError] when a row has no such
    position. *)
Fixpoint iloc_col (df : DataFrame) (i : nat) : Res (list R) :=
  match df with
  | [] => Ok []
  | row :: rest =>
      match nth_error row i with
      | None => Raise IndexError
      | Some v => (let* col := iloc_col rest i in Ok (v :: col))%res
      end
  end.

(** [df.iloc[1:, :]] *)
Definition iloc_tail (df : DataFrame) : DataFrame := tl df.

(** [f"PC{i + 1}"] *)
Definition pc_key (i : nat) : string :=
  "PC" +:+ NilEmpty.string_of_uint (Nat.to_uint (i + 1)).

Inductive drift_status : Set := drift | warning.

(** Modelled from the spec: the base class [DriftDetector]
    ([molten/drift_detector.py]) is not part of the sources.  The class
    docstring of [PCACD] describes its attributes: [total_samples] is the
    number of samples the detector has ever been updated with,
    [samples_since_reset] the number of samples since the last reset, and
    [drift_state] is "drift", "warning" or None.  The specification calls the
    first a monotonic "samples seen" counter advanced by every update, and
    has the reset clear the sample counter and the drift state at the epoch
    roll-over. *)
Record DriftDetector : Type := {
  total_samples : Z;
  samples_since_reset : Z;
  drift_state : option drift_status
}.

(** Modelled from the spec: [DriftDetector.__init__]. *)
Definition DriftDetector_init : DriftDetector :=
  {| total_samples := 0; samples_since_reset := 0; drift_state := None |}.

(** Modelled from the spec: [DriftDetector.update], the counter update that
    [PCACD.update] ends with. *)
Definition DriftDetector_update (d : DriftDetector) : DriftDetector :=
  {| total_samples := total_samples d + 1;
     samples_since_reset := samples_since_reset d + 1;
     drift_state := drift_state d |}.

(** Modelled from the spec: [DriftDetector.reset]. *)
Definition DriftDetector_reset (d : DriftDetector) : DriftDetector :=
  {| total_samples := total_samples d;
     samples_since_reset := 0;
     drift_state := None |}.

(** Modelled from the spec: the setter of the [drift_state] property. *)
Definition DriftDetector_set_drift_state (v : option drift_status)
    (d : DriftDetector) : DriftDetector :=
  {| total_samples := total_samples d;
     samples_since_reset := samples_since_reset d;
     drift_state := v |}.

(** *** External collaborators

    The principal component analysis and the scaler of scikit-learn and
    the Page-Hinkley test are used through their interfaces only. *)

(** [sklearn.decomposition.PCA] *)
Class PCAModel (P : Type) : Type := {
  (** [PCA(ev_threshold)] *)
  PCA_new : R -> P;
  (** [pca.fit(X)], the fitted estimator *)
  PCA_fit : P -> DataFrame -> Res P;
  (** [len(pca.components_)] *)
  PCA_n_components : P -> Res nat;
  (** [pca.transform(X)] *)
  PCA_transform : P -> DataFrame -> Res DataFrame
}.

(** [sklearn.preprocessing.StandardScaler] *)
Class ScalerModel (S : Type) : Type := {
  (** [StandardScaler()] *)
  Scaler_new : S;
  (** [scaler.fit_transform(X)]: the fitted scaler and the scaled data *)
  Scaler_fit_transform : S -> DataFrame -> Res (S * DataFrame);
  (** [scaler.transform(X)] *)
  Scaler_transform : S -> DataFrame -> Res DataFrame;
  (** [scaler.inverse_transform(X)] *)
  Scaler_inverse_transform : S -> DataFrame -> Res DataFrame
}.

(** [molten.other.page_hinkley.PageHinkley], the sequential change test.
    [Snap] is the snapshot [to_dataframe] returns. *)
Class SequentialTest (T Snap : Type) : Type := {
  (** [PageHinkley(delta, threshold, burn_in)] *)
  PH_new : R -> Z -> Z -> T;
  (** [monitor.update(next_obs=score, obs_id=label)] *)
  PH_update : T -> float64 -> Z -> T;
  (** [monitor.reset()] *)
  PH_reset : T -> T;
  (** [monitor.drift_state] *)
  PH_drift_state : T -> option drift_status;
  (** [monitor.to_dataframe()] *)
  PH_to_dataframe : T -> Snap
}.

Section Detector.

Context {P S T Snap : Type}.
Context `{PCAModel P} `{ScalerModel S} `{SequentialTest T Snap}.

(** The attributes of a [PCACD] instance. *)
Record PCACD : Type := {
  super : DriftDetector;
  window_size : Z;
  ev_threshold : R;
  divergence_metric : string;
  track_state : bool;
  sample_period : float;
  step : Z;
  ph_threshold : Z;
  bins : Z;
  delta : R;
  _drift_detection_monitor : T;
  _drift_tracker : list Snap;
  num_pcs : option nat;
  online_scaling : bool;
  _reference_scaler : option S;
  _build_reference_and_test : bool;
  _reference_window : DataFrame;
  _test_window : DataFrame;
  _pca : option P;
  _reference_pca_projection : DataFrame;
  _test_pca_projection : DataFrame;
  _density_reference : gmap string density_dict;
  _density_test : gmap string density_dict;
  _change_score : list float64
}.

(** Attribute assignment, one function per attribute that [update] assigns. *)
Definition set_super (v : DriftDetector) (self : PCACD) : PCACD :=
  {| super := v;
     window_size := window_size self;
     ev_threshold := ev_threshold self;
     divergence_metric := divergence_metric self;
     track_state := track_state self;
     sample_period := sample_period self;
     step := step self;
     ph_threshold := ph_threshold self;
     bins := bins self;
     delta := delta self;
     _drift_detection_monitor := _drift_detection_monitor self;
     _drift_tracker := _drift_tracker self;
     num_pcs := num_pcs self;
     online_scaling := online_scaling self;
     _reference_scaler := _reference_scaler self;
     _build_reference_and_test := _build_reference_and_test self;
     _reference_window := _reference_window self;
     _test_window := _test_window self;
     _pca := _pca self;
     _reference_pca_projection := _reference_pca_projection self;
     _test_pca_projection := _test_pca_projection self;
     _density_reference := _density_reference self;
     _density_test := _density_test self;
     _change_score := _change_score self |}.

Definition set_drift_detection_monitor (v : T) (self : PCACD) : PCACD :=
  {| super := super self;
     window_size := window_size self;
     ev_threshold := ev_threshold self;
     divergence_metric := divergence_metric self;
     track_state := track_state self;
     sample_period := sample_period self;
     step := step self;
     ph_threshold := ph_threshold self;
     bins := bins self;
     delta := delta self;
     _drift_detection_monitor := v;
     _drift_tracker := _drift_tracker self;
     num_pcs := num_pcs self;
     online_scaling := online_scaling self;
     _reference_scaler := _reference_scaler self;
     _build_reference_and_test := _build_reference_and_test self;
     _reference_window := _reference_window self;
     _test_window := _test_window self;
     _pca := _pca self;
     _reference_pca_projection := _reference_pca_projection self;
     _test_pca_projection := _test_pca_projection self;
     _density_reference := _density_reference self;
     _density_test := _density_test self;
     _change_score := _change_score self |}.

Definition set_drift_tracker (v : list Snap) (self : PCACD) : PCACD :=
  {| super := super self;
     window_size := window_size self;
     ev_threshold := ev_threshold self;
     divergence_metric := divergence_metric self;
     track_state := track_state self;
     sample_period := sample_period self;
     step := step self;
     ph_threshold := ph_threshold self;
     bins := bins self;
     delta := delta self;
     _drift_detection_monitor := _drift_detection_monitor self;
     _drift_tracker := v;
     num_pcs := num_pcs self;
     online_scaling := online_scaling self;
     _reference_scaler := _reference_scaler self;
     _build_reference_and_test := _build_reference_and_test self;
     _reference_window := _reference_window self;
     _test_window := _test_window self;
     _pca := _pca self;
     _reference_pca_projection := _reference_pca_projection self;
     _test_pca_projection := _test_pca_projection self;
     _density_reference := _density_reference self;
     _density_test := _density_test self;
     _change_score := _change_score self |}.

Definition set_num_pcs (v : option nat) (self : PCACD) : PCACD :=
  {| super := super self;
     window_size := window_size self;
     ev_threshold := ev_threshold self;
     divergence_metric := divergence_metric self;
     track_state := track_state self;
     sample_period := sample_period self;
     step := step self;
     ph_threshold := ph_threshold self;
     bins := bins self;
     delta := delta self;
     _drift_detection_monitor := _drift_detection_monitor self;
     _drift_tracker := _drift_tracker self;
     num_pcs := v;
     online_scaling := online_scaling self;
     _reference_scaler := _reference_scaler self;
     _build_reference_and_test := _build_reference_and_test self;
     _reference_window := _reference_window self;
     _test_window := _test_window self;
     _pca := _pca self;
     _reference_pca_projection := _reference_pca_projection self;
     _test_pca_projection := _test_pca_projection self;
     _density_reference := _density_reference self;
     _density_test := _density_test self;
     _change_score := _change_score self |}.

Definition set_reference_scaler (v : option S) (self : PCACD) : PCACD :=
  {| super := super self;
     window_size := window_size self;
     ev_threshold := ev_threshold self;
     divergence_metric := divergence_metric self;
     track_state := track_state self;
     sample_period := sample_period self;
     step := step self;
     ph_threshold := ph_threshold self;
     bins := bins self;
     delta := delta self;
     _drift_detection_monitor := _drift_detection_monitor self;
     _drift_tracker := _drift_tracker self;
     num_pcs := num_pcs self;
     online_scaling := online_scaling self;
     _reference_scaler := v;
     _build_reference_and_test := _build_reference_and_test self;
     _reference_window := _reference_window self;
     _test_window := _test_window self;
     _pca := _pca self;
     _reference_pca_projection := _reference_pca_projection self;
     _test_pca_projection := _test_pca_projection self;
     _density_reference := _density_reference self;
     _density_test := _density_test self;
     _change_score := _change_score self |}.

Definition set_build_reference_and_test (v : bool) (self : PCACD) : PCACD :=
  {| super := super self;
     window_size := window_size self;
     ev_threshold := ev_threshold self;
     divergence_metric := divergence_metric self;
     track_state := track_state self;
     sample_period := sample_period self;
     step := step self;
     ph_threshold := ph_threshold self;
     bins := bins self;
     delta := delta self;
     _drift_detection_monitor := _drift_detection_monitor self;
     _drift_tracker := _drift_tracker self;
     num_pcs := num_pcs self;
     online_scaling := online_scaling self;
     _reference_scaler := _reference_scaler self;
     _build_reference_and_test := v;
     _reference_window := _reference_window self;
     _test_window := _test_window self;
     _pca := _pca self;
     _reference_pca_projection := _reference_pca_projection self;
     _test_pca_projection := _test_pca_projection self;
     _density_reference := _density_reference self;
     _density_test := _density_test self;
     _change_score := _change_score self |}.

Definition set_reference_window (v : DataFrame) (self : PCACD) : PCACD :=
  {| super := super self;
     window_size := window_size self;
     ev_threshold := ev_threshold self;
     divergence_metric := divergence_metric self;
     track_state := track_state self;
     sample_period := sample_period self;
     step := step self;
     ph_threshold := ph_threshold self;
     bins := bins self;
     delta := delta self;
     _drift_detection_monitor := _drift_detection_monitor self;
     _drift_tracker := _drift_tracker self;
     num_pcs := num_pcs self;
     online_scaling := online_scaling self;
     _reference_scaler := _reference_scaler self;
     _build_reference_and_test := _build_reference_and_test self;
     _reference_window := v;
     _test_window := _test_window self;
     _pca := _pca self;
     _reference_pca_projection := _reference_pca_projection self;
     _test_pca_projection := _test_pca_projection self;
     _density_reference := _density_reference self;
     _density_test := _density_test self;
     _change_score := _change_score self |}.

Definition set_test_window (v : DataFrame) (self : PCACD) : PCACD :=
  {| super := super self;
     window_size := window_size self;
     ev_threshold := ev_threshold self;
     divergence_metric := divergence_metric self;
     track_state := track_state self;
     sample_period := sample_period self;
     step := step self;
     ph_threshold := ph_threshold self;
     bins := bins self;
     delta := delta self;
     _drift_detection_monitor := _drift_detection_monitor self;
     _drift_tracker := _drift_tracker self;
     num_pcs := num_pcs self;
     online_scaling := online_scaling self;
     _reference_scaler := _reference_scaler self;
     _build_reference_and_test := _build_reference_and_test self;
     _reference_window := _reference_window self;
     _test_window := v;
     _pca := _pca self;
     _reference_pca_projection := _reference_pca_projection self;
     _test_pca_projection := _test_pca_projection self;
     _density_reference := _density_reference self;
     _density_test := _density_test self;
     _change_score := _change_score self |}.

Definition set_pca (v : option P) (self : PCACD) : PCACD :=
  {| super := super self;
     window_size := window_size self;
     ev_threshold := ev_threshold self;
     divergence_metric := divergence_metric self;
     track_state := track_state self;
     sample_period := sample_period self;
     step := step self;
     ph_threshold := ph_threshold self;
     bins := bins self;
     delta := delta self;
     _drift_detection_monitor := _drift_detection_monitor self;
     _drift_tracker := _drift_tracker self;
     num_pcs := num_pcs self;
     online_scaling := online_scaling self;
     _reference_scaler := _reference_scaler self;
     _build_reference_and_test := _build_reference_and_test self;
     _reference_window := _reference_window self;
     _test_window := _test_window self;
     _pca := v;
     _reference_pca_projection := _reference_pca_projection self;
     _test_pca_projection := _test_pca_projection self;
     _density_reference := _density_reference self;
     _density_test := _density_test self;
     _change_score := _change_score self |}.

Definition set_reference_pca_projection (v : DataFrame) (self : PCACD) : PCACD :=
  {| super := super self;
     window_size := window_size self;
     ev_threshold := ev_threshold self;
     divergence_metric := divergence_metric self;
     track_state := track_state self;
     sample_period := sample_period self;
     step := step self;
     ph_threshold := ph_threshold self;
     bins := bins self;
     delta := delta self;
     _drift_detection_monitor := _drift_detection_monitor self;
     _drift_tracker := _drift_tracker self;
     num_pcs := num_pcs self;
     online_scaling := online_scaling self;
     _reference_scaler := _reference_scaler self;
     _build_reference_and_test := _build_reference_and_test self;
     _reference_window := _reference_window self;
     _test_window := _test_window self;
     _pca := _pca self;
     _reference_pca_projection := v;
     _test_pca_projection := _test_pca_projection self;
     _density_reference := _density_reference self;
     _density_test := _density_test self;
     _change_score := _change_score self |}.

Definition set_test_pca_projection (v : DataFrame) (self : PCACD) : PCACD :=
  {| super := super self;
     window_size := window_size self;
     ev_threshold := ev_threshold self;
     divergence_metric := divergence_metric self;
     track_state := track_state self;
     sample_period := sample_period self;
     step := step self;
     ph_threshold := ph_threshold self;
     bins := bins self;
     delta := delta self;
     _drift_detection_monitor := _drift_detection_monitor self;
     _drift_tracker := _drift_tracker self;
     num_pcs := num_pcs self;
     online_scaling := online_scaling self;
     _reference_scaler := _reference_scaler self;
     _build_reference_and_test := _build_reference_and_test self;
     _reference_window := _reference_window self;
     _test_window := _test_window self;
     _pca := _pca self;
     _reference_pca_projection := _reference_pca_projection self;
     _test_pca_projection := v;
     _density_reference := _density_reference self;
     _density_test := _density_test self;
     _change_score := _change_score self |}.

Definition set_density_reference (v : gmap string density_dict) (self : PCACD) : PCACD :=
  {| super := super self;
     window_size := window_size self;
     ev_threshold := ev_threshold self;
     divergence_metric := divergence_metric self;
     track_state := track_state self;
     sample_period := sample_period self;
     step := step self;
     ph_threshold := ph_threshold self;
     bins := bins self;
     delta := delta self;
     _drift_detection_monitor := _drift_detection_monitor self;
     _drift_tracker := _drift_tracker self;
     num_pcs := num_pcs self;
     online_scaling := online_scaling self;
     _reference_scaler := _reference_scaler self;
     _build_reference_and_test := _build_reference_and_test self;
     _reference_window := _reference_window self;
     _test_window := _test_window self;
     _pca := _pca self;
     _reference_pca_projection := _reference_pca_projection self;
     _test_pca_projection := _test_pca_projection self;
     _density_reference := v;
     _density_test := _density_test self;
     _change_score := _change_score self |}.

Definition set_density_test (v : gmap string density_dict) (self : PCACD) : PCACD :=
  {| super := super self;
     window_size := window_size self;
     ev_threshold := ev_threshold self;
     divergence_metric := divergence_metric self;
     track_state := track_state self;
     sample_period := sample_period self;
     step := step self;
     ph_threshold := ph_threshold self;
     bins := bins self;
     delta := delta self;
     _drift_detection_monitor := _drift_detection_monitor self;
     _drift_tracker := _drift_tracker self;
     num_pcs := num_pcs self;
     online_scaling := online_scaling self;
     _reference_scaler := _reference_scaler self;
     _build_reference_and_test := _build_reference_and_test self;
     _reference_window := _reference_window self;
     _test_window := _test_window self;
     _pca := _pca self;
     _reference_pca_projection := _reference_pca_projection self;
     _test_pca_projection := _test_pca_projection self;
     _density_reference := _density_reference self;
     _density_test := v;
     _change_score := _change_score self |}.

Definition set_change_score (v : list float64) (self : PCACD) : PCACD :=
  {| super := super self;
     window_size := window_size self;
     ev_threshold := ev_threshold self;
     divergence_metric := divergence_metric self;
     track_state := track_state self;
     sample_period := sample_period self;
     step := step self;
     ph_threshold := ph_threshold self;
     bins := bins self;
     delta := delta self;
     _drift_detection_monitor := _drift_detection_monitor self;
     _drift_tracker := _drift_tracker self;
     num_pcs := num_pcs self;
     online_scaling := online_scaling self;
     _reference_scaler := _reference_scaler self;
     _build_reference_and_test := _build_reference_and_test self;
     _reference_window := _reference_window self;
     _test_window := _test_window self;
     _pca := _pca self;
     _reference_pca_projection := _reference_pca_projection self;
     _test_pca_projection := _test_pca_projection self;
     _density_reference := _density_reference self;
     _density_test := _density_test self;
     _change_score := v |}.

(** *** The state monad of a method call

    A method mutates [self] in place and may raise: it maps the attributes
    before the call to a result and the attributes after it.  What was
    assigned before an exception stays assigned. *)

Definition M (A : Type) : Type := PCACD -> Res A * PCACD.

Definition ret {A} (a : A) : M A := fun self => (Ok a, self).

Definition bind {A B} (m : M A) (k : A -> M B) : M B :=
  fun self =>
    match m self with
    | (Ok a, self') => k a self'
    | (Raise e, self') => (Raise e, self')
    end.

Definition raise {A} (e : exn) : M A := fun self => (Raise e, self).

(** Read an attribute. *)
Definition gets {A} (f : PCACD -> A) : M A := fun self => (Ok (f self), self).

(** Assign attributes. *)
Definition modify (f : PCACD -> PCACD) : M unit := fun self => (Ok tt, f self).

(** A call that does not touch [self]. *)
Definition lift {A} (r : Res A) : M A := fun self => (r, self).

(** An attribute that holds an object, [AttributeError] while it is None
    or missing. *)
Definition attr {A} (f : PCACD -> option A) : M A :=
  fun self =>
    match f self with
    | Some a => (Ok a, self)
    | None => (Raise AttributeError, self)
    end.

Declare Scope pca_scope.
Delimit Scope pca_scope with pca.
Notation "'do' x := m 'in' k" := (bind m (fun x => k))
  (at level 10, x name, m at level 100, k at level 200) : pca_scope.
Notation "m ;; k" := (bind m (fun _ => k))
  (at level 100, k at level 200, right associativity) : pca_scope.

Local Open Scope pca_scope.

(** [for i in l: body(i)] *)
Fixpoint for_each (l : list nat) (body : nat -> M unit) : M unit :=
  match l with
  | [] => ret tt
  | i :: l' => body i ;; for_each l' body
  end.

(** [out = []; for i in l: out.append(f(i))], [out] being a local. *)
Fixpoint collect {A} (l : list nat) (f : nat -> M A) : M (list A) :=
  match l with
  | [] => ret []
  | i :: l' => do x := f i in do xs := collect l' f in ret (x :: xs)
  end.

(** [range(self.num_pcs)]; [TypeError] while [num_pcs] is None. *)
Definition range_num_pcs : M (list nat) :=
  do n := gets num_pcs in
  match n with
  | Some n => ret (seq 0 n)
  | None => raise TypeError
  end.

(** [len(df)] *)
Definition len (df : DataFrame) : Z := Z.of_nat (length df).

(** *** [PCACD.__init__] *)

(** [min(100, round(sample_period * window_size))] (line 97): the window
    size is converted to a double, multiplied by the sample period in
    doubles, and the product is rounded. *)
Definition py_step (sample_period : float) (window_size : Z) : Res Z :=
  (let* n := float_of_int window_size in
   let* r := py_round (PrimFloat.mul sample_period n) in
   Ok (Z.min 100 r))%res.

(** The constructor.  [round(0.01 * window_size)] (line 98) cannot raise:
    the window size has been converted on the line before, and its product
    by 0.01 is finite. *)
Definition init (window_size : Z) (ev_threshold delta : R)
    (divergence_metric : string) (sample_period : float)
    (online_scaling track_state : bool) : Res PCACD :=
  (let* step := py_step sample_period window_size in
   let* n := float_of_int window_size in
   let ph_threshold := round_float (PrimFloat.mul 0.01 n) in
   let* bins := floor_sqrt window_size in
   Ok {| super := DriftDetector_init;
         window_size := window_size;
         ev_threshold := ev_threshold;
         divergence_metric := divergence_metric;
         track_state := track_state;
         sample_period := sample_period;
         step := step;
         ph_threshold := ph_threshold;
         bins := bins;
         delta := delta;
         _drift_detection_monitor := PH_new delta ph_threshold 0;
         _drift_tracker := [];
         num_pcs := None;
         online_scaling := online_scaling;
         _reference_scaler := if online_scaling then Some Scaler_new else None;
         _build_reference_and_test := true;
         _reference_window := [];
         _test_window := [];
         _pca := None;
         _reference_pca_projection := [];
         _test_pca_projection := [];
         _density_reference := ∅;
         _density_test := ∅;
         _change_score := [Fin 0] |})%res.

(** *** [PCACD.update] *)

(** Lower and upper histogram bounds over both projections of component
    [i] (lines 181-191 and 230-240). *)
Definition combined_bounds (i : nat) : M (R * R) :=
  do ref_proj := gets _reference_pca_projection in
  do test_proj := gets _test_pca_projection in
  do ref_col := lift (iloc_col ref_proj i) in
  do test_col := lift (iloc_col test_proj i) in
  do lower := lift (py_min_R (ref_col ++ test_col)) in
  do upper := lift (py_max_R (ref_col ++ test_col)) in
  ret (lower, upper).

(** The roll-over of a post-drift state (lines 132-141). *)
Definition roll_over : M unit :=
  do test_window := gets _test_window in
  modify (set_reference_window test_window) ;;
  do online := gets online_scaling in
  (if online then
     do scaler := attr _reference_scaler in
     do reference_window := gets _reference_window in
     do unscaled := lift (Scaler_inverse_transform scaler reference_window) in
     modify (set_reference_window unscaled)
   else ret tt) ;;
  modify (set_test_window []) ;;
  modify (fun self => set_super (DriftDetector_reset (super self)) self) ;;
  modify (fun self =>
            set_drift_detection_monitor
              (PH_reset (_drift_detection_monitor self)) self).

(** The fit of scaler, principal components and reference densities, once
    the test window is full (lines 150-202). *)
Definition fit_reference : M unit :=
  modify (set_build_reference_and_test false) ;;
  do online := gets online_scaling in
  (if online then
     do scaler := attr _reference_scaler in
     do reference_window := gets _reference_window in
     do fitted := lift (Scaler_fit_transform scaler reference_window) in
     modify (set_reference_scaler (Some (fst fitted))) ;;
     modify (set_reference_window (snd fitted)) ;;
     do test_window := gets _test_window in
     do scaled := lift (Scaler_transform (fst fitted) test_window) in
     modify (set_test_window scaled)
   else ret tt) ;;
  do ev := gets ev_threshold in
  modify (set_pca (Some (PCA_new ev))) ;;
  do reference_window := gets _reference_window in
  do pca := lift (PCA_fit (PCA_new ev) reference_window) in
  modify (set_pca (Some pca)) ;;
  do n := lift (PCA_n_components pca) in
  modify (set_num_pcs (Some n)) ;;
  do ref_proj := lift (PCA_transform pca reference_window) in
  modify (set_reference_pca_projection ref_proj) ;;
  do test_window := gets _test_window in
  do test_proj := lift (PCA_transform pca test_window) in
  modify (set_test_pca_projection test_proj) ;;
  do pcs := range_num_pcs in
  for_each pcs (fun i =>
    do metric := gets divergence_metric in
    do density :=
      (if String.eqb metric "intersection" then
         do bounds := combined_bounds i in
         do ref_proj := gets _reference_pca_projection in
         do ref_col := lift (iloc_col ref_proj i) in
         do bins := gets bins in
         lift (_build_histograms ref_col bins bounds)
       else
         do ref_proj := gets _reference_pca_projection in
         do ref_col := lift (iloc_col ref_proj i) in
         lift (_build_kde ref_col)) in
    modify (fun self =>
              set_density_reference
                (<[pc_key i := density]> (_density_reference self)) self)).

(** [d[key]] on a dictionary attribute; [KeyError] when the key is absent. *)
Definition getitem (f : PCACD -> gmap string density_dict) (key : string)
    : M density_dict :=
  do d := gets f in
  match d !! key with
  | Some v => ret v
  | None => raise KeyError
  end.

(** The densities of the test projection (lines 225-252). *)
Definition build_density_test : M unit :=
  modify (set_density_test ∅) ;;
  do pcs := range_num_pcs in
  for_each pcs (fun i =>
    do metric := gets divergence_metric in
    if String.eqb metric "intersection" then
      do bounds := combined_bounds i in
      do test_proj := gets _test_pca_projection in
      do test_col := lift (iloc_col test_proj i) in
      do bins := gets bins in
      do density := lift (_build_histograms test_col bins bounds) in
      modify (fun self =>
                set_density_test
                  (<[pc_key i := density]> (_density_test self)) self)
    else if String.eqb metric "kl" then
      do test_proj := gets _test_pca_projection in
      do test_col := lift (iloc_col test_proj i) in
      do density := lift (_build_kde test_col) in
      modify (fun self =>
                set_density_test
                  (<[pc_key i := density]> (_density_test self)) self)
    else ret tt).

(** The divergence of every component (lines 255-284). *)
Definition compute_change_scores : M (list float64) :=
  do metric := gets divergence_metric in
  if String.eqb metric "kl" then
    do pcs := range_num_pcs in
    collect pcs (fun i =>
      do ref_proj := gets _reference_pca_projection in
      do ref_col := lift (iloc_col ref_proj i) in
      do test_proj := gets _test_pca_projection in
      do test_col := lift (iloc_col test_proj i) in
      do density_ref := getitem _density_reference (pc_key i) in
      do density_test := getitem _density_test (pc_key i) in
      lift (_modified_kl_divergence ref_col test_col density_ref density_test))
  else if String.eqb metric "llh" then
    do pcs := range_num_pcs in
    collect pcs (fun i =>
      do density_ref := getitem _density_reference (pc_key i) in
      do test_proj := gets _test_pca_projection in
      do test_col := lift (iloc_col test_proj i) in
      lift (_llh_divergence density_ref test_col))
  else if String.eqb metric "intersection" then
    do pcs := range_num_pcs in
    collect pcs (fun i =>
      do density_ref := getitem _density_reference (pc_key i) in
      do density_test := getitem _density_test (pc_key i) in
      lift (_intersection_divergence density_ref density_test))
  else ret [].

(** One divergence evaluation (lines 224-299).  [label] is
    [next_obs.index.values[0]]. *)
Definition evaluate (label : Res Z) : M unit :=
  build_density_test ;;
  do change_scores := compute_change_scores in
  do change_score := lift (py_max_list change_scores) in
  modify (fun self =>
            set_change_score (_change_score self ++ [change_score]) self) ;;
  do obs_id := lift label in
  modify (fun self =>
            set_drift_detection_monitor
              (PH_update (_drift_detection_monitor self) change_score obs_id)
              self) ;;
  do monitor := gets _drift_detection_monitor in
  match PH_drift_state monitor with
  | Some _ =>
      modify (set_build_reference_and_test true) ;;
      modify (fun self =>
                set_super
                  (DriftDetector_set_drift_state (Some drift) (super self))
                  self) ;;
      do track := gets track_state in
      if track then
        modify (fun self =>
                  set_drift_tracker
                    (_drift_tracker self ++ [PH_to_dataframe monitor]) self)
      else ret tt
  | None => ret tt
  end.

(** The monitoring branch (lines 206-299).  After the optional scaling
    [next_obs] is a frame: its rows and the label of its first row. *)
Definition monitoring (next_obs : Obs) : M unit :=
  do online := gets online_scaling in
  do next_obs :=
    (if online then
       do scaler := attr _reference_scaler in
       do scaled := lift (Scaler_transform scaler [obs_values next_obs]) in
       ret (scaled, match scaled with [] => Raise IndexError | _ => Ok 0%Z end)
     else ret ([obs_values next_obs], Ok (obs_label next_obs))) in
  modify (fun self =>
            set_test_window (iloc_tail (_test_window self) ++ fst next_obs)
              self) ;;
  do pca := attr _pca in
  do next_proj := lift (PCA_transform pca [concat (fst next_obs)]) in
  modify (fun self =>
            set_test_pca_projection
              (iloc_tail (_test_pca_projection self) ++ next_proj) self) ;;
  do total := gets (fun self => total_samples (super self)) in
  do step := gets step in
  if (step =? 0)%Z then raise ZeroDivisionError
  else if (total mod step =? 0)%Z && negb (total =? 0)%Z
       then evaluate (snd next_obs)
       else ret tt.

(** The building branch (lines 131-202). *)
Definition building (next_obs : Obs) : M unit :=
  do state := gets (fun self => drift_state (super self)) in
  do n_ref := gets (fun self => len (_reference_window self)) in
  do n_test := gets (fun self => len (_test_window self)) in
  do window_size := gets window_size in
  (match state with
   | Some _ => roll_over
   | None =>
       if (n_ref <? window_size)%Z then
         modify (fun self =>
                   set_reference_window
                     (_reference_window self ++ [obs_values next_obs]) self)
       else if (n_test <? window_size)%Z then
         modify (fun self =>
                   set_test_window
                     (_test_window self ++ [obs_values next_obs]) self)
       else ret tt
   end) ;;
  do n_test := gets (fun self => len (_test_window self)) in
  if (n_test =? window_size)%Z then fit_reference else ret tt.

Definition update (next_obs : Obs) : M unit :=
  do build := gets _build_reference_and_test in
  (if build then building next_obs else monitoring next_obs) ;;
  modify (fun self => set_super (DriftDetector_update (super self)) self).

(** Feeding a stream of observations: one [update] after the other, up to
    the first exception. *)
Fixpoint feed (self : PCACD) (stream : list Obs) : Res PCACD :=
  match stream with
  | [] => Ok self
  | next_obs :: rest =>
      match update next_obs self with
      | (Ok _, self') => feed self' rest
      | (Raise e, _) => Raise e
      end
  end.

(** The states of a detector: as constructed, and as any call of [update]
    leaves it, whether the call returned or raised. *)
Inductive reachable : PCACD -> Prop :=
  | reachable_init window_size ev_threshold delta divergence_metric
      sample_period online_scaling track_state self :
      init window_size ev_threshold delta divergence_metric sample_period
        online_scaling track_state = Ok self ->
      reachable self
  | reachable_update self next_obs :
      reachable self -> reachable (snd (update next_obs self)).

(** *** Reasoning about method calls *)

(** [wp m Q E self]: started on [self], the call [m] either returns [a] and
    leaves attributes satisfying [Q a], or raises and leaves attributes
    satisfying [E]. *)
Definition wp {A} (m : M A) (Q : A -> PCACD -> Prop) (E : PCACD -> Prop)
    (self : PCACD) : Prop :=
  match m self with
  | (Ok a, self') => Q a self'
  | (Raise _, self') => E self'
  end.

(** [m] leaves the view [f] of the attributes as it found it, whether it
    returns or raises. *)
Definition preserves {A B} (f : PCACD -> B) (m : M A) : Prop :=
  forall self, f (snd (m self)) = f self.


(** The configuration and the flags that steer [update]. *)
Record control : Type := {
  c_drift_state : option drift_status;
  c_building : bool;
  c_step : Z;
  c_window_size : Z;
  c_sample_period : float;
  c_online_scaling : bool;
  c_has_scaler : bool
}.

Definition control_of (self : PCACD) : control :=
  {| c_drift_state := drift_state (super self);
     c_building := _build_reference_and_test self;
     c_step := step self;
     c_window_size := window_size self;
     c_sample_period := sample_period self;
     c_online_scaling := online_scaling self;
     c_has_scaler := match _reference_scaler self with
                     | Some _ => true
                     | None => false
                     end |}.

(** The test window as the roll-over installs it in the reference window:
    as it is, or through the inverse of the scaler under online scaling. *)
Definition unscaled_test_window (self : PCACD) : Res DataFrame :=
  if online_scaling self then
    match _reference_scaler self with
    | Some scaler => Scaler_inverse_transform scaler (_test_window self)
    | None => Raise AttributeError
    end
  else Ok (_test_window self).

(** The attributes after the roll-over of a post-drift state into a new
    epoch whose reference window is [reference_window]. *)
Definition rolled_over (reference_window : DataFrame) (self : PCACD) : PCACD :=
  set_super (DriftDetector_update (DriftDetector_reset (super self)))
    (set_drift_detection_monitor (PH_reset (_drift_detection_monitor self))
       (set_test_window [] (set_reference_window reference_window self))).

(** The first epoch while the windows fill: after [k] observations the
    detector is still building, the reference window holds the first
    [window_size] of them and the test window the others. *)
Definition filling (k : Z) (self : PCACD) : Prop :=
  _build_reference_and_test self = true
  /\ drift_state (super self) = None
  /\ total_samples (super self) = k
  /\ len (_reference_window self) = Z.min k (window_size self)
  /\ len (_test_window self) = Z.max 0 (k - window_size self)
  /\ _change_score self = [Fin 0].

(** The configuration fixed at construction. *)
Definition configuration (self : PCACD)
    : Z * R * string * float * Z * bool :=
  (window_size self, ev_threshold self, divergence_metric self,
   sample_period self, step self, online_scaling self).


(** The control attributes together with the counters of the base class
    and the change-score history. *)
Definition steering (self : PCACD) : control * DriftDetector * list float64 :=
  (control_of self, super self, _change_score self).

(** What holds of the control attributes in every state: drift is only
    declared together with the request to rebuild the windows and under a
    non-zero step, the step is the one computed at construction, and the
    scaler exists when online scaling is on. *)
Definition control_inv (c : control) : Prop :=
  (c_drift_state c <> None -> c_building c = true /\ c_step c <> 0%Z)
  /\ py_step (c_sample_period c) (c_window_size c) = Ok (c_step c)
  /\ (c_online_scaling c = true -> c_has_scaler c = true).

End Detector.

Arguments PCACD : clear implicits.
Arguments M : clear implicits.

(** ** The divergences as the specification words them *)

(** The log-likelihood divergence of the specification: the total
    log-likelihood of the reference sample over the reference sample count,
    against the total log-likelihood of the test sample under the reference
    kernel over the test sample count. *)
Definition llh_divergence_spec (density_reference : density_dict)
    (ref_estimator : KernelDensity) (test_pca_projection : list R) : float64 :=
  let ref_density_estimates := dd_density density_reference in
  let total_llh_ref := F.sum (map F.log ref_density_estimates) in
  let total_llh_test :=
    F.sum (map (kd_log_density ref_estimator) test_pca_projection) in
  F.abs (F.sub (F.div_int total_llh_ref (length ref_density_estimates))
               (F.div_int total_llh_test (length test_pca_projection))).

(** A reference density of two points, 0 and 2, under bandwidth 1: the
    density at either point is 3/8. *)
Definition llh_example_kernel : KernelDensity :=
  {| kd_bandwidth := 1; kd_data := [0; 2] |}.

Definition llh_example_reference : density_dict :=
  KdeDensity [Fin (3 / 8); Fin (3 / 8)] llh_example_kernel.


(** The probability mass of a bin: the share of the sample points counted
    by the histogram that fall in the bin. *)
Definition in_range (first last x : R) : bool :=
  if Rle_dec first x then (if Rle_dec x last then true else false) else false.

Definition bin_probability (first last : R) (bins : nat) (sample : list R)
    (i : nat) : R :=
  INR (Np.bin_count first last bins sample i)
  / INR (length (List.filter (in_range first last) sample)).

Definition bin_probabilities (first last : R) (bins : nat) (sample : list R)
    : list R :=
  map (bin_probability first last bins sample) (seq 0 bins).

(** One minus the sum over aligned bins of the smaller probability. *)
Definition intersection_spec (p q : list R) : R :=
  1 - Rsum (map (fun pq => Rmin (fst pq) (snd pq)) (combine p q)).


(** The Kullback-Leibler divergence [sum (p * log (p / q))] of two arrays
    of non-negative estimates, each normalised to sum to 1: a term is 0
    where [p] vanishes and [+inf] where [q] alone vanishes. *)
Definition kl_term (x y : R) : float64 :=
  if Req_dec_T x 0 then Fin 0
  else if Req_dec_T y 0 then PInf
  else Fin (x * ln (x / y)).

Definition kl_divergence (p q : list R) : float64 :=
  F.sum (map (fun pq => kl_term (fst pq / Rsum p) (snd pq / Rsum q))
           (combine p q)).


(** [a <= b] on floats neither of which is [nan]. *)
Definition float_le (a b : float64) : Prop :=
  match a, b with
  | NaN, _ | _, NaN => False
  | NInf, _ | _, PInf => True
  | Fin x, Fin y => x <= y
  | _, _ => False
  end.

(** The bandwidths at which the kernel density estimator is taken to
    compute the value of its formula: the square of a smaller or of a
    larger bandwidth leaves the normal range of the doubles. *)
Definition kd_well_conditioned (k : KernelDensity) : Prop :=
  / 2 ^ 500 <= kd_bandwidth k <= 2 ^ 500.

(** A float bounded below by a real: finite and at least the bound, or
    [+inf]. *)
Definition at_least (f : float64) (r : R) : Prop :=
  match f with
  | Fin s => r <= s
  | PInf => True
  | NInf | NaN => False
  end.


(** ** A small model of the collaborators

    Enough of scikit-learn and of the sequential test to run the detector
    on concrete streams. *)

(** Principal components that keep every feature in place: once fitted on
    rows of some width, a row of that width is projected onto itself, and
    rows of another width are rejected, as scikit-learn rejects a wrong
    number of features. *)
Record AxisPCA : Type := { axis_width : option nat }.

#[export] Instance AxisPCA_model : PCAModel AxisPCA := {|
  PCA_new _ := {| axis_width := None |};
  PCA_fit _ X :=
    match X with
    | [] => Raise ValueError
    | row :: _ => Ok {| axis_width := Some (length row) |}
    end;
  PCA_n_components p :=
    match axis_width p with
    | Some n => Ok n
    | None => Raise AttributeError
    end;
  PCA_transform p X :=
    match axis_width p with
    | None => Raise NotFittedError
    | Some n =>
        if forallb (fun row => Nat.eqb (length row) n) X then Ok X
        else Raise ValueError
    end
|}.

(** The scaler of data that is standard already: no shift and no
    scaling. *)
#[export] Instance UnitScaler_model : ScalerModel unit := {|
  Scaler_new := tt;
  Scaler_fit_transform _ X := Ok (tt, X);
  Scaler_transform _ X := Ok X;
  Scaler_inverse_transform _ X := Ok X
|}.

(** A sequential test of threshold 0: it raises its alarm on every score,
    until it is reset. *)
#[export] Instance AlarmTest_model : SequentialTest bool unit := {|
  PH_new _ _ _ := false;
  PH_update _ _ _ := true;
  PH_reset _ := false;
  PH_drift_state t := if t then Some drift else None;
  PH_to_dataframe _ := tt
|}.

(** A detector over these collaborators. *)
Definition Detector : Type := PCACD AxisPCA unit bool unit.

(** One-feature observations. *)
Definition obs1 (label : Z) (v : R) : Obs :=
  {| obs_label := label; obs_values := [v] |}.

(** A window of two, evaluated on every observation, with histograms. *)
Definition small_detector : Res Detector :=
  init 2 0.99 0.1 "intersection" 0.5%float false false.

Definition small_stream : list Obs :=
  [obs1 0 0; obs1 1 1; obs1 2 0; obs1 3 1].

(** A sequential test that never raises its alarm: it counts the scores
    it was updated with. *)
#[export] Instance QuietTest_model : SequentialTest Z unit := {|
  PH_new _ _ _ := 0%Z;
  PH_update t _ _ := (t + 1)%Z;
  PH_reset _ := 0%Z;
  PH_drift_state _ := None;
  PH_to_dataframe _ := tt
|}.



(** The configurations the specification accepts. *)
Definition valid_configuration (window_size : Z) (ev_threshold : R)
    (divergence_metric : string) : Prop :=
  (0 < window_size)%Z
  /\ 0 < ev_threshold <= 1
  /\ (divergence_metric = "kl" \/ divergence_metric = "llh"
      \/ divergence_metric = "intersection").


(** An observation of two features, for a detector fitted on one. *)
Definition wide_obs : Obs := {| obs_label := 4; obs_values := [2; 3] |}.

(** [n] calls of the counter update of the base class. *)
Definition advance (n : nat) (d : DriftDetector) : DriftDetector :=
  Nat.iter n DriftDetector_update d.

(** A frame of one column. *)
Definition rows (vs : list R) : DataFrame := map (fun v => [v]) vs.

(** Observations of the index and the value [start], ..., [start + n - 1]. *)
Definition ramp (start n : nat) : list Obs :=
  map (fun i => obs1 (Z.of_nat i) (INR i)) (seq start n).

(** The detector of the documentation: a window of 1000 and a sample period
    of 0.05, with histograms. *)
Definition documented_detector : Res Detector :=
  init 1000 0.99 0.1 "intersection" 0.05%float false false.

(** Is the step of a detector of the default sample period 0.05 zero? *)
Definition default_step_is_zero (ws : Z) : bool :=
  match py_step 0.05 ws with
  | Ok st => (st =? 0)%Z
  | Raise _ => false
  end.

(** * Properties *)

Lemma Rsum_nonneg (l : list R) : Forall (fun x => 0 <= x) l -> 0 <= Rsum l.
Proof.
  induction 1 as [|x l Hx _ IH]; simpl; lra.
Qed.

Lemma Rsum_map_scal {A} (c : R) (f : A -> R) (l : list A) :
  Rsum (map (fun a => f a * c) l) = Rsum (map f l) * c.
Proof.
  induction l as [|a l IH]; simpl.
  - lra.
  - rewrite IH. lra.
Qed.

Lemma Rsum_map_zero {A} (f : A -> R) (l : list A) :
  (forall a, In a l -> f a = 0) -> Rsum (map f l) = 0.
Proof.
  induction l as [|a l IH]; intros Hf; simpl.
  - reflexivity.
  - rewrite (Hf a) by (now left). rewrite IH; [lra|].
    intros b Hb. apply Hf. now right.
Qed.

(** [np.sum] over finite values is the real sum. *)
Lemma F_sum_fin_acc (l : list R) (a : R) :
  fold_left F.add (map Fin l) (Fin a) = Fin (a + Rsum l).
Proof.
  revert a. induction l as [|x l IH]; intros a; simpl.
  - f_equal. lra.
  - rewrite IH. f_equal. lra.
Qed.

Lemma F_sum_fin (l : list R) : F.sum (map Fin l) = Fin (Rsum l).
Proof.
  unfold F.sum. rewrite F_sum_fin_acc. f_equal. lra.
Qed.

Lemma F_div_fin (x y : R) : y <> 0 -> F.div (Fin x) (Fin y) = Fin (x / y).
Proof.
  intros Hy. simpl. destruct (Req_dec_T y 0); [contradiction|reflexivity].
Qed.

Lemma F_log_pos (x : R) : 0 < x -> F.log (Fin x) = Fin (ln x).
Proof.
  intros Hx. simpl. destruct (Rlt_dec 0 x); [reflexivity|contradiction].
Qed.

Lemma F_log_zero : F.log (Fin 0) = NInf.
Proof.
  simpl. destruct (Rlt_dec 0 0); [lra|reflexivity].
Qed.

(** [np.exp(np.log(x))] gives back a non-negative density [x]. *)
Lemma F_exp_log (x : R) : 0 <= x -> F.exp (F.log (Fin x)) = Fin x.
Proof.
  intros Hx. destruct (Rle_lt_or_eq_dec 0 x Hx) as [Hpos|Hz].
  - rewrite F_log_pos by assumption. simpl. now rewrite exp_ln.
  - subst x. now rewrite F_log_zero.
Qed.

Lemma F_abs_sub_comm (a b : float64) : F.abs (F.sub a b) = F.abs (F.sub b a).
Proof.
  destruct a as [x| | |], b as [y| | |]; simpl; try reflexivity.
  f_equal. replace (y + - x) with (- (x + - y)) by lra. now rewrite Rabs_Ropp.
Qed.

(** [ln z <= z - 1], the inequality behind the sign of the relative
    entropy. *)
Lemma ln_le_sub_1 (z : R) : 0 < z -> ln z <= z - 1.
Proof.
  intros Hz. pose proof (exp_ineq1_le (ln z)) as Hexp.
  rewrite exp_ln in Hexp by assumption. lra.
Qed.

(** ** The kernel backend *)

Lemma epanechnikov_nonneg (u : R) : 0 <= _epanechnikov_kernel u.
Proof.
  unfold _epanechnikov_kernel. destruct (Rle_dec (Rabs u) 1) as [Hu|Hu]; [|lra].
  assert (u ^ 2 <= 1).
  { replace (u ^ 2) with (Rabs u * Rabs u).
    - pose proof (Rabs_pos u). nra.
    - rewrite <- Rabs_mult. rewrite Rabs_right; [lra|nra]. }
  lra.
Qed.

Lemma epanechnikov_0 : _epanechnikov_kernel 0 = 3 / 4.
Proof.
  unfold _epanechnikov_kernel. rewrite Rabs_R0.
  destruct (Rle_dec 0 1); lra.
Qed.

Lemma KernelDensity_fit_ok (h : R) (X : list R) (k : KernelDensity) :
  KernelDensity_fit h X = Ok k -> 0 < h /\ k = {| kd_bandwidth := h; kd_data := X |}.
Proof.
  unfold KernelDensity_fit. destruct (Rle_dec h 0); intros Hk; [discriminate|].
  destruct X; [discriminate|]. inversion Hk. split; [lra|reflexivity].
Qed.

Lemma pow2_pos (n : nat) : 0 < 2 ^ n.
Proof. apply pow_lt. lra. Qed.

(** The square of a well-conditioned bandwidth is not rounded to 0. *)
Lemma well_conditioned_square (k : KernelDensity) :
  kd_well_conditioned k -> / 2 ^ 1075 < kd_bandwidth k * kd_bandwidth k.
Proof.
  intros [Hlo _].
  pose proof (pow2_pos 500) as H500. pose proof (pow2_pos 75) as H75.
  assert (Hinv : 0 < / 2 ^ 500) by (now apply Rinv_0_lt_compat).
  apply Rlt_le_trans with (/ 2 ^ 500 * / 2 ^ 500); [|nra].
  replace 1075%nat with (75 + (500 + 500))%nat by reflexivity.
  rewrite !pow_add. rewrite !Rinv_mult.
  assert (H1 : / 2 ^ 75 < 1).
  { rewrite <- Rinv_1. apply Rinv_lt_contravar; [lra|].
    apply Rlt_pow_R1; [lra|lia]. }
  assert (0 < / 2 ^ 500 * / 2 ^ 500) by nra. nra.
Qed.

(** Under a bandwidth whose square is not rounded to 0 the log-density is
    the logarithm of the estimated density. *)
Lemma kd_log_density_formula (k : KernelDensity) (x : R) :
  / 2 ^ 1075 < kd_bandwidth k * kd_bandwidth k ->
  kd_log_density k x = F.log (Fin (kd_pdf k x)).
Proof.
  intros Hh. unfold kd_log_density. cbv zeta.
  destruct (Rle_dec _ _) as [Hle|_]; [lra|reflexivity].
Qed.

(** Under a bandwidth whose square is rounded to 0 the log-density at a
    data point is [nan]. *)
Lemma kd_log_density_underflow (k : KernelDensity) (x : R) :
  0 < kd_bandwidth k -> kd_bandwidth k * kd_bandwidth k <= / 2 ^ 1075 ->
  In x (kd_data k) -> kd_log_density k x = NaN.
Proof.
  intros Hpos Hh Hx. unfold kd_log_density. cbv zeta.
  destruct (Rle_dec _ _) as [_|Hn]; [|contradiction].
  assert (Hex : existsb (fun x_j => if Rlt_dec (Rabs (x - x_j)) (kd_bandwidth k)
                                   then true else false) (kd_data k) = true).
  { apply existsb_exists. exists x. split; [exact Hx|].
    replace (x - x) with 0 by lra. rewrite Rabs_R0.
    destruct (Rlt_dec 0 (kd_bandwidth k)); [reflexivity|contradiction]. }
  rewrite Hex. reflexivity.
Qed.

Lemma score_samples_ok (k : KernelDensity) (points : list R) :
  points <> [] -> score_samples k points = Ok (map (kd_log_density k) points).
Proof. destruct points; [contradiction|reflexivity]. Qed.

Lemma kd_pdf_nonneg (k : KernelDensity) (x : R) :
  0 < kd_bandwidth k -> 0 <= kd_pdf k x.
Proof.
  intros Hh. unfold kd_pdf.
  assert (Hs : 0 <= Rsum (map (fun x_j => _epanechnikov_kernel
                                 ((x - x_j) / kd_bandwidth k)) (kd_data k))).
  { apply Rsum_nonneg. apply List.Forall_forall. intros y Hy.
    apply in_map_iff in Hy as (x_j & <- & _). apply epanechnikov_nonneg. }
  destruct (kd_data k) as [|d ds] eqn:Hd.
  - simpl. lra.
  - assert (0 < INR (length (d :: ds))) by (apply lt_0_INR; simpl; lia).
    assert (0 < 1 / (INR (length (d :: ds)) * kd_bandwidth k)).
    { apply Rdiv_lt_0_compat; [lra|]. now apply Rmult_lt_0_compat. }
    nra.
Qed.

(** At one of its own data points the estimated density is positive. *)
Lemma kd_pdf_pos_at_data (k : KernelDensity) (x : R) :
  0 < kd_bandwidth k -> In x (kd_data k) -> 0 < kd_pdf k x.
Proof.
  intros Hh Hx. unfold kd_pdf.
  assert (Hn : 0 < INR (length (kd_data k))).
  { apply lt_0_INR. destruct (kd_data k); [contradiction|simpl; lia]. }
  assert (Hs : 3 / 4 <= Rsum (map (fun x_j => _epanechnikov_kernel
                                 ((x - x_j) / kd_bandwidth k)) (kd_data k))).
  { clear Hn. induction (kd_data k) as [|d ds IH]; [contradiction|]. simpl.
    assert (Hrest : 0 <= Rsum (map (fun x_j => _epanechnikov_kernel
                                 ((x - x_j) / kd_bandwidth k)) ds)).
    { apply Rsum_nonneg. apply List.Forall_forall. intros y Hy.
      apply in_map_iff in Hy as (x_j & <- & _). apply epanechnikov_nonneg. }
    destruct Hx as [->|Hx].
    - replace ((x - x) / kd_bandwidth k) with 0 by (unfold Rdiv; lra).
      rewrite epanechnikov_0. lra.
    - pose proof (epanechnikov_nonneg ((x - d) / kd_bandwidth k)).
      specialize (IH Hx). lra. }
  assert (0 < 1 / (INR (length (kd_data k)) * kd_bandwidth k)).
  { apply Rdiv_lt_0_compat; [lra|]. now apply Rmult_lt_0_compat. }
  nra.
Qed.

(** What [_build_kde] returns when it returns: the estimator, fitted on
    the sample under a positive bandwidth, and the exponentials of its
    log-densities at the points of the sample. *)
Lemma build_kde_returns (sample : list R) (d : density_dict) :
  _build_kde sample = Ok d ->
  exists k,
    d = KdeDensity (map F.exp (map (kd_log_density k) sample)) k
    /\ kd_data k = sample
    /\ kd_bandwidth k
       = 1.06 * sqrt (variance sample) * Rpower (INR (length sample)) (- 1 / 5)
    /\ 0 < kd_bandwidth k
    /\ (2 <= length sample)%nat.
Proof.
  unfold _build_kde, stdev. destruct (length sample <? 2)%nat eqn:Hlen;
    cbn [res_bind].
  - discriminate.
  - apply Nat.ltb_ge in Hlen.
    destruct (KernelDensity_fit _ sample) as [k|e] eqn:Hfit; cbn [res_bind];
      [|discriminate].
    rewrite score_samples_ok by (destruct sample; [simpl in Hlen; lia|discriminate]).
    cbn [res_bind]. intros Hd. inversion Hd; subst d; clear Hd.
    apply KernelDensity_fit_ok in Hfit as [Hh Hk].
    exists k. subst k. cbn [kd_data kd_bandwidth]. auto.
Qed.

(** Under a well-conditioned bandwidth the densities are those of the
    formula. *)
Lemma exp_log_density (k : KernelDensity) (points : list R) :
  0 < kd_bandwidth k -> / 2 ^ 1075 < kd_bandwidth k * kd_bandwidth k ->
  map F.exp (map (kd_log_density k) points) = map Fin (map (kd_pdf k) points).
Proof.
  intros Hh Hsq. rewrite !map_map. apply map_ext. intros x.
  rewrite kd_log_density_formula by exact Hsq.
  apply F_exp_log. now apply kd_pdf_nonneg.
Qed.

Lemma build_kde_ok (sample : list R) (d : density_dict) (k : KernelDensity) :
  _build_kde sample = Ok d -> dd_object d = Ok k -> kd_well_conditioned k ->
  d = KdeDensity (map (fun x => Fin (kd_pdf k x)) sample) k
  /\ 0 < kd_bandwidth k /\ kd_data k = sample
  /\ (2 <= length sample)%nat.
Proof.
  intros Hd Hk Hwc.
  destruct (build_kde_returns sample d Hd) as (k' & -> & Hdata & _ & Hh & Hlen).
  cbn [dd_object] in Hk. injection Hk as ->.
  split; [|auto].
  rewrite exp_log_density by (auto using well_conditioned_square).
  now rewrite map_map.
Qed.

(** C7.  A sample of zero variance never yields a density estimate:
    [_build_kde] raises, either because [statistics.stdev] refuses a sample
    of fewer than two points or because the bandwidth, then exactly 0, is
    refused by the kernel density estimator; no bandwidth and no density
    value, finite or not, is returned. *)
Theorem build_kde_zero_variance_raises (sample : list R) :
  variance sample = 0 -> exists e, _build_kde sample = Raise e.
Proof.
  intros Hvar. unfold _build_kde, stdev.
  destruct (length sample <? 2)%nat; simpl.
  - now exists StatisticsError.
  - rewrite Hvar, sqrt_0. unfold KernelDensity_fit.
    destruct (Rle_dec _ 0) as [_|Hn]; simpl.
    + now exists ValueError.
    + exfalso. apply Hn. lra.
Qed.

Lemma variance_constant (c : R) (n : nat) : variance (repeat c n) = 0.
Proof.
  unfold variance.
  rewrite (Rsum_map_zero _ (repeat c n)).
  - unfold Rdiv. lra.
  - intros a Ha. destruct n as [|n]; [contradiction|].
    apply repeat_spec in Ha. subst a.
    assert (Hm : forall m, Rsum (repeat c m) = INR m * c).
    { induction m as [|m IH].
      - simpl. lra.
      - change (repeat c (S m)) with (c :: repeat c m).
        cbn [Rsum fold_right]. fold (Rsum (repeat c m)).
        rewrite IH, S_INR. lra. }
    unfold mean. rewrite Hm, repeat_length.
    assert (INR (S n) <> 0) by (apply not_0_INR; lia).
    replace (INR (S n) * c / INR (S n)) with c by (field; assumption).
    lra.
Qed.

Lemma build_kde_zero_variance_raises_witness :
  variance [3; 3; 3] = 0 /\ exists e, _build_kde [3; 3; 3] = Raise e.
Proof.
  split.
  - exact (variance_constant 3 3).
  - apply build_kde_zero_variance_raises. exact (variance_constant 3 3).
Defined.

(** ** Log-likelihood divergence *)

Lemma epanechnikov_outside (u : R) : 1 < Rabs u -> _epanechnikov_kernel u = 0.
Proof.
  intros Hu. unfold _epanechnikov_kernel.
  destruct (Rle_dec (Rabs u) 1); [lra|reflexivity].
Qed.

(** The value [_llh_divergence] computes: the test total is divided by the
    number of reference estimates and the reference total by the number of
    test points. *)
Lemma llh_divergence_value (dens : list float64) (k : KernelDensity)
    (test : list R) :
  test <> [] ->
  _llh_divergence (KdeDensity dens k) test =
  Ok (F.abs (F.sub (F.div_int (F.sum (map (kd_log_density k) test))
                      (length dens))
                   (F.div_int (F.sum (map F.log dens)) (length test)))).
Proof.
  intros Htest. unfold _llh_divergence. cbn [dd_object dd_density res_bind].
  rewrite score_samples_ok by exact Htest. reflexivity.
Qed.

(** No test point at all: the estimator refuses to score an empty array. *)
Lemma llh_divergence_empty (dens : list float64) (k : KernelDensity) :
  _llh_divergence (KdeDensity dens k) [] = Raise ValueError.
Proof. reflexivity. Qed.

(** On samples of equal length, as [update] passes them, the value is the
    one the specification describes. *)
Lemma llh_divergence_equal_lengths (dens : list float64) (k : KernelDensity)
    (test : list R) :
  test <> [] -> length dens = length test ->
  _llh_divergence (KdeDensity dens k) test =
  Ok (llh_divergence_spec (KdeDensity dens k) k test).
Proof.
  intros Htest Hlen. rewrite llh_divergence_value by exact Htest.
  unfold llh_divergence_spec.
  cbn [dd_density]. rewrite Hlen. f_equal. apply F_abs_sub_comm.
Qed.

Lemma llh_divergence_equal_lengths_witness :
  _llh_divergence llh_example_reference [0; 2] =
  Ok (llh_divergence_spec llh_example_reference llh_example_kernel [0; 2]).
Proof.
  apply (llh_divergence_equal_lengths [Fin (3 / 8); Fin (3 / 8)]
           llh_example_kernel [0; 2]); [discriminate|reflexivity].
Defined.

Lemma llh_example_pdf_0 : kd_pdf llh_example_kernel 0 = 3 / 8.
Proof.
  unfold kd_pdf, llh_example_kernel. cbn [kd_data kd_bandwidth length map Rsum fold_right INR].
  replace ((0 - 0) / 1) with 0 by lra.
  rewrite epanechnikov_0.
  rewrite (epanechnikov_outside ((0 - 2) / 1)).
  - lra.
  - rewrite Rabs_left; lra.
Qed.

(** The bandwidth 1 of the example is well-conditioned. *)
Lemma llh_example_log_density_0 :
  kd_log_density llh_example_kernel 0 = Fin (ln (3 / 8)).
Proof.
  rewrite kd_log_density_formula.
  - rewrite llh_example_pdf_0. apply F_log_pos. lra.
  - cbn [llh_example_kernel kd_bandwidth].
    assert (H : / 2 ^ 1075 < 1).
    { rewrite <- Rinv_1. apply Rinv_lt_contravar; [pose proof (pow2_pos 1075); lra|].
      apply Rlt_pow_R1; [lra|lia]. }
    lra.
Qed.

Lemma ln_3_8_neg : ln (3 / 8) < 0.
Proof.
  rewrite <- ln_1. apply ln_increasing; lra.
Qed.

(** C3.  On a reference density of two points and a test sample of one
    point, [_llh_divergence] returns [3/2 * |ln (3/8)|], which is not 0,
    whereas the divergence of the specification, each total over the length
    of its own sample, is 0 there. *)
Theorem llh_divergence_swapped_divisors :
  _llh_divergence llh_example_reference [0] = Ok (Fin (3 / 2 * - ln (3 / 8)))
  /\ llh_divergence_spec llh_example_reference llh_example_kernel [0] = Fin 0
  /\ 3 / 2 * - ln (3 / 8) <> 0.
Proof.
  pose proof ln_3_8_neg as Hneg.
  assert (Hlog : F.log (Fin (3 / 8)) = Fin (ln (3 / 8))) by (apply F_log_pos; lra).
  split; [|split].
  - unfold llh_example_reference.
    rewrite llh_divergence_value by discriminate.
    cbn [map length]. rewrite llh_example_log_density_0, Hlog.
    unfold F.sum, F.div_int. cbn [fold_left F.add INR].
    rewrite !F_div_fin by lra. cbn [F.sub F.opp F.add F.abs].
    do 2 f_equal. rewrite Rabs_right; lra.
  - unfold llh_divergence_spec, llh_example_reference.
    cbn [dd_density map length]. rewrite llh_example_log_density_0, Hlog.
    unfold F.sum, F.div_int. cbn [fold_left F.add INR].
    rewrite !F_div_fin by lra. cbn [F.sub F.opp F.add F.abs].
    f_equal. rewrite Rabs_right; lra.
  - lra.
Qed.

(** ** Histogram backend and intersection divergence *)

Lemma sum_nat_app (l1 l2 : list nat) :
  sum_nat (l1 ++ l2) = (sum_nat l1 + sum_nat l2)%nat.
Proof.
  induction l1 as [|a l1 IH]; simpl; [reflexivity|]. rewrite IH. lia.
Qed.

Lemma sum_nat_map_add {A} (f g : A -> nat) (l : list A) :
  sum_nat (map (fun a => (f a + g a)%nat) l)
  = (sum_nat (map f l) + sum_nat (map g l))%nat.
Proof.
  induction l as [|a l IH]; simpl; [reflexivity|]. rewrite IH. lia.
Qed.

Lemma INR_sum_nat {A} (f : A -> nat) (l : list A) :
  INR (sum_nat (map f l)) = Rsum (map (fun a => INR (f a)) l).
Proof.
  induction l as [|a l IH]; [reflexivity|].
  change (sum_nat (map f (a :: l))) with (f a + sum_nat (map f l))%nat.
  rewrite plus_INR, IH. reflexivity.
Qed.

Lemma outer_edges_lt (lo hi first last : R) :
  lo <= hi -> Np.outer_edges lo hi = (first, last) ->
  first < last /\ first <= lo /\ hi <= last.
Proof.
  unfold Np.outer_edges. intros Hle.
  destruct (Req_dec_T lo hi); intros Heq; inversion Heq; subst; lra.
Qed.

Section Bins.

Variables (first last : R) (b : nat).
Hypothesis Hfl : first < last.
Hypothesis Hb : (1 <= b)%nat.

Let w : R := (last - first) / INR b.

Lemma INR_b_pos : 0 < INR b.
Proof using Hb. apply lt_0_INR. lia. Qed.

Lemma bin_width_pos : 0 < w.
Proof using Hfl Hb.
  unfold w. apply Rdiv_lt_0_compat; [lra|apply INR_b_pos].
Qed.

Lemma edge_eq (i : nat) : Np.edge first last b i = first + INR i * w.
Proof using Type.
  unfold Np.edge, w, Rdiv. ring.
Qed.

Lemma edge_first : Np.edge first last b 0 = first.
Proof using Type.
  rewrite edge_eq. simpl. lra.
Qed.

Lemma edge_last : Np.edge first last b b = last.
Proof using Hb.
  pose proof INR_b_pos. unfold Np.edge. field. lra.
Qed.

Lemma edge_step (i : nat) :
  Np.edge first last b (S i) - Np.edge first last b i = w.
Proof using Type.
  rewrite !edge_eq, S_INR. ring.
Qed.

Lemma edge_ge_first (i : nat) : first <= Np.edge first last b i.
Proof using Hfl Hb.
  rewrite edge_eq. pose proof bin_width_pos. pose proof (pos_INR i). nra.
Qed.

(** The bins below [j] tile the interval from the first edge to edge [j]. *)
Lemma bins_below (x : R) (j : nat) :
  (j < b)%nat ->
  sum_nat (map (fun i => Nat.b2n (Np.in_bin first last b i x)) (seq 0 j))
  = Nat.b2n (if Rle_dec first x
             then (if Rlt_dec x (Np.edge first last b j) then true else false)
             else false).
Proof using Hfl Hb.
  induction j as [|j IH]; intros Hj.
  - simpl. rewrite edge_first.
    destruct (Rle_dec first x), (Rlt_dec x first); simpl; try reflexivity; lra.
  - rewrite seq_S, map_app, sum_nat_app, IH by lia. simpl.
    unfold Np.in_bin.
    destruct (Nat.eqb_spec (S j) b) as [Heq|_]; [lia|].
    pose proof (edge_step j) as Hstep. pose proof bin_width_pos as Hw.
    pose proof (edge_ge_first j) as Hge.
    destruct (Rle_dec first x), (Rlt_dec x (Np.edge first last b j)),
      (Rle_dec (Np.edge first last b j) x),
      (Rlt_dec x (Np.edge first last b (S j))); simpl; try reflexivity; lra.
Qed.

(** Every point of the range is counted in exactly one bin, every other
    point in none. *)
Lemma bins_partition (x : R) :
  sum_nat (map (fun i => Nat.b2n (Np.in_bin first last b i x)) (seq 0 b))
  = Nat.b2n (in_range first last x).
Proof using Hfl Hb.
  destruct (Nat.lt_exists_pred 0 b Hb) as (k & Hk & _).
  assert (Hseq : seq 0 b = seq 0 k ++ [k]) by (rewrite Hk; apply seq_S).
  rewrite Hseq, map_app, sum_nat_app, bins_below by lia. simpl.
  unfold Np.in_bin, in_range.
  destruct (Nat.eqb_spec (S k) b) as [_|Hne]; [|lia].
  pose proof (edge_step k) as Hstep. rewrite <- Hk, edge_last in Hstep.
  pose proof bin_width_pos as Hw. pose proof (edge_ge_first k) as Hge.
  destruct (Rle_dec first x), (Rlt_dec x (Np.edge first last b k)),
    (Rle_dec (Np.edge first last b k) x), (Rle_dec x last);
    simpl; try reflexivity; lra.
Qed.

(** The counts of all bins add up to the number of points in range. *)
Lemma counts_total (sample : list R) :
  sum_nat (Np.counts first last b sample)
  = length (List.filter (in_range first last) sample).
Proof using Hfl Hb.
  unfold Np.counts, Np.bin_count.
  induction sample as [|x s IH].
  - simpl. induction (seq 0 b); simpl; auto.
  - transitivity
      (sum_nat (map (fun i => (Nat.b2n (Np.in_bin first last b i x)
                     + length (List.filter (Np.in_bin first last b i) s))%nat)
                  (seq 0 b))).
    + f_equal. apply map_ext. intros i. simpl.
      destruct (Np.in_bin first last b i x); reflexivity.
    + rewrite sum_nat_map_add, bins_partition, IH. simpl.
      destruct (in_range first last x); reflexivity.
Qed.



End Bins.

Lemma counts_nth (first last : R) (b : nat) (sample : list R) (i : nat) :
  (i < b)%nat ->
  nth i (Np.counts first last b sample) 0%nat
  = Np.bin_count first last b sample i.
Proof.
  intros Hi. unfold Np.counts.
  rewrite (nth_indep _ 0%nat (Np.bin_count first last b sample 0))
    by (rewrite length_map, length_seq; exact Hi).
  rewrite (map_nth (Np.bin_count first last b sample)), seq_nth by exact Hi.
  reflexivity.
Qed.

Lemma in_range_widen (lo hi first last x : R) :
  first <= lo -> hi <= last -> lo <= x <= hi -> in_range first last x = true.
Proof.
  intros H1 H2 Hx. unfold in_range.
  destruct (Rle_dec first x), (Rle_dec x last); try reflexivity; lra.
Qed.

Lemma filter_Exists_length {A} (f : A -> bool) (l : list A) :
  List.Exists (fun x => f x = true) l -> (0 < length (List.filter f l))%nat.
Proof.
  induction 1 as [x l Hx|x l _ IH]; simpl.
  - rewrite Hx. simpl. lia.
  - destruct (f x); simpl; lia.
Qed.


(** The densities [_build_histograms] returns are the bin probabilities:
    count of the bin over the number of points counted. *)
Lemma build_histograms_value (sample : list R) (bins : Z) (lo hi first last : R) :
  (1 <= bins)%Z -> lo <= hi -> Np.outer_edges lo hi = (first, last) ->
  (0 < length (List.filter (in_range first last) sample))%nat ->
  _build_histograms sample bins (lo, hi)
  = Ok (HistDensity (Np.bin_edges first last (Z.to_nat bins))
          (map Fin (bin_probabilities first last (Z.to_nat bins) sample))).
Proof.
  intros Hbins Hle Hedges HN.
  destruct (outer_edges_lt lo hi first last Hle Hedges) as (Hfl & _ & _).
  unfold _build_histograms, Np.histogram_density. rewrite Hedges.
  destruct (bins <? 1)%Z eqn:Hb; [apply Z.ltb_lt in Hb; lia|].
  destruct (Rlt_dec hi lo); [lra|].
  set (b := Z.to_nat bins). assert (Hb1 : (1 <= b)%nat) by (unfold b; lia).
  set (N := length (List.filter (in_range first last) sample)) in *.
  set (w := (last - first) / INR b).
  assert (Hw : 0 < w) by (apply bin_width_pos; assumption).
  assert (HNR : 0 < INR N) by (apply lt_0_INR; exact HN).
  set (g := fun i => INR (Np.bin_count first last b sample i) / w / INR N).
  assert (Hhist :
    map (fun i => F.div (F.div (Fin (INR (nth i (Np.counts first last b sample) 0%nat)))
                               (Fin (Np.edge first last b (S i) - Np.edge first last b i)))
                        (Fin (INR (sum_nat (Np.counts first last b sample)))))
        (seq 0 b)
    = map Fin (map g (seq 0 b))).
  { rewrite map_map. apply map_ext_in. intros i Hi. apply in_seq in Hi.
    rewrite counts_nth by lia. rewrite edge_step, counts_total by assumption.
    fold N w. rewrite !F_div_fin by lra. reflexivity. }
  cbn [res_bind fst snd]. rewrite Hhist. f_equal. f_equal.
  rewrite F_sum_fin.
  assert (Hsum : Rsum (map g (seq 0 b)) = 1 / w).
  { unfold g, Rdiv. rewrite !Rsum_map_scal.
    rewrite <- (INR_sum_nat (Np.bin_count first last b sample)).
    fold (Np.counts first last b sample). rewrite counts_total by assumption.
    fold N. field. lra. }
  rewrite Hsum. unfold bin_probabilities. rewrite !map_map.
  apply map_ext. intros i.
  rewrite F_div_fin.
  - f_equal. unfold g, bin_probability. fold N. field. lra.
  - apply Rgt_not_eq. apply Rdiv_lt_0_compat; lra.
Qed.

Lemma F_minimum_fin (a b : R) : F.minimum (Fin a) (Fin b) = Fin (Rmin a b).
Proof.
  unfold F.minimum, F.ltb, Rmin.
  destruct (Rlt_dec b a), (Rle_dec a b); try reflexivity; lra.
Qed.

Lemma minimum_combine_fin (p q : list R) :
  map (fun pq => F.minimum (fst pq) (snd pq)) (combine (map Fin p) (map Fin q))
  = map Fin (map (fun pq => Rmin (fst pq) (snd pq)) (combine p q)).
Proof.
  revert q. induction p as [|a p IH]; intros [|c q]; try reflexivity.
  cbn [map combine fst snd]. rewrite F_minimum_fin, IH. reflexivity.
Qed.

(** The value of [_intersection_divergence] on two histograms of equally
    many finite bin probabilities. *)
Lemma intersection_divergence_value (e1 e2 : list R) (p q : list R) :
  length p = length q ->
  _intersection_divergence (HistDensity e1 (map Fin p)) (HistDensity e2 (map Fin q))
  = Ok (Fin (intersection_spec p q)).
Proof.
  intros Hlen. unfold _intersection_divergence, broadcast. cbn [dd_density].
  rewrite !length_map, Hlen, Nat.eqb_refl. cbn [res_bind].
  rewrite minimum_combine_fin, F_sum_fin. unfold intersection_spec.
  cbn [F.sub F.opp F.add]. do 2 f_equal.
Qed.





(** *** Bounds of a series *)

Lemma fold_min_le (l : list R) : forall a,
  fold_left (fun m y => if Rlt_dec y m then y else m) l a <= a
  /\ forall x, In x l ->
       fold_left (fun m y => if Rlt_dec y m then y else m) l a <= x.
Proof.
  induction l as [|y l IH]; intros a; simpl.
  - split; [lra|contradiction].
  - destruct (Rlt_dec y a) as [Hlt|Hge].
    + destruct (IH y) as [H1 H2]. split; [lra|].
      intros x [<-|Hx]; [exact H1|now apply H2].
    + destruct (IH a) as [H1 H2]. split; [exact H1|].
      intros x [<-|Hx]; [lra|now apply H2].
Qed.

Lemma fold_max_ge (l : list R) : forall a,
  a <= fold_left (fun m y => if Rlt_dec m y then y else m) l a
  /\ forall x, In x l ->
       x <= fold_left (fun m y => if Rlt_dec m y then y else m) l a.
Proof.
  induction l as [|y l IH]; intros a; simpl.
  - split; [lra|contradiction].
  - destruct (Rlt_dec a y) as [Hlt|Hge].
    + destruct (IH y) as [H1 H2]. split; [lra|].
      intros x [<-|Hx]; [exact H1|now apply H2].
    + destruct (IH a) as [H1 H2]. split; [exact H1|].
      intros x [<-|Hx]; [lra|now apply H2].
Qed.

Lemma py_min_max_R_spec (l : list R) :
  l <> [] ->
  exists lo hi, py_min_R l = Ok lo /\ py_max_R l = Ok hi
                /\ forall x, In x l -> lo <= x <= hi.
Proof.
  destruct l as [|a l]; [contradiction|]. intros _.
  eexists. eexists. split; [reflexivity|]. split; [reflexivity|].
  destruct (fold_min_le l a) as [H1 H2]. destruct (fold_max_ge l a) as [H3 H4].
  intros x [<-|Hx]; split; auto.
Qed.

(** Over the bounds of a series that contains the sample, a non-empty
    sample always has its histogram. *)
Lemma histogram_at_bounds (combined col : list R) (bins : Z) :
  (1 <= bins)%Z -> col <> [] -> incl col combined ->
  exists lo hi first last,
    py_min_R combined = Ok lo /\ py_max_R combined = Ok hi
    /\ _build_histograms col bins (lo, hi)
       = Ok (HistDensity (Np.bin_edges first last (Z.to_nat bins))
               (map Fin (bin_probabilities first last (Z.to_nat bins) col))).
Proof.
  intros Hbins Hcol Hincl.
  assert (Hne : combined <> []).
  { destruct col as [|c col]; [contradiction|].
    intros ->. apply (Hincl c). now left. }
  destruct (py_min_max_R_spec combined Hne) as (lo & hi & Hlo & Hhi & Hall).
  destruct (Np.outer_edges lo hi) as [first last] eqn:Hedges.
  exists lo, hi, first, last. split; [exact Hlo|]. split; [exact Hhi|].
  destruct col as [|c col]; [contradiction|].
  assert (Hc : lo <= c <= hi) by (apply Hall, Hincl; now left).
  assert (Hle : lo <= hi) by lra.
  destruct (outer_edges_lt lo hi first last Hle Hedges) as (_ & H1 & H2).
  apply build_histograms_value; auto.
  apply filter_Exists_length. apply List.Exists_cons_hd.
  now apply (in_range_widen lo hi).
Qed.

(** ** Modified Kullback-Leibler divergence *)

Lemma Rsum_pos (l : list R) :
  Forall (fun x => 0 <= x) l -> List.Exists (fun x => 0 < x) l -> 0 < Rsum l.
Proof.
  intros Hall Hex. induction Hex as [x l Hx|x l _ IH].
  - inversion Hall as [|? ? _ Hl]; subst. simpl.
    pose proof (Rsum_nonneg l Hl). lra.
  - inversion Hall as [|? ? Hx Hl]; subst. simpl. specialize (IH Hl). lra.
Qed.

Lemma rel_entr_fin (a b : R) :
  0 <= a -> 0 <= b -> Scipy.rel_entr (Fin a) (Fin b) = kl_term a b.
Proof.
  intros Ha Hb. unfold Scipy.rel_entr, kl_term, F.ltb.
  destruct (Rlt_dec 0 a) as [Hap|Han], (Rlt_dec 0 b) as [Hbp|Hbn]; cbn [andb].
  - destruct (Req_dec_T a 0); [lra|]. destruct (Req_dec_T b 0); [lra|].
    rewrite F_div_fin by lra. rewrite F_log_pos.
    + reflexivity.
    + apply Rdiv_lt_0_compat; lra.
  - destruct (Req_dec_T a 0); [lra|]. destruct (Req_dec_T b 0); [reflexivity|lra].
  - destruct (Req_dec_T a 0); [|lra]. destruct (Rlt_dec b 0); [lra|reflexivity].
  - destruct (Req_dec_T a 0); [|lra]. destruct (Rlt_dec b 0); [lra|reflexivity].
Qed.

(** [scipy.stats.entropy] on two arrays of non-negative estimates with
    positive sums. *)
Lemma entropy_fin (p q : list R) :
  length p = length q ->
  Forall (fun x => 0 <= x) p -> Forall (fun x => 0 <= x) q ->
  0 < Rsum p -> 0 < Rsum q ->
  Scipy.entropy (map Fin p) (map Fin q) = Ok (kl_divergence p q).
Proof.
  intros Hlen Hp Hq Hsp Hsq. unfold Scipy.entropy, kl_divergence.
  rewrite !length_map, Hlen, Nat.eqb_refl. f_equal. f_equal.
  rewrite !F_sum_fin, !map_map.
  assert (Hgen : forall S1 S2 (p q : list R),
             0 < S1 -> 0 < S2 ->
             Forall (fun x => 0 <= x) p -> Forall (fun x => 0 <= x) q ->
             map (fun pq => Scipy.rel_entr (fst pq) (snd pq))
               (combine (map (fun x => F.div (Fin x) (Fin S1)) p)
                        (map (fun x => F.div (Fin x) (Fin S2)) q))
             = map (fun pq => kl_term (fst pq / S1) (snd pq / S2)) (combine p q)).
  { intros S1 S2 p0. induction p0 as [|a p0 IH]; intros [|c q0] HS1 HS2 Hp0 Hq0;
      try reflexivity.
    inversion Hp0; inversion Hq0; subst. cbn [map combine fst snd].
    rewrite IH by assumption. f_equal.
    rewrite !F_div_fin by lra. apply rel_entr_fin.
    - apply Rmult_le_pos; [assumption|]. left. apply Rinv_0_lt_compat; lra.
    - apply Rmult_le_pos; [assumption|]. left. apply Rinv_0_lt_compat; lra. }
  apply Hgen; assumption.
Qed.

Lemma at_least_add (a b : float64) (r1 r2 : R) :
  at_least a r1 -> at_least b r2 -> at_least (F.add a b) (r1 + r2).
Proof.
  destruct a, b; simpl; try tauto; lra.
Qed.

Lemma at_least_fold (l : list float64) (lbs : list R) (acc : float64) (r : R) :
  Forall2 at_least l lbs -> at_least acc r ->
  at_least (fold_left F.add l acc) (r + Rsum lbs).
Proof.
  intros Hall. revert acc r. induction Hall as [|x lb l lbs Hx _ IH]; intros acc r Hacc.
  - simpl. destruct acc; simpl in *; try tauto; lra.
  - cbn [fold_left Rsum fold_right]. fold (Rsum lbs).
    replace (r + (lb + Rsum lbs)) with ((r + lb) + Rsum lbs) by lra.
    apply IH. now apply at_least_add.
Qed.

(** [x * ln (x / y) >= x - y]. *)
Lemma kl_term_lower_bound (x y : R) :
  0 <= x -> 0 <= y -> at_least (kl_term x y) (x - y).
Proof.
  intros Hx Hy. unfold kl_term.
  destruct (Req_dec_T x 0) as [->|Hx0]; [simpl; lra|].
  destruct (Req_dec_T y 0) as [->|Hy0]; [exact I|].
  simpl. assert (Hxp : 0 < x) by lra. assert (Hyp : 0 < y) by lra.
  assert (Hq : 0 < y / x) by (apply Rdiv_lt_0_compat; assumption).
  pose proof (ln_le_sub_1 (y / x) Hq) as Hln.
  assert (Hinv : ln (x / y) = - ln (y / x)).
  { rewrite <- ln_Rinv by assumption. f_equal. field. lra. }
  rewrite Hinv.
  assert (Hmul : x * (y / x - 1) = y - x) by (field; lra).
  nra.
Qed.

Lemma Rsum_combine_sub (p q : list R) (c d : R) :
  length p = length q ->
  Rsum (map (fun pq => fst pq / c - snd pq / d) (combine p q))
  = Rsum p / c - Rsum q / d.
Proof.
  revert q. induction p as [|a p IH]; intros [|b q] Hlen; try discriminate.
  - simpl. unfold Rdiv. lra.
  - simpl in Hlen. injection Hlen as Hlen. simpl. rewrite IH by assumption.
    unfold Rdiv. lra.
Qed.

(** Gibbs' inequality: the divergence of two normalised arrays is not
    negative (it may be infinite). *)
Lemma kl_divergence_nonneg (p q : list R) :
  length p = length q ->
  Forall (fun x => 0 <= x) p -> Forall (fun x => 0 <= x) q ->
  0 < Rsum p -> 0 < Rsum q ->
  F.nonneg (kl_divergence p q).
Proof.
  intros Hlen Hp Hq Hsp Hsq.
  assert (Hlb : at_least (kl_divergence p q)
                  (0 + Rsum (map (fun pq => fst pq / Rsum p - snd pq / Rsum q)
                               (combine p q)))).
  { unfold kl_divergence, F.sum. apply at_least_fold; [|simpl; lra].
    generalize (Rsum p) (Rsum q) Hsp Hsq. intros c d Hc Hd.
    clear Hsp Hsq. revert q Hlen Hq.
    induction Hp as [|a p Ha Hp IH]; intros [|b q] Hlen Hq; try discriminate.
    - constructor.
    - inversion Hq; subst. cbn [map combine fst snd]. constructor.
      + apply kl_term_lower_bound.
        * apply Rmult_le_pos; [assumption|]. left. apply Rinv_0_lt_compat; lra.
        * apply Rmult_le_pos; [assumption|]. left. apply Rinv_0_lt_compat; lra.
      + apply IH; [simpl in Hlen; lia|assumption]. }
  rewrite Rsum_combine_sub in Hlb by assumption.
  replace (0 + (Rsum p / Rsum p - Rsum q / Rsum q)) with 0 in Hlb by (field; lra).
  destruct (kl_divergence p q); simpl in *; tauto.
Qed.

Lemma kl_term_self (x : R) : kl_term x x = Fin 0.
Proof.
  unfold kl_term. destruct (Req_dec_T x 0) as [|Hx]; [reflexivity|].
  replace (x / x) with 1 by (field; assumption). rewrite ln_1. f_equal. lra.
Qed.

Lemma kl_divergence_self (p : list R) : kl_divergence p p = Fin 0.
Proof.
  unfold kl_divergence, F.sum. generalize (Rsum p) at 1 2. intros c.
  generalize 0 at 1 2. intros a.
  induction p as [|x p IH]; [reflexivity|].
  cbn [combine map fold_left fst snd]. rewrite kl_term_self.
  cbn [F.add]. replace (a + 0) with a by lra. exact IH.
Qed.

Lemma py_max2_nonneg (a b : float64) :
  F.nonneg a -> F.nonneg b -> F.nonneg (py_max2 a b).
Proof.
  intros Ha Hb. unfold py_max2. destruct (F.ltb a b); assumption.
Qed.

(** [max] of two floats neither of which is [nan] or negative: one of the
    two, and not below either. *)
Lemma py_max2_greatest (a b : float64) :
  F.nonneg a -> F.nonneg b ->
  (py_max2 a b = a \/ py_max2 a b = b)
  /\ float_le a (py_max2 a b) /\ float_le b (py_max2 a b).
Proof.
  intros Ha Hb. unfold py_max2, F.ltb.
  destruct a as [x| | |], b as [y| | |]; try contradiction;
    try (destruct (Rlt_dec x y)); cbn [float_le]; auto; repeat split; auto; lra.
Qed.

(** The value [_modified_kl_divergence] computes on two estimators with
    well-conditioned bandwidths. *)
Lemma modified_kl_divergence_value (ref test : list R) (dr dt : list float64)
    (kr kt : KernelDensity) :
  ref ++ test <> [] ->
  0 < kd_bandwidth kr -> 0 < kd_bandwidth kt ->
  kd_well_conditioned kr -> kd_well_conditioned kt ->
  let p := map (kd_pdf kr) (ref ++ test) in
  let q := map (kd_pdf kt) (ref ++ test) in
  0 < Rsum p -> 0 < Rsum q ->
  _modified_kl_divergence ref test (KdeDensity dr kr) (KdeDensity dt kt)
  = Ok (py_max2 (kl_divergence p q) (kl_divergence q p))
  /\ F.nonneg (kl_divergence p q) /\ F.nonneg (kl_divergence q p).
Proof.
  intros Hne Hhr Hht Hwr Hwt p q Hsp Hsq.
  assert (Hlen : length p = length q) by (unfold p, q; now rewrite !length_map).
  assert (Hp : Forall (fun x => 0 <= x) p).
  { apply List.Forall_forall. intros y Hy. apply in_map_iff in Hy as (x & <- & _).
    now apply kd_pdf_nonneg. }
  assert (Hq : Forall (fun x => 0 <= x) q).
  { apply List.Forall_forall. intros y Hy. apply in_map_iff in Hy as (x & <- & _).
    now apply kd_pdf_nonneg. }
  split; [|split; apply kl_divergence_nonneg; auto].
  unfold _modified_kl_divergence. cbn [dd_object res_bind].
  rewrite !score_samples_ok by exact Hne. cbn [res_bind].
  rewrite !exp_log_density by (auto using well_conditioned_square). fold p q.
  rewrite (entropy_fin p q), (entropy_fin q p) by auto.
  reflexivity.
Qed.

(** C5.  For two samples with their fitted kernel density estimates, of
    well-conditioned bandwidths, [_modified_kl_divergence] evaluates both
    densities at every point of the concatenation of the samples, takes the
    Kullback-Leibler divergence of the two arrays of estimates in both
    directions and returns the larger: one of the two, and not below
    either; the value is not negative (it may be infinite), and it is 0
    when the two samples are the same. *)
Theorem modified_kl_divergence_spec (ref test : list R) (dr dt : density_dict)
    (kr kt : KernelDensity) :
  _build_kde ref = Ok dr -> _build_kde test = Ok dt ->
  dd_object dr = Ok kr -> dd_object dt = Ok kt ->
  kd_well_conditioned kr -> kd_well_conditioned kt ->
  let p := map (kd_pdf kr) (ref ++ test) in
  let q := map (kd_pdf kt) (ref ++ test) in
  exists kl,
    _modified_kl_divergence ref test dr dt = Ok kl
    /\ (kl = kl_divergence p q \/ kl = kl_divergence q p)
    /\ float_le (kl_divergence p q) kl /\ float_le (kl_divergence q p) kl
    /\ F.nonneg kl
    /\ (ref = test -> kl = Fin 0).
Proof.
  intros Hr Ht Hkr Hkt Hwr Hwt p q.
  destruct (build_kde_ok _ _ _ Hr Hkr Hwr) as (-> & Hhr & Hdr & Hnr).
  destruct (build_kde_ok _ _ _ Ht Hkt Hwt) as (Hdt & Hht & Hdt' & Hnt).
  assert (Hne : ref ++ test <> []).
  { destruct ref; [simpl in Hnr; lia|discriminate]. }
  assert (Hsp : 0 < Rsum p).
  { apply Rsum_pos.
    - apply List.Forall_forall. intros y Hy.
      apply in_map_iff in Hy as (x & <- & _). now apply kd_pdf_nonneg.
    - unfold p. destruct ref as [|x0 ref']; [simpl in Hnr; lia|].
      apply List.Exists_cons_hd. apply kd_pdf_pos_at_data; [exact Hhr|].
      rewrite Hdr. now left. }
  assert (Hsq : 0 < Rsum q).
  { apply Rsum_pos.
    - apply List.Forall_forall. intros y Hy.
      apply in_map_iff in Hy as (x & <- & _). now apply kd_pdf_nonneg.
    - unfold q. destruct test as [|y0 test']; [simpl in Hnt; lia|].
      apply List.Exists_exists. exists (kd_pdf kt y0). split.
      + apply in_map. apply in_or_app. right. now left.
      + apply kd_pdf_pos_at_data; [exact Hht|]. rewrite Hdt'. now left. }
  subst dt.
  destruct (modified_kl_divergence_value ref test
              (map (fun x => Fin (kd_pdf kr x)) ref)
              (map (fun x => Fin (kd_pdf kt x)) test)
              kr kt Hne Hhr Hht Hwr Hwt Hsp Hsq) as (Hval & Hn1 & Hn2).
  fold p q in Hval, Hn1, Hn2.
  destruct (py_max2_greatest _ _ Hn1 Hn2) as (Hone & Hle1 & Hle2).
  exists (py_max2 (kl_divergence p q) (kl_divergence q p)).
  split; [exact Hval|]. split; [exact Hone|]. split; [exact Hle1|].
  split; [exact Hle2|]. split; [now apply py_max2_nonneg|].
  intros Heq. rewrite <- Heq, Hr in Ht. injection Ht as _ Hk.
  unfold q. rewrite <- Hk. fold p. rewrite kl_divergence_self.
  unfold py_max2, F.ltb. destruct (Rlt_dec 0 0); [lra|reflexivity].
Qed.

(** A sample of at least two points and positive variance has a kernel
    density estimate. *)
Lemma build_kde_total (sample : list R) :
  (2 <= length sample)%nat -> 0 < variance sample ->
  exists d, _build_kde sample = Ok d.
Proof.
  intros Hlen Hvar. unfold _build_kde, stdev.
  destruct (length sample <? 2)%nat eqn:Hl; [apply Nat.ltb_lt in Hl; lia|].
  cbn [res_bind]. unfold KernelDensity_fit.
  assert (Hsd : 0 < sqrt (variance sample)) by (now apply sqrt_lt_R0).
  assert (Hpow : 0 < Rpower (INR (length sample)) (- 1 / 5)).
  { unfold Rpower. apply exp_pos. }
  destruct (Rle_dec _ 0) as [Hle|_].
  - exfalso. assert (0 < 1.06 * sqrt (variance sample)) by lra. nra.
  - destruct sample as [|x sample]; [simpl in Hlen; lia|].
    cbn [res_bind score_samples]. eauto.
Qed.

(** Two distinct values make the variance positive. *)
Lemma variance_pos (a b : R) (rest : list R) :
  a <> b -> 0 < variance (a :: b :: rest).
Proof.
  intros Hab. unfold variance. generalize (mean (a :: b :: rest)). intros m.
  apply Rdiv_lt_0_compat.
  - cbn [map Rsum fold_right].
    assert (Hrest : 0 <= Rsum (map (fun x => (x - m) ^ 2) rest)).
    { apply Rsum_nonneg. apply List.Forall_forall. intros y Hy.
      apply in_map_iff in Hy as (x & <- & _). apply pow2_ge_0. }
    unfold Rsum in Hrest.
    assert (Hsq : forall x, x ^ 2 = Rsqr x) by (intros x; unfold Rsqr; ring).
    pose proof (pow2_ge_0 (a - m)). pose proof (pow2_ge_0 (b - m)).
    assert (0 < (a - m) ^ 2 + (b - m) ^ 2).
    { destruct (Req_dec_T a m) as [Ha|Ha].
      - assert (0 < (b - m) ^ 2) by (rewrite Hsq; apply Rsqr_pos_lt; lra). lra.
      - assert (0 < (a - m) ^ 2) by (rewrite Hsq; apply Rsqr_pos_lt; lra). lra. }
    lra.
  - apply lt_0_INR. simpl. lia.
Qed.

(** *** Bandwidths of ordinary samples *)

Lemma Rpower_neg_le_1 (n : nat) (y : R) :
  (1 <= n)%nat -> 0 <= y -> Rpower (INR n) (- y) <= 1.
Proof.
  intros Hn Hy. unfold Rpower. rewrite <- exp_0.
  assert (Hln : 0 <= ln (INR n)).
  { rewrite <- ln_1. destruct (Req_dec_T (INR n) 1) as [->|Hne]; [lra|].
    left. apply ln_increasing; [lra|].
    assert (1 <= INR n) by (replace 1 with (INR 1) by reflexivity; now apply le_INR).
    lra. }
  destruct (Req_dec_T (- y * ln (INR n)) 0) as [->|Hne]; [lra|].
  left. apply exp_increasing. nra.
Qed.

Lemma Rpower_fifth_ge_inv (n : nat) :
  (1 <= n)%nat -> / INR n <= Rpower (INR n) (- 1 / 5).
Proof.
  intros Hn.
  assert (Hpos : 0 < INR n) by (apply lt_0_INR; lia).
  assert (Hln : 0 <= ln (INR n)).
  { rewrite <- ln_1. destruct (Req_dec_T (INR n) 1) as [->|Hne]; [lra|].
    left. apply ln_increasing; [lra|].
    assert (1 <= INR n) by (replace 1 with (INR 1) by reflexivity; now apply le_INR).
    lra. }
  rewrite <- (exp_ln (INR n)) at 1 by exact Hpos. rewrite <- exp_Ropp.
  unfold Rpower.
  destruct (Req_dec_T (- ln (INR n)) (- 1 / 5 * ln (INR n))) as [->|Hne];
    [lra|].
  left. apply exp_increasing. nra.
Qed.

(** The bandwidth of a sample of at most a thousand points whose variance
    is between 1/4 and 4 is well-conditioned. *)
Lemma build_kde_well_conditioned (sample : list R) (d : density_dict)
    (k : KernelDensity) :
  _build_kde sample = Ok d -> dd_object d = Ok k ->
  / 4 <= variance sample <= 4 -> (length sample <= 1000)%nat ->
  kd_well_conditioned k.
Proof.
  intros Hd Hk [Hvlo Hvhi] Hn.
  destruct (build_kde_returns sample d Hd) as (k' & -> & _ & Hbw & _ & Hlen).
  cbn [dd_object] in Hk. injection Hk as ->.
  unfold kd_well_conditioned. rewrite Hbw.
  assert (Hs1 : / 2 <= sqrt (variance sample)).
  { assert (H4 : sqrt (/ 4) = / 2).
    { replace (/ 4) with (/ 2 * / 2) by lra. apply sqrt_square. lra. }
    rewrite <- H4. apply sqrt_le_1_alt. exact Hvlo. }
  assert (Hs2 : sqrt (variance sample) <= 2).
  { assert (H4 : sqrt 4 = 2).
    { replace 4 with (2 * 2) by lra. apply sqrt_square. lra. }
    rewrite <- H4. apply sqrt_le_1_alt. exact Hvhi. }
  pose proof (Rpower_neg_le_1 (length sample) (1 / 5) ltac:(lia) ltac:(lra))
    as Hp1.
  replace (- (1 / 5)) with (- 1 / 5) in Hp1 by lra.
  pose proof (Rpower_fifth_ge_inv (length sample) ltac:(lia)) as Hp2.
  assert (Hinv : / 1000 <= / INR (length sample)).
  { apply Rinv_le_contravar; [apply lt_0_INR; lia|].
    replace 1000 with (INR 1000) by (simpl; lra). now apply le_INR. }
  assert (Hlow : / 2 ^ 500 <= / 2 ^ 11).
  { apply Rinv_le_contravar; [apply pow2_pos|]. apply Rle_pow; [lra|lia]. }
  assert (Hhigh : 2 ^ 2 <= 2 ^ 500) by (apply Rle_pow; [lra|lia]).
  assert (H11 : / 2 ^ 11 = / 2048) by (f_equal; simpl; lra).
  assert (Hp0 : 0 < Rpower (INR (length sample)) (- 1 / 5))
    by (unfold Rpower; apply exp_pos).
  split.
  - apply Rle_trans with (1.06 * / 2 * / 1000); [lra|].
    apply Rmult_le_compat; try nra; lra.
  - apply Rle_trans with (1.06 * 2 * 1); [|simpl in Hhigh; lra].
    apply Rmult_le_compat; try nra; lra.
Qed.

Lemma variance_pair (a : R) : variance [a; a + 1] = 1 / 2.
Proof.
  unfold variance, mean. cbn [map Rsum fold_right length INR Nat.sub]. field.
Qed.

Lemma variance_0_1 : variance [0; 1] = 1 / 2.
Proof.
  unfold variance, mean. cbn [map Rsum fold_right length INR Nat.sub]. field.
Qed.

Lemma variance_0_1_3 : variance [0; 1; 3] = 7 / 3.
Proof.
  unfold variance, mean. cbn [map Rsum fold_right length INR Nat.sub]. field.
Qed.

Lemma modified_kl_divergence_spec_witness :
  exists dr dt,
    _build_kde [0; 1] = Ok dr /\ _build_kde [0; 1; 3] = Ok dt
    /\ exists kl, _modified_kl_divergence [0; 1] [0; 1; 3] dr dt = Ok kl
                  /\ F.nonneg kl.
Proof.
  destruct (build_kde_total [0; 1] ltac:(simpl; lia)
              (variance_pos 0 1 [] ltac:(lra))) as [dr Hr].
  destruct (build_kde_total [0; 1; 3] ltac:(simpl; lia)
              (variance_pos 0 1 [3] ltac:(lra))) as [dt Ht].
  exists dr, dt. split; [exact Hr|]. split; [exact Ht|].
  destruct (build_kde_returns _ _ Hr) as (kr & Hdr & _).
  destruct (build_kde_returns _ _ Ht) as (kt & Hdt & _).
  assert (Hkr : dd_object dr = Ok kr) by (rewrite Hdr; reflexivity).
  assert (Hkt : dd_object dt = Ok kt) by (rewrite Hdt; reflexivity).
  assert (Hwr : kd_well_conditioned kr).
  { apply (build_kde_well_conditioned [0; 1] dr kr Hr Hkr);
      [|simpl; lia].
    rewrite variance_0_1. lra. }
  assert (Hwt : kd_well_conditioned kt).
  { apply (build_kde_well_conditioned [0; 1; 3] dt kt Ht Hkt);
      [|simpl; lia].
    rewrite variance_0_1_3. lra. }
  destruct (modified_kl_divergence_spec _ _ _ _ _ _ Hr Ht Hkr Hkt Hwr Hwt)
    as (kl & Hkl & _ & _ & _ & Hnn & _).
  exists kl. split; [exact Hkl|exact Hnn].
Defined.

(** C5, as stated, fails on a sample of tiny spread: the square of the
    bandwidth of the sample [0, 2 ** -600] is rounded to 0, the estimates
    of its kernel density are [nan], and so is the divergence of the sample
    from itself, which is then neither non-negative nor near 0. *)
Lemma modified_kl_divergence_nan :
  exists d,
    _build_kde [0; / 2 ^ 600] = Ok d
    /\ dd_density d = [NaN; NaN]
    /\ _modified_kl_divergence [0; / 2 ^ 600] [0; / 2 ^ 600] d d = Ok NaN
    /\ ~ F.nonneg NaN.
Proof.
  pose proof (pow2_pos 600) as H600.
  assert (Ha : 0 < / 2 ^ 600) by (now apply Rinv_0_lt_compat).
  set (a := / 2 ^ 600) in *.
  assert (Hne : 0 <> a) by lra.
  destruct (build_kde_total [0; a] ltac:(simpl; lia)
              (variance_pos 0 a [] Hne)) as [d Hd].
  destruct (build_kde_returns _ _ Hd) as (k & Heq & Hdata & Hbw & Hpos & _).
  assert (Hvar : variance [0; a] = a * a / 2).
  { unfold variance, mean. cbn [map Rsum fold_right length INR Nat.sub]. field. }
  assert (Hsq : kd_bandwidth k * kd_bandwidth k <= / 2 ^ 1075).
  { assert (Hh : kd_bandwidth k <= 1.06 * a).
    { rewrite Hbw, Hvar.
      pose proof (Rpower_neg_le_1 2 (1 / 5) ltac:(lia) ltac:(lra)) as Hp1.
      replace (- (1 / 5)) with (- 1 / 5) in Hp1 by lra.
      change (length [0; a]) with 2%nat.
      assert (Hp0 : 0 < Rpower (INR 2) (- 1 / 5)) by (unfold Rpower; apply exp_pos).
      assert (Hs : sqrt (a * a / 2) <= a).
      { pose proof (sqrt_square a ltac:(lra)) as Hsa.
        apply Rle_trans with (sqrt (a * a)); [|lra].
        apply sqrt_le_1_alt. nra. }
      pose proof (sqrt_pos (a * a / 2)) as Hs0.
      apply Rle_trans with (1.06 * a * 1); [|lra].
      apply Rmult_le_compat; try nra; lra. }
    assert (Haa : a * a = / 2 ^ 1075 * / 2 ^ 125).
    { unfold a. rewrite <- !Rinv_mult, <- !pow_add. reflexivity. }
    pose proof (pow2_pos 1075) as H1075.
    assert (H125 : / 2 ^ 125 <= / 2 ^ 1).
    { apply Rinv_le_contravar; [apply pow2_pos|]. apply Rle_pow; [lra|lia]. }
    assert (0 < / 2 ^ 1075) by (now apply Rinv_0_lt_compat).
    assert (0 < / 2 ^ 125) by (apply Rinv_0_lt_compat, pow2_pos).
    simpl (2 ^ 1) in H125.
    apply Rle_trans with (1.06 * a * (1.06 * a)); [nra|].
    replace (1.06 * a * (1.06 * a)) with (1.1236 * (a * a)) by lra.
    rewrite Haa. nra. }
  assert (Hnan : forall x, In x [0; a] -> kd_log_density k x = NaN).
  { intros x Hx. apply kd_log_density_underflow; [exact Hpos|exact Hsq|].
    rewrite Hdata. exact Hx. }
  assert (H0 : kd_log_density k 0 = NaN) by (apply Hnan; now left).
  assert (H1 : kd_log_density k a = NaN) by (apply Hnan; right; now left).
  exists d. split; [exact Hd|]. rewrite Heq.
  cbn [dd_density map]. rewrite H0, H1. split; [reflexivity|]. split.
  - unfold _modified_kl_divergence. cbn [dd_object res_bind app score_samples map].
    rewrite H0, H1. reflexivity.
  - intros [].
Qed.

(** ** The arithmetic of the constructor *)

Lemma float_of_int_0 : float_of_int 0 = Ok PrimFloat.zero.
Proof. reflexivity. Qed.

(** The product of a float by 0 is 0 or [nan]: it rounds to 0 when it
    rounds. *)
Lemma py_round_mul_zero (x : float) (r : Z) :
  py_round (PrimFloat.mul x PrimFloat.zero) = Ok r -> r = 0%Z.
Proof.
  assert (Hz : Prim2SF PrimFloat.zero = S754_zero false) by reflexivity.
  unfold py_round, round_float. rewrite mul_spec, Hz.
  unfold SF64mul, SFmul.
  destruct (Prim2SF x); intros H; inversion H; reflexivity.
Qed.

(** Under a window size of 0 the step is 0, whatever the sample period. *)
Lemma py_step_zero_window (sample_period : float) (st : Z) :
  py_step sample_period 0 = Ok st -> st = 0%Z.
Proof.
  unfold py_step. rewrite float_of_int_0. cbn [res_bind].
  destruct (py_round _) as [r|e] eqn:Hr; cbn [res_bind]; [|discriminate].
  intros H. inversion H. apply py_round_mul_zero in Hr. subst r. reflexivity.
Qed.

(** The bin count exists for the window sizes of 64 bits that are not
    negative, and for no other. *)
Lemma floor_sqrt_ok (n b : Z) :
  floor_sqrt n = Ok b -> (0 <= n < 2 ^ 64)%Z.
Proof.
  unfold floor_sqrt.
  destruct ((n <? - 2 ^ 63) || (2 ^ 64 <=? n))%Z eqn:Hout; [discriminate|].
  destruct (n <? 0)%Z eqn:Hneg; [discriminate|]. intros _.
  apply orb_false_iff in Hout as [_ Hhi].
  apply Z.ltb_ge in Hneg. apply Z.leb_gt in Hhi. lia.
Qed.

Lemma floor_sqrt_total (n : Z) :
  (0 <= n < 2 ^ 64)%Z -> exists b, floor_sqrt n = Ok b.
Proof.
  intros [Hlo Hhi]. unfold floor_sqrt.
  assert (H1 : (n <? - 2 ^ 63)%Z = false) by (apply Z.ltb_ge; lia).
  assert (H2 : (2 ^ 64 <=? n)%Z = false) by (apply Z.leb_gt; lia).
  assert (H3 : (n <? 0)%Z = false) by (apply Z.ltb_ge; lia).
  rewrite H1, H2, H3. cbn [orb]. eauto.
Qed.

Lemma floor_sqrt_raises (n : Z) (e : exn) :
  floor_sqrt n = Raise e ->
  ((n < - 2 ^ 63 \/ 2 ^ 64 <= n)%Z /\ e = TypeError)
  \/ ((- 2 ^ 63 <= n < 0)%Z /\ e = ValueError).
Proof.
  unfold floor_sqrt.
  destruct ((n <? - 2 ^ 63) || (2 ^ 64 <=? n))%Z eqn:Hout.
  - intros H. inversion H. left. split; [|reflexivity].
    apply orb_true_iff in Hout as [Hlo|Hhi];
      [apply Z.ltb_lt in Hlo|apply Z.leb_le in Hhi]; lia.
  - apply orb_false_iff in Hout as [Hlo Hhi].
    apply Z.ltb_ge in Hlo. apply Z.leb_gt in Hhi.
    destruct (n <? 0)%Z eqn:Hneg; [|discriminate].
    intros H. inversion H. right. apply Z.ltb_lt in Hneg. split; [lia|reflexivity].
Qed.

(** ** The detector *)

Section MethodLogic.

Context {P S T Snap : Type}.
Context {pca_model : PCAModel P} {scaler_model : ScalerModel S}
  {sequential_test : SequentialTest T Snap}.

Local Abbreviation state := (PCACD P S T Snap).
Local Abbreviation method := (M P S T Snap).

Implicit Types (self : state) (next_obs : Obs).

(** *** Rules of the method-call logic *)

Lemma wp_bind {A B} (m : method A) (k : A -> method B) Q E self :
  wp m (fun a self' => wp (k a) Q E self') E self -> wp (bind m k) Q E self.
Proof.
  unfold wp, bind. destruct (m self) as [[a|e] self']; auto.
Qed.

Lemma wp_ret {A} (a : A) (Q : A -> state -> Prop) E self :
  Q a self -> wp (ret a) Q E self.
Proof. intros HQ. exact HQ. Qed.

Lemma wp_raise {A} (e : exn) (Q : A -> state -> Prop) E self :
  E self -> wp (raise e) Q E self.
Proof. intros HQ. exact HQ. Qed.

Lemma wp_gets {A} (f : state -> A) (Q : A -> state -> Prop) E self :
  Q (f self) self -> wp (gets f) Q E self.
Proof. intros HQ. exact HQ. Qed.

Lemma wp_modify (g : state -> state) (Q : unit -> state -> Prop) E self :
  Q tt (g self) -> wp (modify g) Q E self.
Proof. intros HQ. exact HQ. Qed.

Lemma wp_lift {A} (r : Res A) (Q : A -> state -> Prop) E self :
  match r with Ok a => Q a self | Raise _ => E self end -> wp (lift r) Q E self.
Proof. intros HQ. exact HQ. Qed.

Lemma wp_attr {A} (f : state -> option A) (Q : A -> state -> Prop) E self :
  match f self with Some a => Q a self | None => E self end ->
  wp (attr f) Q E self.
Proof.
  unfold wp, attr. destruct (f self); auto.
Qed.

(** A call that preserves a view of the attributes can be stepped over by
    any assertion that only looks at that view. *)
Lemma wp_frame {A B} (V : state -> B) (m : method A) (Q : A -> state -> Prop)
    E self :
  preserves V m ->
  (forall self', V self' = V self -> (forall a, Q a self') /\ E self') ->
  wp m Q E self.
Proof.
  intros Hm HQ. unfold wp. specialize (Hm self).
  destruct (m self) as [[a|e] self']; simpl in Hm; apply (HQ self' Hm).
Qed.

Lemma wp_mono {A} (m : method A) (Q Q' : A -> state -> Prop) (E E' : state -> Prop)
    self :
  (forall a s, Q a s -> Q' a s) -> (forall s, E s -> E' s) ->
  wp m Q E self -> wp m Q' E' self.
Proof.
  unfold wp. intros HQ HE. destruct (m self) as [[a|e] self']; auto.
Qed.

(** *** Calls that preserve a view *)

Lemma preserves_ret {A B} (V : state -> B) (a : A) : preserves V (ret a).
Proof. intros self. reflexivity. Qed.

Lemma preserves_raise {A B} (V : state -> B) (e : exn) :
  preserves V (raise e : method A).
Proof. intros self. reflexivity. Qed.

Lemma preserves_gets {A B} (V : state -> B) (f : state -> A) :
  preserves V (gets f).
Proof. intros self. reflexivity. Qed.

Lemma preserves_lift {A B} (V : state -> B) (r : Res A) : preserves V (lift r).
Proof. intros self. reflexivity. Qed.

Lemma preserves_attr {A B} (V : state -> B) (f : state -> option A) :
  preserves V (attr f).
Proof. intros self. unfold attr. destruct (f self); reflexivity. Qed.

Lemma preserves_modify {B} (V : state -> B) (g : state -> state) :
  (forall self, V (g self) = V self) -> preserves V (modify g).
Proof. intros Hg self. apply Hg. Qed.

Lemma preserves_bind {A B C} (V : state -> C) (m : method A) (k : A -> method B) :
  preserves V m -> (forall a, preserves V (k a)) -> preserves V (bind m k).
Proof.
  intros Hm Hk self. unfold bind. specialize (Hm self).
  destruct (m self) as [[a|e] self']; simpl in *.
  - rewrite Hk. exact Hm.
  - exact Hm.
Qed.

Lemma preserves_for_each {B} (V : state -> B) (l : list nat)
    (body : nat -> method unit) :
  (forall i, preserves V (body i)) -> preserves V (for_each l body).
Proof.
  intros Hbody. induction l as [|i l IH]; simpl.
  - apply preserves_ret.
  - apply preserves_bind; [apply Hbody|intros _; exact IH].
Qed.

Lemma preserves_collect {A B} (V : state -> B) (l : list nat)
    (f : nat -> method A) :
  (forall i, preserves V (f i)) -> preserves V (collect l f).
Proof.
  intros Hf. induction l as [|i l IH]; simpl.
  - apply preserves_ret.
  - apply preserves_bind; [apply Hf|intros x].
    apply preserves_bind; [exact IH|intros xs; apply preserves_ret].
Qed.

(** A call whose result and final attributes are known. *)
Lemma wp_computes {A} (m : method A) self (a : A) self' :
  wp m (fun b s => b = a /\ s = self') (fun _ => False) self ->
  m self = (Ok a, self').
Proof.
  unfold wp. destruct (m self) as [[b|e] s]; [|contradiction].
  intros [-> ->]. reflexivity.
Qed.

End MethodLogic.

(** *** Stepping through a method *)

Ltac fields :=
  cbn [super window_size ev_threshold divergence_metric track_state
       sample_period step ph_threshold bins delta _drift_detection_monitor
       _drift_tracker num_pcs online_scaling _reference_scaler
       _build_reference_and_test _reference_window _test_window _pca
       _reference_pca_projection _test_pca_projection _density_reference
       _density_test _change_score
       set_super set_drift_detection_monitor set_drift_tracker set_num_pcs
       set_reference_scaler set_build_reference_and_test set_reference_window
       set_test_window set_pca set_reference_pca_projection
       set_test_pca_projection set_density_reference set_density_test
       set_change_score
       DriftDetector_update DriftDetector_reset DriftDetector_set_drift_state
       DriftDetector_init total_samples samples_since_reset drift_state
       control_of c_drift_state c_building c_step c_window_size
       c_sample_period c_online_scaling c_has_scaler fst snd] in *.

Ltac wp_step :=
  lazymatch goal with
  | |- wp (bind _ _) _ _ _ => apply wp_bind
  | |- wp (ret _) _ _ _ => apply wp_ret
  | |- wp (raise _) _ _ _ => apply wp_raise
  | |- wp (gets _) _ _ _ => apply wp_gets
  | |- wp (modify _) _ _ _ => apply wp_modify
  | |- wp (lift ?r) _ _ _ => apply wp_lift; destruct r eqn:?
  | |- wp (attr ?f) _ _ ?s => apply wp_attr; destruct (f s) eqn:?
  | |- wp (if ?b then _ else _) _ _ _ => destruct b eqn:?
  | |- wp (match ?x with _ => _ end) _ _ _ => destruct x eqn:?
  end; cbv beta; fields.

Ltac wp_run := repeat wp_step.

Ltac zbool :=
  repeat match goal with
    | Hx : (_ =? _)%Z = true |- _ => apply Z.eqb_eq in Hx
    | Hx : (_ =? _)%Z = false |- _ => apply Z.eqb_neq in Hx
    | Hx : (_ <? _)%Z = true |- _ => apply Z.ltb_lt in Hx
    | Hx : (_ <? _)%Z = false |- _ => apply Z.ltb_ge in Hx
    | Hx : _ && _ = true |- _ => apply andb_prop in Hx as [? ?]
    | Hx : negb _ = true |- _ => apply negb_true_iff in Hx
    | Hx : negb _ = false |- _ => apply negb_false_iff in Hx
    end.

(** Stepping over calls that preserve a view. *)

Ltac frame_step :=
  lazymatch goal with
  | |- preserves _ (bind _ _) => apply preserves_bind; [|intros ?]
  | |- preserves _ (ret _) => apply preserves_ret
  | |- preserves _ (raise _) => apply preserves_raise
  | |- preserves _ (gets _) => apply preserves_gets
  | |- preserves _ (lift _) => apply preserves_lift
  | |- preserves _ (attr _) => apply preserves_attr
  | |- preserves _ (modify _) =>
      apply preserves_modify; intros ?; reflexivity
  | |- preserves _ (for_each _ _) => apply preserves_for_each; intros ?
  | |- preserves _ (collect _ _) => apply preserves_collect; intros ?
  | |- preserves _ (if ?b then _ else _) => destruct b
  | |- preserves _ (match ?x with _ => _ end) => destruct x
  end.

Ltac frame := repeat frame_step.

Section DetectorFacts.

Context {P S T Snap : Type}.
Context {pca_model : PCAModel P} {scaler_model : ScalerModel S}
  {sequential_test : SequentialTest T Snap}.

Local Abbreviation state := (PCACD P S T Snap).
Local Abbreviation method := (M P S T Snap).

Implicit Types (self : state) (next_obs : Obs).

Lemma preserves_combined_bounds {B} (V : state -> B) (i : nat) :
  preserves V (combined_bounds i).
Proof. unfold combined_bounds. frame. Qed.

Lemma preserves_range_num_pcs {B} (V : state -> B) : preserves V range_num_pcs.
Proof. unfold range_num_pcs. frame. Qed.

Lemma preserves_getitem {B} (V : state -> B) f key : preserves V (getitem f key).
Proof. unfold getitem. frame. Qed.

Lemma preserves_compute_change_scores {B} (V : state -> B) :
  preserves V compute_change_scores.
Proof.
  unfold compute_change_scores.
  repeat first [frame_step | apply preserves_range_num_pcs
               | apply preserves_getitem].
Qed.







(** *** The control attributes in every state *)

Local Abbreviation ctl_ok := (fun self : state => control_inv (control_of self)).

Lemma preserves_steering_build_density_test :
  preserves steering (build_density_test : method unit).
Proof.
  unfold build_density_test.
  repeat first [frame_step | apply preserves_range_num_pcs
               | apply preserves_combined_bounds].
Qed.

Lemma wp_roll_over self :
  ctl_ok self ->
  wp roll_over
    (fun _ self' => ctl_ok self' /\ drift_state (super self') = None
                    /\ _test_window self' = [])
    ctl_ok self.
Proof.
  intros Hinv. unfold roll_over. wp_run;
    unfold control_inv in *; fields; intuition congruence.
Qed.


Lemma steering_eq self self' :
  steering self' = steering self ->
  control_of self' = control_of self /\ super self' = super self
  /\ _change_score self' = _change_score self.
Proof.
  unfold steering. intros Heq.
  pose proof (f_equal (fun x => fst (fst x)) Heq) as H2.
  pose proof (f_equal (fun x => snd (fst x)) Heq) as H3.
  pose proof (f_equal snd Heq) as H4. auto.
Qed.

Lemma control_eq self self' :
  control_of self' = control_of self ->
  drift_state (super self') = drift_state (super self)
  /\ _build_reference_and_test self' = _build_reference_and_test self
  /\ step self' = step self
  /\ window_size self' = window_size self
  /\ sample_period self' = sample_period self
  /\ online_scaling self' = online_scaling self.
Proof.
  intros Heq.
  pose proof (f_equal c_drift_state Heq). pose proof (f_equal c_building Heq).
  pose proof (f_equal c_step Heq). pose proof (f_equal c_window_size Heq).
  pose proof (f_equal c_sample_period Heq).
  pose proof (f_equal c_online_scaling Heq). auto 10.
Qed.

Lemma preserves_steering_fit_loop (pcs : list nat) :
  preserves steering
    (for_each pcs (fun i =>
       bind (gets divergence_metric) (fun metric =>
       bind (if String.eqb metric "intersection" then
               bind (combined_bounds i) (fun bounds =>
               bind (gets _reference_pca_projection) (fun ref_proj =>
               bind (lift (iloc_col ref_proj i)) (fun ref_col =>
               bind (gets bins) (fun bins =>
               lift (_build_histograms ref_col bins bounds)))))
             else
               bind (gets _reference_pca_projection) (fun ref_proj =>
               bind (lift (iloc_col ref_proj i)) (fun ref_col =>
               lift (_build_kde ref_col))))
            (fun density =>
       modify (fun self : state =>
                 set_density_reference
                   (<[pc_key i := density]> (_density_reference self)) self))))).
Proof.
  repeat first [frame_step | apply preserves_combined_bounds].
Qed.

(** The fit leaves the control attributes in order, and on return the
    detector is monitoring; counters and history are untouched. *)
Lemma wp_fit_reference self :
  ctl_ok self -> drift_state (super self) = None ->
  wp fit_reference
    (fun _ self' => ctl_ok self' /\ _build_reference_and_test self' = false
                    /\ super self' = super self
                    /\ _change_score self' = _change_score self
                    /\ window_size self' = window_size self)
    ctl_ok self.
Proof.
  intros Hinv Hdrift. unfold fit_reference, range_num_pcs.
  assert (Hfin : forall self1,
            control_inv (control_of self1) ->
            drift_state (super self1) = None ->
            _build_reference_and_test self1 = false ->
            super self1 = super self ->
            _change_score self1 = _change_score self ->
            window_size self1 = window_size self ->
            forall pcs,
            wp (for_each pcs (fun i =>
       bind (gets divergence_metric) (fun metric =>
       bind (if String.eqb metric "intersection" then
               bind (combined_bounds i) (fun bounds =>
               bind (gets _reference_pca_projection) (fun ref_proj =>
               bind (lift (iloc_col ref_proj i)) (fun ref_col =>
               bind (gets bins) (fun bins =>
               lift (_build_histograms ref_col bins bounds)))))
             else
               bind (gets _reference_pca_projection) (fun ref_proj =>
               bind (lift (iloc_col ref_proj i)) (fun ref_col =>
               lift (_build_kde ref_col))))
            (fun density =>
       modify (fun self : state =>
                 set_density_reference
                   (<[pc_key i := density]> (_density_reference self)) self)))))
              (fun _ self' => ctl_ok self' /\ _build_reference_and_test self' = false
                    /\ super self' = super self
                    /\ _change_score self' = _change_score self
                    /\ window_size self' = window_size self)
              ctl_ok self1).
  { intros self1 Ha Hb Hc' Hd He Hf pcs.
    apply (wp_frame steering); [apply preserves_steering_fit_loop|].
    intros self' Hst. apply steering_eq in Hst as (Hc & Hs & Hh).
    destruct (control_eq _ _ Hc) as (? & ? & ? & ? & _).
    rewrite Hc. split; [intros _|assumption].
    split; [exact Ha|]. repeat split; congruence. }
  wp_run;
    try (apply Hfin; fields; try reflexivity; try assumption);
    unfold control_inv in *; fields; try rewrite Hdrift in *;
    intuition congruence.
Qed.


(** An evaluation appends one change score to the history and may declare
    drift, which it only does under a non-zero step. *)
Lemma wp_evaluate (label : Res Z) self :
  ctl_ok self -> step self <> 0%Z ->
  wp (evaluate label)
    (fun _ self' =>
       ctl_ok self'
       /\ total_samples (super self') = total_samples (super self)
       /\ exists c, _change_score self' = _change_score self ++ [c])
    (fun self' =>
       ctl_ok self'
       /\ total_samples (super self') = total_samples (super self))
    self.
Proof.
  intros Hinv Hstep. unfold evaluate.
  apply wp_bind. apply (wp_frame steering);
    [apply preserves_steering_build_density_test|].
  intros self1 Hst1. apply steering_eq in Hst1 as (Hc1 & Hs1 & Hh1).
  rewrite Hc1, Hs1. split; [intros _|auto].
  apply wp_bind. apply (wp_frame steering);
    [apply preserves_compute_change_scores|].
  intros self2 Hst2. apply steering_eq in Hst2 as (Hc2 & Hs2 & Hh2).
  rewrite Hc2, Hs2, Hc1, Hs1. split; [intros change_scores|auto].
  destruct (control_eq _ _ Hc1) as (Hd1 & Hb1 & Hp1 & _).
  destruct (control_eq _ _ Hc2) as (Hd2 & Hb2 & Hp2 & _).
  assert (Hinv2 : ctl_ok self2) by (cbv beta; rewrite Hc2, Hc1; exact Hinv).
  assert (Hstep2 : step self2 <> 0%Z) by congruence.
  assert (Htot : total_samples (super self2) = total_samples (super self))
    by congruence.
  assert (Hhist : _change_score self2 = _change_score self) by congruence.
  clear Hc1 Hs1 Hh1 Hc2 Hs2 Hh2 Hd1 Hb1 Hp1 Hd2 Hb2 Hp2 Hinv Hstep.
  wp_run; rewrite ?Hhist; rewrite ?Htot;
    try (split; [|split; [reflexivity|eexists; reflexivity]]);
    try (split; [|reflexivity]);
    unfold control_inv in *; fields; intuition congruence.
Qed.


(** The monitoring branch: it returns only under a non-zero step, and it
    has then appended one change score exactly when the count of samples
    seen before the call is a non-zero multiple of the step. *)
Lemma wp_monitoring next_obs self :
  ctl_ok self -> drift_state (super self) = None ->
  wp (monitoring next_obs)
    (fun _ self' =>
       ctl_ok self'
       /\ total_samples (super self') = total_samples (super self)
       /\ step self <> 0%Z
       /\ (((total_samples (super self) mod step self = 0)%Z
            /\ total_samples (super self) <> 0%Z
            /\ exists c, _change_score self' = _change_score self ++ [c])
           \/ (~ ((total_samples (super self) mod step self = 0)%Z
                  /\ total_samples (super self) <> 0%Z)
               /\ _change_score self' = _change_score self)))
    (fun self' =>
       ctl_ok self'
       /\ total_samples (super self') = total_samples (super self))
    self.
Proof.
  intros Hinv Hdrift. unfold monitoring.
  assert (Hctl : forall tw tp, control_inv (control_of
            (set_test_pca_projection tp (set_test_window tw self)))).
  { intros tw tp. exact Hinv. }
  assert (Hctl' : forall tw, control_inv (control_of (set_test_window tw self))).
  { intros tw. exact Hinv. }
  wp_run; try (split; [first [apply Hctl | apply Hctl' | exact Hinv]|reflexivity]).
  all: zbool.
  all: lazymatch goal with
       | |- wp (evaluate _) _ _ _ =>
           eapply wp_mono;
           [| |apply wp_evaluate; [apply Hctl|fields; assumption]];
           cbv beta; fields;
           [intros _ self2 (Hs1 & Hs2 & Hs3);
            split; [exact Hs1|]; split; [exact Hs2|];
            split; [assumption|]; left; auto
           |auto]
       | |- _ =>
           split; [apply Hctl|]; split; [reflexivity|];
           split; [assumption|]; right; split; [|reflexivity];
           intros [Hmod Hnz];
           lazymatch goal with
           | Hx : _ && _ = false |- _ =>
               apply andb_false_iff in Hx as [Hx|Hx]; zbool; contradiction
           end
       end.
Qed.


Lemma wp_building next_obs self :
  ctl_ok self -> wp (building next_obs) (fun _ => ctl_ok) ctl_ok self.
Proof.
  intros Hinv. unfold building.
  assert (Htail : forall self1 : state,
            ctl_ok self1 -> drift_state (super self1) = None ->
            wp (bind (gets (fun self => len (_test_window self)))
                  (fun n_test =>
                     if (n_test =? window_size self)%Z
                     then fit_reference else ret tt))
               (fun _ => ctl_ok) ctl_ok self1).
  { intros self1 Hinv1 Hd1. wp_run; [|exact Hinv1].
    eapply wp_mono; [| |apply wp_fit_reference; assumption]; cbv beta.
    - intros _ self2 (Hok & _). exact Hok.
    - auto. }
  do 8 wp_step. apply wp_bind.
  destruct (drift_state (super self)) eqn:Hdrift.
  - eapply wp_mono; [| |apply wp_roll_over; exact Hinv]; cbv beta.
    + intros _ self1 (Hok & Hd & _). now apply Htail.
    + auto.
  - destruct (len (_reference_window self) <? window_size self)%Z;
      [|destruct (len (_test_window self) <? window_size self)%Z];
      wp_step; apply Htail; fields; assumption.
Qed.

Lemma control_inv_update next_obs self :
  ctl_ok self -> ctl_ok (snd (update next_obs self)).
Proof.
  intros Hinv.
  assert (Hwp : wp (update next_obs) (fun _ => ctl_ok) ctl_ok self).
  { unfold update. do 2 wp_step. apply wp_bind.
    destruct (_build_reference_and_test self) eqn:Hbuild.
    - eapply wp_mono; [| |apply wp_building; exact Hinv]; cbv beta.
      + intros _ self1 Hok. wp_run. exact Hok.
      + auto.
    - assert (Hd : drift_state (super self) = None).
      { destruct Hinv as (Hdr & _). fields.
        destruct (drift_state (super self)); [|reflexivity].
        destruct Hdr as [Hb _]; congruence. }
      eapply wp_mono; [| |apply wp_monitoring; assumption]; cbv beta.
      + intros _ self1 (Hok & _). wp_run. exact Hok.
      + intros self1 (Hok & _). exact Hok. }
  unfold wp in Hwp. destruct (update next_obs self) as [[a|e] self']; exact Hwp.
Qed.

(** What the constructor returns when it returns. *)
Lemma init_inv (ws : Z) ev delta metric sp online track self :
  init ws ev delta metric sp online track = Ok self ->
  exists st n b,
    py_step sp ws = Ok st /\ float_of_int ws = Ok n /\ floor_sqrt ws = Ok b
    /\ self
       = {| super := DriftDetector_init;
            window_size := ws;
            ev_threshold := ev;
            divergence_metric := metric;
            track_state := track;
            sample_period := sp;
            step := st;
            ph_threshold := round_float (PrimFloat.mul 0.01 n);
            bins := b;
            delta := delta;
            _drift_detection_monitor :=
              PH_new delta (round_float (PrimFloat.mul 0.01 n)) 0;
            _drift_tracker := [];
            num_pcs := None;
            online_scaling := online;
            _reference_scaler := if online then Some Scaler_new else None;
            _build_reference_and_test := true;
            _reference_window := [];
            _test_window := [];
            _pca := None;
            _reference_pca_projection := [];
            _test_pca_projection := [];
            _density_reference := ∅;
            _density_test := ∅;
            _change_score := [Fin 0] |}.
Proof.
  unfold init.
  destruct (py_step sp ws) as [st|] eqn:Hst; cbn [res_bind]; [|discriminate].
  destruct (float_of_int ws) as [n|] eqn:Hn; cbn [res_bind]; [|discriminate].
  destruct (floor_sqrt ws) as [b|] eqn:Hb; cbn [res_bind]; [|discriminate].
  intros Hinit. inversion Hinit. exists st, n, b. auto.
Qed.

Lemma init_returns (ws : Z) ev delta metric sp online track (st : Z)
    (n : float) (b : Z) :
  py_step sp ws = Ok st -> float_of_int ws = Ok n -> floor_sqrt ws = Ok b ->
  (init ws ev delta metric sp online track : Res state)
  = Ok {| super := DriftDetector_init;
          window_size := ws;
          ev_threshold := ev;
          divergence_metric := metric;
          track_state := track;
          sample_period := sp;
          step := st;
          ph_threshold := round_float (PrimFloat.mul 0.01 n);
          bins := b;
          delta := delta;
          _drift_detection_monitor :=
            PH_new delta (round_float (PrimFloat.mul 0.01 n)) 0;
          _drift_tracker := [];
          num_pcs := None;
          online_scaling := online;
          _reference_scaler := if online then Some Scaler_new else None;
          _build_reference_and_test := true;
          _reference_window := [];
          _test_window := [];
          _pca := None;
          _reference_pca_projection := [];
          _test_pca_projection := [];
          _density_reference := ∅;
          _density_test := ∅;
          _change_score := [Fin 0] |}.
Proof.
  intros Hst Hn Hb. unfold init. rewrite Hst, Hn, Hb. reflexivity.
Qed.

Lemma control_inv_init window_size ev_threshold delta divergence_metric
    sample_period online_scaling track_state self :
  init window_size ev_threshold delta divergence_metric sample_period
    online_scaling track_state = Ok self ->
  ctl_ok self.
Proof.
  intros Hinit. apply init_inv in Hinit as (st & n & b & Hst & _ & _ & ->).
  unfold control_inv. fields. split; [|split].
  - intros Hd. now contradiction Hd.
  - exact Hst.
  - intros ->. reflexivity.
Qed.

(** In every state of a detector the control attributes are in order. *)
Lemma reachable_control self : reachable self -> ctl_ok self.
Proof.
  induction 1 as [? ? ? ? ? ? ? self Hinit|self next_obs _ IH].
  - eapply control_inv_init; exact Hinit.
  - apply control_inv_update; exact IH.
Qed.


(** *** The roll-over after a drift *)

(** A declared drift excludes a window size of 0: the step would be 0 and
    no evaluation could have taken place. *)
Lemma drift_window_size self :
  ctl_ok self -> drift_state (super self) <> None ->
  _build_reference_and_test self = true /\ window_size self <> 0%Z.
Proof.
  intros (Hdrift & Hstep & _) Hd. fields.
  destruct (Hdrift Hd) as [Hb Hnz]. split; [exact Hb|].
  intros Hws. apply Hnz. rewrite Hws in Hstep.
  exact (py_step_zero_window _ _ Hstep).
Qed.

(** The call of [update] that follows a declared drift, whatever the
    observation it is given. *)
Lemma update_roll_over self next_obs (reference_window : DataFrame) :
  ctl_ok self -> drift_state (super self) <> None ->
  unscaled_test_window self = Ok reference_window ->
  update next_obs self = (Ok tt, rolled_over reference_window self).
Proof.
  intros Hinv Hd Hw.
  destruct (drift_window_size self Hinv Hd) as [Hb Hws].
  assert (Hlen : (len (@nil (list R)) =? window_size self)%Z = false).
  { apply Z.eqb_neq. unfold len. simpl. lia. }
  unfold unscaled_test_window in Hw.
  unfold update, building, roll_over, bind, gets, modify, attr, lift, ret.
  rewrite Hb. destruct (drift_state (super self)) as [d|]; [|contradiction].
  fields. destruct (online_scaling self).
  - destruct (_reference_scaler self) as [scaler|] eqn:Hsc; [|discriminate].
    fields. rewrite Hsc. fields. rewrite Hw. fields. rewrite Hlen. reflexivity.
  - inversion Hw; subst reference_window. fields. rewrite Hlen. reflexivity.
Qed.


(** C6.  In a state in which drift has been declared, the next call of
    [update] installs the test window as the reference window (through the
    inverse of the scaler under online scaling), empties the test window,
    resets the drift state, the counter of samples since the last reset
    (which then counts this call) and the sequential test. *)
Theorem drift_swaps_windows self next_obs (reference_window : DataFrame) :
  reachable self -> drift_state (super self) <> None ->
  unscaled_test_window self = Ok reference_window ->
  exists self',
    update next_obs self = (Ok tt, self')
    /\ _reference_window self' = reference_window
    /\ (online_scaling self = false -> reference_window = _test_window self)
    /\ (online_scaling self = true ->
        exists scaler, _reference_scaler self = Some scaler
          /\ Scaler_inverse_transform scaler (_test_window self)
             = Ok reference_window)
    /\ _test_window self' = []
    /\ samples_since_reset (super self') = 1%Z
    /\ drift_state (super self') = None
    /\ _drift_detection_monitor self'
       = PH_reset (_drift_detection_monitor self).
Proof.
  intros Hreach Hd Hw. exists (rolled_over reference_window self).
  split; [apply update_roll_over; auto using reachable_control|].
  unfold unscaled_test_window in Hw.
  repeat split; try reflexivity.
  - intros Hos. rewrite Hos in Hw. now inversion Hw.
  - intros Hos. rewrite Hos in Hw.
    destruct (_reference_scaler self) as [scaler|]; [|discriminate].
    exists scaler. auto.
Qed.

(** C10.  In a state in which drift has been declared, the observation
    given to the next call of [update] is not used: the call does the same
    whatever the observation is, the windows after it hold no row of it, and
    the counters of samples have advanced by one. *)
Theorem drift_discards_observation self next_obs :
  reachable self -> drift_state (super self) <> None ->
  (forall other, update other self = update next_obs self)
  /\ forall reference_window,
       unscaled_test_window self = Ok reference_window ->
       exists self',
         update next_obs self = (Ok tt, self')
         /\ _reference_window self' = reference_window
         /\ _test_window self' = []
         /\ total_samples (super self') = (total_samples (super self) + 1)%Z
         /\ samples_since_reset (super self') = 1%Z.
Proof.
  intros Hreach Hd. pose proof (reachable_control self Hreach) as Hinv.
  destruct (drift_window_size self Hinv Hd) as [Hb Hws]. split.
  - intros other.
    assert (Hbuilding : building other self = building next_obs self).
    { unfold building, bind, gets. cbv beta iota.
      destruct (drift_state (super self)) as [d|]; [reflexivity|contradiction]. }
    unfold update, bind, gets. cbv beta iota. rewrite Hb, Hbuilding. reflexivity.
  - intros reference_window Hw. exists (rolled_over reference_window self).
    split; [now apply update_roll_over|]. repeat split; reflexivity.
Qed.

(** *** A rejected observation *)

(** Under online scaling the scaler sees the observation first: when it
    rejects it nothing has been assigned. *)
Lemma update_rejected_by_scaler self next_obs (e : exn) scaler :
  _build_reference_and_test self = false ->
  online_scaling self = true -> _reference_scaler self = Some scaler ->
  Scaler_transform scaler [obs_values next_obs] = Raise e ->
  update next_obs self = (Raise e, self).
Proof.
  intros Hmon Hos Hsc Hraise.
  unfold update, monitoring, bind, gets, attr, lift.
  rewrite Hmon, Hos, Hsc, Hraise. reflexivity.
Qed.

(** Without online scaling the test window is slid before the principal
    components see the observation. *)
Lemma update_rejected_by_pca self next_obs (e : exn) pca :
  _build_reference_and_test self = false ->
  online_scaling self = false -> _pca self = Some pca ->
  PCA_transform pca [obs_values next_obs] = Raise e ->
  update next_obs self
  = (Raise e,
     set_test_window
       (iloc_tail (_test_window self) ++ [obs_values next_obs]) self).
Proof.
  intros Hmon Hos Hpca Hraise.
  unfold update, monitoring, bind, gets, attr, lift, modify, ret.
  rewrite Hmon, Hos. fields. rewrite Hpca. cbn [concat].
  rewrite app_nil_r, Hraise. reflexivity.
Qed.

(** C9.  A call of [update] in the monitoring phase on an observation that
    the scaler or the principal components reject: the call raises; under
    online scaling, where the scaler comes first, the attributes are what
    they were; without online scaling the test window has already been
    slid, the oldest row dropped and the observation appended, and every
    other attribute is what it was. *)
Theorem shape_error_mutation self next_obs (e : exn) :
  _build_reference_and_test self = false ->
  (online_scaling self = true ->
   forall scaler, _reference_scaler self = Some scaler ->
     Scaler_transform scaler [obs_values next_obs] = Raise e ->
     update next_obs self = (Raise e, self))
  /\ (online_scaling self = false ->
      forall pca, _pca self = Some pca ->
        PCA_transform pca [obs_values next_obs] = Raise e ->
        update next_obs self
        = (Raise e,
           set_test_window
             (iloc_tail (_test_window self) ++ [obs_values next_obs]) self)).
Proof.
  intros Hmon. split.
  - intros Hos scaler Hsc Hraise. now apply update_rejected_by_scaler with scaler.
  - intros Hos pca Hpca Hraise. now apply update_rejected_by_pca with pca.
Qed.


(** *** The first epoch *)

Lemma len_app_one (df : DataFrame) (row : list R) :
  len (df ++ [row]) = (len df + 1)%Z.
Proof.
  unfold len. rewrite length_app. simpl. lia.
Qed.

(** One more observation while the windows fill: the detector keeps
    filling, or, on the observation that completes the test window, fits
    and starts monitoring. *)
Lemma wp_update_filling (k : Z) next_obs self :
  ctl_ok self -> filling k self -> (0 <= k < 2 * window_size self)%Z ->
  wp (update next_obs)
    (fun _ self' =>
       window_size self' = window_size self
       /\ if (k + 1 <? 2 * window_size self)%Z
          then filling (k + 1) self'
          else _build_reference_and_test self' = false
               /\ total_samples (super self') = (k + 1)%Z
               /\ _change_score self' = [Fin 0])
    (fun _ => True) self.
Proof.
  intros Hinv (Hb & Hd & Htot & Href & Htest & Hhist) Hk.
  unfold update, building. do 2 wp_step. rewrite Hb.
  do 9 wp_step. rewrite Hd. apply wp_bind.
  destruct (len (_reference_window self) <? window_size self)%Z eqn:Hlt;
    [|destruct (len (_test_window self) <? window_size self)%Z eqn:Hlt'];
    wp_step; do 2 wp_step.
  - (* the reference window takes the observation *)
    zbool.
    destruct (len (_test_window self) =? window_size self)%Z eqn:Heq; zbool;
      [lia|].
    wp_run. split; [reflexivity|].
    destruct (k + 1 <? 2 * window_size self)%Z eqn:Hnext; zbool; [|lia].
    unfold filling. fields. rewrite len_app_one.
    repeat split; auto; lia.
  - (* the test window takes the observation *)
    zbool. rewrite len_app_one.
    destruct (len (_test_window self) + 1 =? window_size self)%Z eqn:Heq; zbool.
    + (* and is full: fit *)
      eapply wp_mono; [| |apply wp_fit_reference]; cbv beta; fields; auto.
      intros _ self1 (Hok & Hb1 & Hs1 & Hh1 & Hws1).
      wp_run. rewrite Hs1. fields.
      destruct (k + 1 <? 2 * window_size self)%Z eqn:Hnext; zbool; [lia|].
      repeat split; auto; try lia; congruence.
    + wp_run. split; [reflexivity|].
      destruct (k + 1 <? 2 * window_size self)%Z eqn:Hnext; zbool; [|lia].
      unfold filling. fields. rewrite len_app_one.
      repeat split; auto; lia.
  - (* both windows are full: cannot be while filling *)
    zbool. lia.
Qed.


Lemma filling_init (ws : Z) ev delta metric sp online track self :
  init ws ev delta metric sp online track = Ok self ->
  (0 < ws)%Z ->
  filling 0 self /\ window_size self = ws.
Proof.
  intros Hinit Hws. apply init_inv in Hinit as (st & n & b & _ & _ & _ & ->).
  unfold filling, len. fields. simpl. repeat split; lia.
Qed.

(** Feeding a filling detector: it keeps filling up to the observation that
    completes the test window, and monitors from then on. *)
Lemma feed_filling (stream : list Obs) : forall (k : Z) self self',
  ctl_ok self -> filling k self -> (0 <= k < 2 * window_size self)%Z ->
  (k + Z.of_nat (length stream) <= 2 * window_size self)%Z ->
  feed self stream = Ok self' ->
  window_size self' = window_size self
  /\ if (k + Z.of_nat (length stream) <? 2 * window_size self)%Z
     then filling (k + Z.of_nat (length stream)) self'
     else _build_reference_and_test self' = false
          /\ total_samples (super self') = (2 * window_size self)%Z
          /\ _change_score self' = [Fin 0].
Proof.
  induction stream as [|next_obs rest IH]; intros k self self' Hinv Hfill Hk Hlen Hfeed.
  - simpl in *. inversion Hfeed; subst self'. split; [reflexivity|].
    rewrite Z.add_0_r.
    destruct (k <? 2 * window_size self)%Z eqn:Hlt; [exact Hfill|]. zbool. lia.
  - cbn [feed length] in *.
    pose proof (wp_update_filling k next_obs self Hinv Hfill Hk) as Hwp.
    pose proof (control_inv_update next_obs self Hinv) as Hinv'.
    unfold wp in Hwp.
    destruct (update next_obs self) as [[[]|e] self1]; [|discriminate].
    cbn [snd] in Hinv'. destruct Hwp as [Hws Hnext].
    destruct (k + 1 <? 2 * window_size self)%Z eqn:Hlt; zbool.
    + specialize (IH (k + 1)%Z self1 self' Hinv' Hnext ltac:(lia)).
      rewrite Hws in IH. specialize (IH ltac:(lia) Hfeed).
      replace (k + 1 + Z.of_nat (length rest))%Z
        with (k + Z.of_nat (Datatypes.S (length rest)))%Z in IH by lia.
      exact IH.
    + assert (Hrest : rest = []) by (destruct rest; [reflexivity|simpl in Hlen; lia]).
      subst rest. simpl in Hfeed. inversion Hfeed; subst self'.
      split; [exact Hws|]. cbn [length] in *.
      destruct (k + Z.of_nat 1 <? 2 * window_size self)%Z eqn:Hlt'; zbool; [lia|].
      destruct Hnext as (Hb & Ht & Hh). repeat split; auto. lia.
Qed.


(** *** Construction *)

(** C1.  The constructor validates nothing, it fails only where its
    arithmetic does: when the product of the sample period by the window
    size cannot be rounded (a window size beyond the doubles, a product that
    is [nan] or infinite), and otherwise with [TypeError] on a window size
    that does not fit 64 bits and with [ValueError] on a negative one, both
    from the bin count [int(np.floor(np.sqrt(window_size)))].  On every
    other configuration it returns a detector holding the window size, the
    explained-variance threshold and the divergence metric it was given,
    whatever they are. *)
Theorem init_fails_on_arithmetic_only (ws : Z) ev delta metric sp online track :
  match (init ws ev delta metric sp online track : Res state) with
  | Ok self =>
      (0 <= ws < 2 ^ 64)%Z
      /\ py_step sp ws = Ok (step self)
      /\ window_size self = ws /\ ev_threshold self = ev
      /\ divergence_metric self = metric
  | Raise e =>
      py_step sp ws = Raise e
      \/ ((exists st, py_step sp ws = Ok st)
          /\ (((ws < - 2 ^ 63 \/ 2 ^ 64 <= ws)%Z /\ e = TypeError)
              \/ ((- 2 ^ 63 <= ws < 0)%Z /\ e = ValueError)))
  end.
Proof.
  destruct (init ws ev delta metric sp online track) as [self|e] eqn:Hinit.
  - apply init_inv in Hinit as (st & n & b & Hst & _ & Hb & ->). fields.
    split; [exact (floor_sqrt_ok ws b Hb)|]. auto.
  - unfold init in Hinit.
    destruct (py_step sp ws) as [st|e'] eqn:Hst; cbn [res_bind] in Hinit;
      [|left; congruence].
    right. split; [now exists st|].
    destruct (float_of_int ws) as [n|e'] eqn:Hn; cbn [res_bind] in Hinit.
    + destruct (floor_sqrt ws) as [b|e'] eqn:Hb; cbn [res_bind] in Hinit;
        [discriminate|].
      injection Hinit as <-. exact (floor_sqrt_raises ws e' Hb).
    + unfold py_step in Hst. rewrite Hn in Hst. discriminate.
Qed.

(** *** The configuration is never assigned *)

Lemma preserves_configuration_update next_obs :
  preserves configuration (update next_obs : method unit).
Proof.
  unfold update, building, monitoring, roll_over, fit_reference, evaluate,
    build_density_test.
  repeat first [frame_step | apply preserves_range_num_pcs
               | apply preserves_combined_bounds
               | apply preserves_compute_change_scores].
Qed.

Lemma feed_reachable (stream : list Obs) : forall self self',
  reachable self -> feed self stream = Ok self' ->
  reachable self' /\ configuration self' = configuration self.
Proof.
  induction stream as [|next_obs rest IH]; intros self self' Hreach Hfeed.
  - simpl in Hfeed. inversion Hfeed; subst. auto.
  - cbn [feed] in Hfeed.
    pose proof (reachable_update self next_obs Hreach) as Hreach'.
    pose proof (preserves_configuration_update next_obs self) as Hcfg.
    destruct (update next_obs self) as [[[]|e] self1]; [|discriminate].
    cbn [snd] in *. destruct (IH self1 self' Hreach' Hfeed) as [Hr Hc].
    split; [exact Hr|congruence].
Qed.


(** *** Cadence of the evaluations *)

(** A call of [update] that returns in the monitoring phase has appended
    one change score exactly when the number of samples seen before it is
    a non-zero multiple of the step. *)
Lemma monitoring_cadence self next_obs self' :
  reachable self -> _build_reference_and_test self = false ->
  update next_obs self = (Ok tt, self') ->
  step self <> 0%Z
  /\ (((total_samples (super self) mod step self = 0)%Z
       /\ total_samples (super self) <> 0%Z
       /\ exists c, _change_score self' = _change_score self ++ [c])
      \/ (~ ((total_samples (super self) mod step self = 0)%Z
             /\ total_samples (super self) <> 0%Z)
          /\ _change_score self' = _change_score self)).
Proof.
  intros Hreach Hmon Hupd. pose proof (reachable_control self Hreach) as Hinv.
  assert (Hd : drift_state (super self) = None).
  { destruct Hinv as (Hdr & _). fields.
    destruct (drift_state (super self)); [|reflexivity].
    destruct Hdr as [Hb _]; congruence. }
  pose proof (wp_monitoring next_obs self Hinv Hd) as Hwp.
  unfold update, bind at 1, gets in Hupd. rewrite Hmon in Hupd.
  unfold bind, modify in Hupd. unfold wp in Hwp.
  destruct (monitoring next_obs self) as [[[]|e] self1]; [|discriminate].
  inversion Hupd; subst self'. fields.
  destruct Hwp as (_ & _ & Hstep & Hcases). split; assumption.
Qed.

Lemma py_step_inv (sp : float) (ws st : Z) :
  py_step sp ws = Ok st ->
  exists n r, float_of_int ws = Ok n /\ py_round (PrimFloat.mul sp n) = Ok r
              /\ st = Z.min 100 r.
Proof.
  unfold py_step.
  destruct (float_of_int ws) as [n|]; cbn [res_bind]; [|discriminate].
  destruct (py_round _) as [r|] eqn:Hr; cbn [res_bind]; [|discriminate].
  intros H. inversion H. exists n, r. auto.
Qed.

Lemma init_step (ws : Z) ev delta metric sp online track self :
  init ws ev delta metric sp online track = Ok self ->
  exists n r, float_of_int ws = Ok n /\ py_round (PrimFloat.mul sp n) = Ok r
              /\ step self = Z.min 100 r.
Proof.
  intros Hinit. apply init_inv in Hinit as (st & n & b & Hst & _ & _ & ->).
  fields. exact (py_step_inv sp ws st Hst).
Qed.

(** The steps of the documented configurations: the products are rounded
    as doubles ([0.35 * 90] is [31.499999999999996]). *)
Lemma py_step_documented : py_step 0.05 1000 = Ok 50%Z.
Proof. vm_compute. reflexivity. Qed.

Lemma py_step_rounds_double_product :
  py_step 0.35 90 = Ok 31%Z /\ py_step 0.005 100 = Ok 0%Z.
Proof. split; vm_compute; reflexivity. Qed.

(** The first epoch: a detector fed fewer than [2 * window_size]
    observations is filling its windows, and after exactly that many it
    monitors, with [2 * window_size] samples seen. *)
Lemma first_epoch_phase (ws : Z) ev delta metric sp online track self0
    stream self :
  init ws ev delta metric sp online track = Ok self0 ->
  (0 < ws)%Z -> feed self0 stream = Ok self ->
  (Z.of_nat (length stream) <= 2 * ws)%Z ->
  if (Z.of_nat (length stream) <? 2 * ws)%Z
  then filling (Z.of_nat (length stream)) self
  else _build_reference_and_test self = false
       /\ total_samples (super self) = (2 * ws)%Z
       /\ _change_score self = [Fin 0].
Proof.
  intros Hinit Hws Hfeed Hlen.
  destruct (filling_init _ _ _ _ _ _ _ _ Hinit Hws) as [Hfill Hw].
  pose proof (control_inv_init _ _ _ _ _ _ _ _ Hinit) as Hinv.
  destruct (feed_filling stream 0 self0 self Hinv Hfill ltac:(lia)
              ltac:(lia) Hfeed) as [_ Hres].
  rewrite Hw in Hres. exact Hres.
Qed.

(** C2.  The step is [min(100, round(sample_period * window_size))], the
    product being the one of the doubles.  In
    the monitoring phase a call of [update] that returns has performed a
    divergence evaluation, appending one change score, exactly when the
    number of samples seen before the call is a non-zero multiple of the
    step.  In the first epoch the monitoring phase starts with the
    observation of index [2 * window_size]; for a window size of 1000 and a
    sample period of 0.05 the step is 50 and that observation, of index
    2000, is evaluated. *)
Theorem evaluation_cadence :
  (forall (ws : Z) ev delta metric sp online track (self : state),
      init ws ev delta metric sp online track = Ok self ->
      exists n r,
        float_of_int ws = Ok n /\ py_round (PrimFloat.mul sp n) = Ok r
        /\ step self = Z.min 100 r)
  /\ (forall (self : state) next_obs self',
        reachable self -> _build_reference_and_test self = false ->
        update next_obs self = (Ok tt, self') ->
        step self <> 0%Z
        /\ (((total_samples (super self) mod step self = 0)%Z
             /\ total_samples (super self) <> 0%Z
             /\ exists c, _change_score self' = _change_score self ++ [c])
            \/ (~ ((total_samples (super self) mod step self = 0)%Z
                   /\ total_samples (super self) <> 0%Z)
                /\ _change_score self' = _change_score self)))
  /\ (forall (ws : Z) ev delta metric sp online track (self0 : state)
             stream self,
        init ws ev delta metric sp online track = Ok self0 ->
        (0 < ws)%Z -> feed self0 stream = Ok self ->
        ((Z.of_nat (length stream) < 2 * ws)%Z ->
         _build_reference_and_test self = true)
        /\ (Z.of_nat (length stream) = (2 * ws)%Z ->
            _build_reference_and_test self = false
            /\ total_samples (super self) = (2 * ws)%Z))
  /\ (forall ev delta metric online track (self0 : state) stream self
             next_obs self',
        init 1000 ev delta metric 0.05%float online track = Ok self0 ->
        length stream = 2000%nat -> feed self0 stream = Ok self ->
        update next_obs self = (Ok tt, self') ->
        step self = 50%Z /\ total_samples (super self) = 2000%Z
        /\ exists c, _change_score self' = [Fin 0; c]).
Proof.
  pose proof (@init_step) as Hstep0.
  pose proof (@first_epoch_phase) as Hfirst.
  split; [exact Hstep0|]. split; [exact monitoring_cadence|]. split.
  - intros ws ev delta metric sp online track self0 stream self Hinit Hws Hfeed.
    split.
    + intros Hlt.
      specialize (Hfirst _ _ _ _ _ _ _ _ _ _ Hinit Hws Hfeed ltac:(lia)).
      destruct (Z.of_nat (length stream) <? 2 * ws)%Z eqn:Hc; zbool; [|lia].
      apply Hfirst.
    + intros Heq.
      specialize (Hfirst _ _ _ _ _ _ _ _ _ _ Hinit Hws Hfeed ltac:(lia)).
      destruct (Z.of_nat (length stream) <? 2 * ws)%Z eqn:Hc; zbool; [lia|].
      destruct Hfirst as (Hb & Ht & _). auto.
  - intros ev delta metric online track self0 stream self next_obs self'
      Hinit Hlen Hfeed Hupd.
    specialize (Hfirst _ _ _ _ _ _ _ _ _ _ Hinit ltac:(lia) Hfeed ltac:(lia)).
    rewrite Hlen in Hfirst. cbn in Hfirst. destruct Hfirst as (Hb & Ht & Hh).
    pose proof (reachable_init _ _ _ _ _ _ _ _ Hinit) as Hr0.
    destruct (feed_reachable stream self0 self Hr0 Hfeed) as [Hr Hcfg].
    assert (Hstep : step self = 50%Z).
    { pose proof (f_equal (fun c => snd (fst c)) Hcfg) as Hs.
      cbn [configuration fst snd] in Hs. rewrite Hs.
      apply init_inv in Hinit as (st & n & b & Hst & _ & _ & ->). fields.
      rewrite py_step_documented in Hst. now inversion Hst. }
    destruct (monitoring_cadence self next_obs self' Hr Hb Hupd) as [_ Hcases].
    rewrite Hstep, Ht in Hcases. split; [exact Hstep|]. split; [exact Ht|].
    destruct Hcases as [(_ & _ & c & Hc)|[Hno _]].
    + exists c. rewrite Hc, Hh. reflexivity.
    + exfalso. apply Hno. split; [reflexivity|lia].
Qed.

End DetectorFacts.

(** ** Filling the windows

    The calls of [update] of the first epoch, one equation for each case of
    the building branch. *)

Section Filling.

Context {P S T Snap : Type}.
Context {pca_model : PCAModel P} {scaler_model : ScalerModel S}
  {sequential_test : SequentialTest T Snap}.

Local Abbreviation state := (PCACD P S T Snap).
Local Abbreviation method := (M P S T Snap).

Implicit Types (self : state) (next_obs : Obs).

Lemma update_fill_reference self next_obs :
  _build_reference_and_test self = true ->
  drift_state (super self) = None ->
  (len (_reference_window self) < window_size self)%Z ->
  len (_test_window self) <> window_size self ->
  update next_obs self
  = (Ok tt,
     set_super (DriftDetector_update (super self))
       (set_reference_window
          (_reference_window self ++ [obs_values next_obs]) self)).
Proof.
  intros Hb Hd Href Htest.
  apply Z.ltb_lt in Href. apply Z.eqb_neq in Htest.
  unfold update, building, bind, gets, modify, ret. cbv beta iota.
  rewrite Hb, Hd, Href. fields. rewrite Htest. reflexivity.
Qed.

Lemma update_fill_test self next_obs :
  _build_reference_and_test self = true ->
  drift_state (super self) = None ->
  (window_size self <= len (_reference_window self))%Z ->
  (len (_test_window self) + 1 < window_size self)%Z ->
  update next_obs self
  = (Ok tt,
     set_super (DriftDetector_update (super self))
       (set_test_window (_test_window self ++ [obs_values next_obs]) self)).
Proof.
  intros Hb Hd Href Htest.
  assert (Hlt : (len (_test_window self) <? window_size self)%Z = true)
    by (apply Z.ltb_lt; lia).
  assert (Hne : (len (_test_window self ++ [obs_values next_obs])
                 =? window_size self)%Z = false)
    by (apply Z.eqb_neq; rewrite len_app_one; lia).
  apply Z.ltb_ge in Href.
  unfold update, building, bind, gets, modify, ret. cbv beta iota.
  rewrite Hb, Hd, Href, Hlt. fields. rewrite Hne. reflexivity.
Qed.

Lemma update_fit self next_obs :
  _build_reference_and_test self = true ->
  drift_state (super self) = None ->
  (window_size self <= len (_reference_window self))%Z ->
  (len (_test_window self) + 1 = window_size self)%Z ->
  update next_obs self
  = bind fit_reference
      (fun _ => modify (fun self : state =>
                          set_super (DriftDetector_update (super self)) self))
      (set_test_window (_test_window self ++ [obs_values next_obs]) self).
Proof.
  intros Hb Hd Href Htest.
  assert (Hlt : (len (_test_window self) <? window_size self)%Z = true)
    by (apply Z.ltb_lt; lia).
  assert (Heq : (len (_test_window self ++ [obs_values next_obs])
                 =? window_size self)%Z = true)
    by (apply Z.eqb_eq; rewrite len_app_one; lia).
  apply Z.ltb_ge in Href.
  unfold update, building. unfold bind at 1 2 3 4 5 6 7, gets, modify.
  cbv beta iota. rewrite Hb, Hd, Href, Hlt. fields.
  unfold bind at 1. fields. rewrite Heq. reflexivity.
Qed.

Lemma update_monitoring self next_obs :
  _build_reference_and_test self = false ->
  update next_obs self
  = bind (monitoring next_obs)
      (fun _ => modify (fun self : state =>
                          set_super (DriftDetector_update (super self)) self))
      self.
Proof.
  intros Hb. unfold update. unfold bind at 1, gets. rewrite Hb. reflexivity.
Qed.

Lemma advance_total (n : nat) (d : DriftDetector) :
  total_samples (advance n d) = (total_samples d + Z.of_nat n)%Z.
Proof.
  induction n as [|n IH]; [simpl; lia|].
  unfold advance in *. rewrite Nat.iter_succ.
  cbn [DriftDetector_update total_samples]. rewrite IH. lia.
Qed.

Lemma advance_drift (n : nat) (d : DriftDetector) :
  drift_state (advance n d) = drift_state d.
Proof.
  induction n as [|n IH]; [reflexivity|].
  unfold advance in *. rewrite Nat.iter_succ. exact IH.
Qed.

(** Feeding a reference window that has room for the whole stream. *)
Lemma feed_fill_reference (stream : list Obs) : forall self,
  _build_reference_and_test self = true ->
  drift_state (super self) = None ->
  (len (_reference_window self) + Z.of_nat (length stream)
   <= window_size self)%Z ->
  (len (_test_window self) <> window_size self)%Z ->
  feed self stream
  = Ok (set_super (advance (length stream) (super self))
          (set_reference_window
             (_reference_window self ++ map obs_values stream) self)).
Proof.
  induction stream as [|next_obs rest IH]; intros self Hb Hd Hlen Htest.
  - cbn [feed length map advance Nat.iter]. rewrite app_nil_r.
    destruct self. reflexivity.
  - cbn [feed length map] in *.
    rewrite update_fill_reference by (auto; lia).
    rewrite IH; fields; auto.
    + f_equal. unfold advance. rewrite Nat.iter_succ_r.
      rewrite <- app_assoc. reflexivity.
    + rewrite len_app_one. lia.
Qed.

(** Feeding a test window that stays short of full. *)
Lemma feed_fill_test (stream : list Obs) : forall self,
  _build_reference_and_test self = true ->
  drift_state (super self) = None ->
  (window_size self <= len (_reference_window self))%Z ->
  (len (_test_window self) + Z.of_nat (length stream)
   < window_size self)%Z ->
  feed self stream
  = Ok (set_super (advance (length stream) (super self))
          (set_test_window
             (_test_window self ++ map obs_values stream) self)).
Proof.
  induction stream as [|next_obs rest IH]; intros self Hb Hd Href Hlen.
  - cbn [feed length map advance Nat.iter]. rewrite app_nil_r.
    destruct self. reflexivity.
  - cbn [feed length map] in *.
    rewrite update_fill_test by (auto; lia).
    rewrite IH; fields; auto.
    + f_equal. unfold advance. rewrite Nat.iter_succ_r.
      rewrite <- app_assoc. reflexivity.
    + rewrite len_app_one. lia.
Qed.

Lemma feed_app (s1 s2 : list Obs) self self1 :
  feed self s1 = Ok self1 -> feed self (s1 ++ s2) = feed self1 s2.
Proof.
  revert self. induction s1 as [|x s1 IH]; intros self Hfeed.
  - simpl in *. now inversion Hfeed.
  - cbn [feed app] in *.
    destruct (update x self) as [[[]|e] self']; [|discriminate]. now apply IH.
Qed.

End Filling.

(** ** Further properties of the density and divergence helpers *)

(** X1.  The Epanechnikov kernel is even, takes its values between 0 and
    3/4, vanishes exactly at the points of absolute value 1 or more, and is
    3/4 at 0. *)
Theorem epanechnikov_kernel_shape (x : R) :
  0 <= _epanechnikov_kernel x <= 3 / 4
  /\ _epanechnikov_kernel (- x) = _epanechnikov_kernel x
  /\ (_epanechnikov_kernel x = 0 <-> 1 <= Rabs x)
  /\ _epanechnikov_kernel 0 = 3 / 4.
Proof.
  split; [|split; [|split; [|exact epanechnikov_0]]];
    unfold _epanechnikov_kernel; rewrite ?Rabs_Ropp;
    assert (Habs : Rabs x * Rabs x = x * x)
      by (unfold Rabs; destruct (Rcase_abs x); ring);
    pose proof (Rabs_pos x) as Hpos;
    destruct (Rle_dec (Rabs x) 1) as [Hle|Hgt].
  - nra.
  - lra.
  - f_equal. ring.
  - reflexivity.
  - split; intros H; nra.
  - split; intros H; [lra|reflexivity].
Qed.


Lemma Rpower_pos (x y : R) : 0 < Rpower x y.
Proof. unfold Rpower. apply exp_pos. Qed.


(** X3.  What [_build_kde] returns under a well-conditioned bandwidth: the
    estimator is fitted on the sample with the bandwidth
    [1.06 * stdev * n ** (-1/5)], and the density holds one value per point
    of the sample, each of them finite and positive. *)
Theorem build_kde_density_positive (sample : list R) (d : density_dict)
    (k : KernelDensity) :
  _build_kde sample = Ok d -> dd_object d = Ok k -> kd_well_conditioned k ->
  kd_data k = sample
  /\ kd_bandwidth k
     = 1.06 * sqrt (variance sample) * Rpower (INR (length sample)) (- 1 / 5)
  /\ length (dd_density d) = length sample
  /\ forall v, In v (dd_density d) -> exists y, v = Fin y /\ 0 < y.
Proof.
  intros Hd Hk Hwc.
  destruct (build_kde_ok sample d k Hd Hk Hwc) as (Heq & Hh & Hdata & Hlen).
  destruct (build_kde_returns sample d Hd) as (k' & Heq' & _ & Hbw & _).
  rewrite Heq' in Hk. cbn [dd_object] in Hk. injection Hk as ->.
  split; [exact Hdata|]. split; [exact Hbw|].
  rewrite Heq. cbn [dd_density].
  split; [apply length_map|].
  intros v Hv. apply in_map_iff in Hv as (x & <- & Hx).
  eexists. split; [reflexivity|].
  apply kd_pdf_pos_at_data; [exact Hh|]. now rewrite Hdata.
Qed.

Lemma build_kde_density_positive_witness :
  exists d k,
    _build_kde [0; 1] = Ok d /\ dd_object d = Ok k
    /\ length (dd_density d) = 2%nat
    /\ forall v, In v (dd_density d) -> exists y, v = Fin y /\ 0 < y.
Proof.
  destruct (build_kde_total [0; 1] ltac:(simpl; lia)
              (variance_pos 0 1 [] ltac:(lra))) as [d Hd].
  destruct (build_kde_returns _ _ Hd) as (k & Heq & _).
  assert (Hk : dd_object d = Ok k) by (rewrite Heq; reflexivity).
  assert (Hwc : kd_well_conditioned k).
  { apply (build_kde_well_conditioned [0; 1] d k Hd Hk); [|simpl; lia].
    rewrite variance_0_1. lra. }
  destruct (build_kde_density_positive [0; 1] d k Hd Hk Hwc)
    as (_ & _ & Hlen & Hpos).
  exists d, k. split; [exact Hd|]. split; [exact Hk|].
  split; [exact Hlen|exact Hpos].
Defined.






Lemma counts_out_of_range (first last : R) (b : nat) (sample : list R) (i : nat) :
  first < last -> (i < b)%nat ->
  Forall (fun x => in_range first last x = false) sample ->
  Np.bin_count first last b sample i = 0%nat.
Proof.
  intros Hfl Hi Hall. assert (Hb : (1 <= b)%nat) by lia. unfold Np.bin_count.
  induction Hall as [|x s Hx _ IH]; [reflexivity|]. cbn [List.filter].
  assert (Hout : Np.in_bin first last b i x = false).
  { unfold Np.in_bin, in_range in *.
    pose proof (edge_ge_first first last b Hfl Hb i) as Hge.
    destruct (Rle_dec (Np.edge first last b i) x) as [Hle|]; [|reflexivity].
    destruct (Rle_dec first x); [|lra].
    destruct (Rle_dec x last) as [Hxl|Hxl]; [discriminate|].
    destruct (Nat.eqb (Datatypes.S i) b); [reflexivity|].
    destruct (Rlt_dec x (Np.edge first last b (Datatypes.S i))) as [Hlt|];
      [|reflexivity].
    exfalso. apply Hxl.
    assert (Np.edge first last b (Datatypes.S i) <= last); [|lra].
    rewrite <- (edge_last first last b Hb) at 2.
    rewrite !edge_eq. apply Rplus_le_compat_l. apply Rmult_le_compat_r.
    + left. apply Rdiv_lt_0_compat; [lra|]. apply lt_0_INR. lia.
    + apply le_INR. lia. }
  rewrite Hout. exact IH.
Qed.

(** A sample with no point in the range, as numpy widens it, an empty one
    for instance: every count is 0, and every density is [nan], the counts
    being divided by their sum. *)
Lemma build_histograms_out_of_range (sample : list R) (bins : Z)
    (lo hi first last : R) :
  (1 <= bins)%Z -> lo <= hi -> Np.outer_edges lo hi = (first, last) ->
  Forall (fun x => in_range first last x = false) sample ->
  _build_histograms sample bins (lo, hi)
  = Ok (HistDensity (Np.bin_edges first last (Z.to_nat bins))
          (repeat NaN (Z.to_nat bins))).
Proof.
  intros Hb Hle Hedges Hall.
  unfold _build_histograms, Np.histogram_density.
  destruct (bins <? 1)%Z eqn:Hb'; [apply Z.ltb_lt in Hb'; lia|].
  destruct (Rlt_dec hi lo) as [|_]; [lra|].
  rewrite Hedges.
  destruct (outer_edges_lt lo hi first last Hle Hedges) as (Hfl & Hlo & Hhi).
  assert (Hb1 : (1 <= Z.to_nat bins)%nat) by lia.
  assert (Hcounts : Np.counts first last (Z.to_nat bins) sample
                    = repeat 0%nat (Z.to_nat bins)).
  { unfold Np.counts.
    assert (Hgen : forall n s, (s + n <= Z.to_nat bins)%nat ->
              map (Np.bin_count first last (Z.to_nat bins) sample) (seq s n)
              = repeat 0%nat n).
    { induction n as [|n IH]; intros s Hs; [reflexivity|].
      cbn [seq map repeat]. rewrite IH by lia.
      rewrite counts_out_of_range by (auto; lia). reflexivity. }
    apply Hgen. lia. }
  rewrite Hcounts. cbn [res_bind fst snd]. f_equal. f_equal.
  assert (Hsum : forall m, sum_nat (repeat 0%nat m) = 0%nat).
  { intros m. induction m as [|m IH]; [reflexivity|exact IH]. }
  rewrite Hsum.
  assert (Hraw : forall n s, (s + n <= Z.to_nat bins)%nat ->
            map (fun i => F.div (F.div (Fin (INR (nth i (repeat 0%nat (Z.to_nat bins)) 0%nat)))
                     (Fin (Np.edge first last (Z.to_nat bins) (Datatypes.S i)
                           - Np.edge first last (Z.to_nat bins) i)))
                   (Fin (INR 0))) (seq s n)
            = repeat NaN n).
  { induction n as [|n IH]; intros s Hs; [reflexivity|].
    cbn [seq map repeat]. rewrite IH by lia. f_equal.
    rewrite nth_repeat. rewrite edge_step. cbn [INR].
    rewrite F_div_fin.
    - unfold F.div, Rdiv. rewrite Rmult_0_l.
      destruct (Req_dec_T 0 0) as [_|Hne]; [|contradiction].
      unfold F.sgn. destruct (Rlt_dec 0 0); [lra|reflexivity].
    - apply Rgt_not_eq. apply Rdiv_lt_0_compat; [lra|]. apply lt_0_INR. lia. }
  rewrite Hraw by lia.
  rewrite map_repeat. reflexivity.
Qed.

(** X5.  [_build_histograms] raises [ValueError] on a bin count below 1 and
    on a range whose upper end is below its lower end.  On a sample with no
    point in the range as numpy widens it (by 1/2 on each side when its
    two ends coincide), an empty sample for instance, it raises nothing:
    every density it returns is [nan], the counts being divided by their
    sum 0. *)
Theorem build_histograms_degenerate (sample : list R) (bins : Z) (lo hi : R) :
  ((bins < 1)%Z -> _build_histograms sample bins (lo, hi) = Raise ValueError)
  /\ (hi < lo -> _build_histograms sample bins (lo, hi) = Raise ValueError)
  /\ (forall first last,
        (1 <= bins)%Z -> lo <= hi -> Np.outer_edges lo hi = (first, last) ->
        Forall (fun x => ~ (first <= x <= last)) sample ->
        _build_histograms sample bins (lo, hi)
        = Ok (HistDensity (Np.bin_edges first last (Z.to_nat bins))
                (repeat NaN (Z.to_nat bins)))).
Proof.
  split; [|split].
  - intros Hb. unfold _build_histograms, Np.histogram_density.
    apply Z.ltb_lt in Hb. rewrite Hb. reflexivity.
  - intros Hlt. unfold _build_histograms, Np.histogram_density.
    destruct (bins <? 1)%Z; [reflexivity|].
    destruct (Rlt_dec hi lo); [reflexivity|contradiction].
  - intros first last Hb Hle Hedges Hout.
    apply build_histograms_out_of_range; [exact Hb|exact Hle|exact Hedges|].
    eapply List.Forall_impl; [|exact Hout]. intros x Hx. unfold in_range.
    destruct (Rle_dec first x), (Rle_dec x last); try reflexivity.
    exfalso. apply Hx. split; assumption.
Qed.

Lemma outer_edges_0_1 : Np.outer_edges 0 1 = (0, 1).
Proof.
  unfold Np.outer_edges. destruct (Req_dec_T 0 1); [lra|reflexivity].
Qed.

Lemma build_histograms_degenerate_witness :
  _build_histograms [1; 2] 0 (0, 1) = Raise ValueError
  /\ _build_histograms [1; 2] 3 (1, 0) = Raise ValueError
  /\ exists edges,
       _build_histograms [5; 7] 2 (0, 1) = Ok (HistDensity edges [NaN; NaN]).
Proof.
  destruct (build_histograms_degenerate [1; 2] 0 0 1) as (H1 & _ & _).
  destruct (build_histograms_degenerate [1; 2] 3 1 0) as (_ & H2 & _).
  destruct (build_histograms_degenerate [5; 7] 2 0 1) as (_ & _ & H3).
  split; [apply H1; lia|]. split; [apply H2; lra|].
  eexists. apply (H3 0 1); [lia|lra|exact outer_edges_0_1|].
  repeat constructor; lra.
Defined.




Lemma F_minimum_comm (a b : float64) : F.minimum a b = F.minimum b a.
Proof.
  destruct a as [x| | |], b as [y| | |]; try reflexivity.
  unfold F.minimum, F.ltb.
  destruct (Rlt_dec y x), (Rlt_dec x y); try reflexivity; try lra.
  f_equal. lra.
Qed.

Lemma minimum_combine_comm (a b : list float64) :
  map (fun p => F.minimum (fst p) (snd p)) (combine a b)
  = map (fun p => F.minimum (fst p) (snd p)) (combine b a).
Proof.
  revert b. induction a as [|x a IH]; intros [|y b]; try reflexivity.
  cbn [combine map fst snd]. rewrite F_minimum_comm, IH. reflexivity.
Qed.

(** X7.  [_intersection_divergence] does not depend on the order of its two
    arguments, and it raises [ValueError] on two density arrays of different
    lengths neither of which is 1, the lengths numpy cannot broadcast. *)
Theorem intersection_divergence_symmetric :
  (forall density_reference density_test,
      _intersection_divergence density_reference density_test
      = _intersection_divergence density_test density_reference)
  /\ (forall density_reference density_test,
        length (dd_density density_reference)
        <> length (dd_density density_test) ->
        length (dd_density density_reference) <> 1%nat ->
        length (dd_density density_test) <> 1%nat ->
        _intersection_divergence density_reference density_test
        = Raise ValueError).
Proof.
  split.
  - intros r t. unfold _intersection_divergence, broadcast.
    generalize (dd_density r) (dd_density t). intros a b.
    rewrite (Nat.eqb_sym (length b) (length a)).
    destruct (Nat.eqb (length a) (length b)) eqn:Hlen; cbn [res_bind].
    + rewrite minimum_combine_comm. reflexivity.
    + assert (Hmap : forall (x : float64) l,
                map (fun p => F.minimum (fst p) (snd p)) (map (fun y => (x, y)) l)
                = map (fun p => F.minimum (fst p) (snd p)) (map (fun y => (y, x)) l)).
      { intros x l. rewrite !map_map. apply map_ext. intros y.
        apply F_minimum_comm. }
      destruct a as [|x [|x' a]], b as [|y [|y' b]];
        try discriminate; cbn [res_bind]; try reflexivity;
        rewrite Hmap; reflexivity.
  - intros r t. unfold _intersection_divergence, broadcast.
    generalize (dd_density r) (dd_density t). intros a b Hne Ha Hb.
    apply Nat.eqb_neq in Hne. rewrite Hne.
    destruct a as [|x [|x' a]], b as [|y [|y' b]]; try reflexivity;
      simpl in *; congruence.
Qed.

Lemma intersection_divergence_symmetric_witness :
  _intersection_divergence (HistDensity [] [Fin 1; Fin 0])
    (HistDensity [] [Fin (1 / 3); Fin (1 / 3); Fin (1 / 3)])
  = Raise ValueError.
Proof.
  apply (proj2 intersection_divergence_symmetric); simpl; lia.
Defined.

(** *** Kernel estimates with a bounded support *)

Lemma epanechnikov_zero (u : R) : 1 <= Rabs u -> _epanechnikov_kernel u = 0.
Proof.
  intros Hu. unfold _epanechnikov_kernel.
  destruct (Rle_dec (Rabs u) 1) as [Hle|]; [|reflexivity].
  assert (Habs : Rabs u * Rabs u = u * u).
  { unfold Rabs. destruct (Rcase_abs u); ring. }
  nra.
Qed.

(** A point at least one bandwidth away from every point of the data has
    density 0. *)
Lemma kd_pdf_outside (k : KernelDensity) (x : R) :
  0 < kd_bandwidth k ->
  (forall y, In y (kd_data k) -> kd_bandwidth k <= Rabs (x - y)) ->
  kd_pdf k x = 0.
Proof.
  intros Hh Hfar. unfold kd_pdf. rewrite Rsum_map_zero; [lra|].
  intros y Hy. apply epanechnikov_zero.
  unfold Rdiv. rewrite Rabs_mult, (Rabs_right (/ kd_bandwidth k)).
  - specialize (Hfar y Hy).
    apply (Rmult_le_reg_r (kd_bandwidth k)); [exact Hh|].
    rewrite Rmult_assoc, Rinv_l by lra. lra.
  - left. now apply Rinv_0_lt_compat.
Qed.

Lemma sum_with_pinf (l : list float64) : forall acc,
  Forall (fun x => x <> NaN /\ x <> NInf) l -> acc <> NaN -> acc <> NInf ->
  acc = PInf \/ In PInf l -> fold_left F.add l acc = PInf.
Proof.
  induction l as [|x l IH]; intros acc Hall Hn1 Hn2 Hin.
  - destruct Hin as [->|[]]. reflexivity.
  - inversion Hall as [|? ? [Hx1 Hx2] Hl]; subst. cbn [fold_left].
    apply IH; [exact Hl| | |].
    + destruct acc, x; simpl; congruence.
    + destruct acc, x; simpl; congruence.
    + destruct Hin as [->|[->|Hin]].
      * left. destruct x; simpl; congruence.
      * left. destruct acc; simpl; congruence.
      * now right.
Qed.

Lemma sum_with_ninf (l : list float64) : forall acc,
  Forall (fun x => x <> NaN /\ x <> PInf) l -> acc <> NaN -> acc <> PInf ->
  acc = NInf \/ In NInf l -> fold_left F.add l acc = NInf.
Proof.
  induction l as [|x l IH]; intros acc Hall Hn1 Hn2 Hin.
  - destruct Hin as [->|[]]. reflexivity.
  - inversion Hall as [|? ? [Hx1 Hx2] Hl]; subst. cbn [fold_left].
    apply IH; [exact Hl| | |].
    + destruct acc, x; simpl; congruence.
    + destruct acc, x; simpl; congruence.
    + destruct Hin as [->|[->|Hin]].
      * left. destruct x; simpl; congruence.
      * left. destruct acc; simpl; congruence.
      * now right.
Qed.

Lemma kl_term_range (x y : R) : kl_term x y <> NaN /\ kl_term x y <> NInf.
Proof.
  unfold kl_term. destruct (Req_dec_T x 0), (Req_dec_T y 0); split; discriminate.
Qed.

(** The divergence of two arrays of estimates is infinite as soon as the
    second vanishes at a point where the first does not. *)
Lemma kl_divergence_pinf {A} (f g : A -> R) (pts : list A) (x : A) :
  0 < Rsum (map f pts) -> In x pts -> 0 < f x -> g x = 0 ->
  kl_divergence (map f pts) (map g pts) = PInf.
Proof.
  intros Hsp Hx Hfx Hgx. unfold kl_divergence, F.sum.
  set (Sp := Rsum (map f pts)) in *. set (Sq := Rsum (map g pts)).
  assert (Hcomb : combine (map f pts) (map g pts)
                  = map (fun a => (f a, g a)) pts).
  { clear. induction pts as [|a pts IH]; [reflexivity|].
    cbn [map combine]. now rewrite IH. }
  rewrite Hcomb, map_map. cbn [fst snd].
  apply sum_with_pinf; try discriminate.
  - apply List.Forall_forall. intros t Ht.
    apply in_map_iff in Ht as (a & <- & _). apply kl_term_range.
  - right. apply in_map_iff. exists x. split; [|exact Hx].
    unfold kl_term, Rdiv. rewrite Hgx, Rmult_0_l.
    destruct (Req_dec_T (f x * / Sp) 0) as [Hz|_].
    + exfalso. apply Rmult_integral in Hz as [Hz|Hz]; [lra|].
      pose proof (Rinv_0_lt_compat Sp Hsp). lra.
    + destruct (Req_dec_T 0 0); [reflexivity|contradiction].
Qed.

(** X8.  The kernel estimates have a bounded support, and the modified
    Kullback-Leibler divergence is infinite as soon as the supports differ
    on the pooled sample: under well-conditioned bandwidths, when a point
    of the reference sample is at least one bandwidth of the test estimate
    away from every test point, or a test point at least one bandwidth of
    the reference estimate away from every reference point,
    [_modified_kl_divergence] returns [+inf]. *)
Theorem modified_kl_divergence_separated (ref test : list R)
    (dr dt : density_dict) (kr kt : KernelDensity) (x : R) :
  _build_kde ref = Ok dr -> _build_kde test = Ok dt ->
  dd_object dr = Ok kr -> dd_object dt = Ok kt ->
  kd_well_conditioned kr -> kd_well_conditioned kt ->
  (In x ref /\ forall y, In y test -> kd_bandwidth kt <= Rabs (x - y))
  \/ (In x test /\ forall y, In y ref -> kd_bandwidth kr <= Rabs (x - y)) ->
  _modified_kl_divergence ref test dr dt = Ok PInf.
Proof.
  intros Hr Ht Hkr Hkt Hwr Hwt Hsep.
  destruct (build_kde_ok _ _ _ Hr Hkr Hwr) as (-> & Hhr & Hdr & Hnr).
  destruct (build_kde_ok _ _ _ Ht Hkt Hwt) as (-> & Hht & Hdt & Hnt).
  set (p := map (kd_pdf kr) (ref ++ test)).
  set (q := map (kd_pdf kt) (ref ++ test)).
  assert (Hne : ref ++ test <> []).
  { destruct ref; [simpl in Hnr; lia|discriminate]. }
  assert (Hsp : 0 < Rsum p).
  { apply Rsum_pos.
    - apply List.Forall_forall. intros y Hy.
      apply in_map_iff in Hy as (z & <- & _). now apply kd_pdf_nonneg.
    - unfold p. destruct ref as [|x0 ref']; [simpl in Hnr; lia|].
      apply List.Exists_cons_hd. apply kd_pdf_pos_at_data; [exact Hhr|].
      rewrite Hdr. now left. }
  assert (Hsq : 0 < Rsum q).
  { apply Rsum_pos.
    - apply List.Forall_forall. intros y Hy.
      apply in_map_iff in Hy as (z & <- & _). now apply kd_pdf_nonneg.
    - unfold q. destruct test as [|y0 test']; [simpl in Hnt; lia|].
      apply List.Exists_exists. exists (kd_pdf kt y0). split.
      + apply in_map. apply in_or_app. right. now left.
      + apply kd_pdf_pos_at_data; [exact Hht|]. rewrite Hdt. now left. }
  destruct (modified_kl_divergence_value ref test
              (map (fun x => Fin (kd_pdf kr x)) ref)
              (map (fun x => Fin (kd_pdf kt x)) test)
              kr kt Hne Hhr Hht Hwr Hwt Hsp Hsq) as (Hval & Hpq & Hqp).
  fold p q in Hval, Hpq, Hqp. rewrite Hval. f_equal.
  destruct Hsep as [[Hx Hfar]|[Hx Hfar]].
  - assert (Hinf : kl_divergence p q = PInf).
    { apply (kl_divergence_pinf (kd_pdf kr) (kd_pdf kt) (ref ++ test) x).
      - exact Hsp.
      - apply in_or_app. now left.
      - apply kd_pdf_pos_at_data; [exact Hhr|]. now rewrite Hdr.
      - apply kd_pdf_outside; [exact Hht|]. now rewrite Hdt. }
    rewrite Hinf. unfold py_max2.
    destruct (kl_divergence q p); simpl in *; tauto.
  - assert (Hinf : kl_divergence q p = PInf).
    { apply (kl_divergence_pinf (kd_pdf kt) (kd_pdf kr) (ref ++ test) x).
      - exact Hsq.
      - apply in_or_app. now right.
      - apply kd_pdf_pos_at_data; [exact Hht|]. now rewrite Hdt.
      - apply kd_pdf_outside; [exact Hhr|]. now rewrite Hdr. }
    rewrite Hinf. unfold py_max2.
    destruct (kl_divergence p q); simpl in *; try tauto.
Qed.

(** The bandwidth of [_build_kde] is at most 1.06 standard deviations. *)
Lemma build_kde_bandwidth_le (sample : list R) (d : density_dict)
    (k : KernelDensity) (v : R) :
  _build_kde sample = Ok d -> dd_object d = Ok k ->
  variance sample <= v -> v <= 1 -> kd_bandwidth k <= 1.06.
Proof.
  intros Hd Hk Hv Hv1.
  destruct (build_kde_returns sample d Hd) as (k' & -> & _ & Hbw & Hh & Hlen).
  cbn [dd_object] in Hk. inversion Hk; subst k'. rewrite Hbw.
  pose proof (Rpower_neg_le_1 (length sample) (1 / 5) ltac:(lia) ltac:(lra))
    as Hp.
  replace (- (1 / 5)) with (- 1 / 5) in Hp by lra.
  pose proof (Rpower_pos (INR (length sample)) (- 1 / 5)) as Hp0.
  pose proof (sqrt_pos (variance sample)) as Hs0.
  assert (Hs : sqrt (variance sample) <= 1).
  { rewrite <- sqrt_1. apply sqrt_le_1_alt. lra. }
  nra.
Qed.

Lemma modified_kl_divergence_separated_witness :
  exists dr dt,
    _build_kde [0; 1] = Ok dr /\ _build_kde [10; 10 + 1] = Ok dt
    /\ _modified_kl_divergence [0; 1] [10; 10 + 1] dr dt = Ok PInf.
Proof.
  destruct (build_kde_total [0; 1] ltac:(simpl; lia)
              (variance_pos 0 1 [] ltac:(lra))) as [dr Hr].
  destruct (build_kde_total [10; 10 + 1] ltac:(simpl; lia)
              (variance_pos 10 (10 + 1) [] ltac:(lra))) as [dt Ht].
  destruct (build_kde_returns _ _ Hr) as (kr & Heqr & _).
  destruct (build_kde_returns _ _ Ht) as (kt & Heqt & _).
  assert (Hkr : dd_object dr = Ok kr) by (rewrite Heqr; reflexivity).
  assert (Hkt : dd_object dt = Ok kt) by (rewrite Heqt; reflexivity).
  assert (Hwr : kd_well_conditioned kr).
  { apply (build_kde_well_conditioned [0; 1] dr kr Hr Hkr); [|simpl; lia].
    rewrite variance_0_1. lra. }
  assert (Hwt : kd_well_conditioned kt).
  { apply (build_kde_well_conditioned [10; 10 + 1] dt kt Ht Hkt); [|simpl; lia].
    rewrite variance_pair. lra. }
  pose proof (build_kde_bandwidth_le _ _ _ (1 / 2) Ht Hkt
                ltac:(rewrite variance_pair; lra) ltac:(lra)) as Hbw.
  exists dr, dt. split; [exact Hr|]. split; [exact Ht|].
  apply (modified_kl_divergence_separated _ _ dr dt kr kt 0 Hr Ht Hkr Hkt
           Hwr Hwt).
  left. split; [now left|].
  intros y [<-|[<-|[]]]; rewrite Rabs_left; lra.
Defined.

(** *** Log-likelihood divergence *)

Lemma F_sum_fin_log (l : list R) :
  Forall (fun x => 0 < x) l ->
  F.sum (map (fun x => F.log (Fin x)) l) = Fin (Rsum (map ln l)).
Proof.
  intros Hall. rewrite <- F_sum_fin, map_map. f_equal.
  apply map_ext_in. intros x Hx. rewrite List.Forall_forall in Hall.
  apply F_log_pos. now apply Hall.
Qed.

Lemma F_log_range (x : R) :
  0 <= x -> F.log (Fin x) <> NaN /\ F.log (Fin x) <> PInf.
Proof.
  intros Hx. unfold F.log.
  destruct (Rlt_dec 0 x); [split; discriminate|].
  destruct (Rlt_dec x 0); [lra|split; discriminate].
Qed.

(** X10.  The log-likelihood divergence is infinite as soon as one test
    point lies outside the support of the reference estimate, at least one
    bandwidth away from every reference point: under a well-conditioned
    bandwidth its log-density is [-inf], and so is the total of the test
    sample. *)
Theorem llh_divergence_outside_support (ref test : list R) (d : density_dict)
    (k : KernelDensity) (x : R) :
  _build_kde ref = Ok d -> dd_object d = Ok k -> kd_well_conditioned k ->
  In x test -> (forall y, In y ref -> kd_bandwidth k <= Rabs (x - y)) ->
  _llh_divergence d test = Ok PInf.
Proof.
  intros Hd Hk Hwc Hx Hfar.
  destruct (build_kde_ok _ _ _ Hd Hk Hwc) as (-> & Hh & Hdata & Hlen).
  assert (Hne : test <> []) by (destruct test; [contradiction|discriminate]).
  rewrite llh_divergence_value by exact Hne. rewrite length_map.
  assert (Hpos : Forall (fun x => 0 < x) (map (kd_pdf k) ref)).
  { apply List.Forall_forall. intros p Hp. apply in_map_iff in Hp as (z & <- & Hz).
    apply kd_pdf_pos_at_data; [exact Hh|]. now rewrite Hdata. }
  pose proof (F_sum_fin_log _ Hpos) as Hsum. rewrite !map_map in Hsum.
  rewrite map_map, Hsum.
  assert (Htest : F.sum (map (kd_log_density k) test) = NInf).
  { unfold F.sum. apply sum_with_ninf; try discriminate.
    - apply List.Forall_forall. intros s Hs.
      apply in_map_iff in Hs as (z & <- & _).
      rewrite kd_log_density_formula by (now apply well_conditioned_square).
      apply F_log_range. now apply kd_pdf_nonneg.
    - right. apply in_map_iff. exists x. split; [|exact Hx].
      rewrite kd_log_density_formula by (now apply well_conditioned_square).
      rewrite kd_pdf_outside by (rewrite ?Hdata; assumption).
      apply F_log_zero. }
  rewrite Htest. unfold F.div_int.
  assert (Hnt : INR (length test) <> 0).
  { apply not_0_INR. destruct test; [contradiction|discriminate]. }
  rewrite F_div_fin by exact Hnt. cbn [F.div].
  destruct (Rlt_dec (INR (length ref)) 0) as [Hneg|_].
  - pose proof (pos_INR (length ref)). lra.
  - reflexivity.
Qed.

Lemma llh_divergence_outside_support_witness :
  exists d, _build_kde [0; 1] = Ok d /\ _llh_divergence d [1 / 2; 5] = Ok PInf.
Proof.
  destruct (build_kde_total [0; 1] ltac:(simpl; lia)
              (variance_pos 0 1 [] ltac:(lra))) as [d Hd].
  destruct (build_kde_returns _ _ Hd) as (k & Heq & _).
  assert (Hk : dd_object d = Ok k) by (rewrite Heq; reflexivity).
  assert (Hwc : kd_well_conditioned k).
  { apply (build_kde_well_conditioned [0; 1] d k Hd Hk); [|simpl; lia].
    rewrite variance_0_1. lra. }
  pose proof (build_kde_bandwidth_le _ _ _ (1 / 2) Hd Hk
                ltac:(rewrite variance_0_1; lra) ltac:(lra)) as Hbw.
  exists d. split; [exact Hd|].
  apply (llh_divergence_outside_support [0; 1] [1 / 2; 5] d k 5 Hd Hk Hwc).
  - right. now left.
  - intros y [<-|[<-|[]]]; rewrite Rabs_right; lra.
Defined.

(** ** Further properties of the detector *)

(** The steps under the default sample period, for the window sizes up to
    1000: 0 up to a window size of 10, where the product, at most 0.5, is
    rounded to the even neighbour 0, and at least 1 from 11 on. *)
Lemma default_steps :
  forallb (fun k => Bool.eqb (default_step_is_zero (Z.of_nat k)) (k <=? 10)%nat)
    (seq 0 1001) = true.
Proof. vm_compute. reflexivity. Qed.

Lemma default_step_zero (ws st : Z) :
  (0 <= ws <= 1000)%Z -> py_step 0.05 ws = Ok st ->
  (st = 0%Z <-> (ws <= 10)%Z).
Proof.
  intros Hws Hst. pose proof default_steps as Hall.
  rewrite forallb_forall in Hall.
  assert (Hin : In (Z.to_nat ws) (seq 0 1001)) by (apply in_seq; lia).
  specialize (Hall (Z.to_nat ws) Hin).
  rewrite Z2Nat.id in Hall by lia. unfold default_step_is_zero in Hall.
  rewrite Hst in Hall. apply Bool.eqb_prop in Hall.
  destruct (Z.to_nat ws <=? 10)%nat eqn:Hle.
  - apply Nat.leb_le in Hle. apply Z.eqb_eq in Hall. split; [lia|auto].
  - apply Nat.leb_gt in Hle. apply Z.eqb_neq in Hall. split; [contradiction|lia].
Qed.

Section DetectorMore.

Context {P S T Snap : Type}.
Context {pca_model : PCAModel P} {scaler_model : ScalerModel S}
  {sequential_test : SequentialTest T Snap}.

Local Abbreviation state := (PCACD P S T Snap).
Local Abbreviation method := (M P S T Snap).

Implicit Types (self : state) (next_obs : Obs).

(** X11.  A detector of window size 0 has step 0, whatever its sample
    period.  Under the default sample period 0.05 the step is 0 for every
    window size up to 10, the product, at most 0.5, being rounded to the
    even neighbour 0, and it is not 0 for the window sizes from 11 to
    1000. *)
Theorem zero_step_configurations (ws : Z) ev delta metric sp online track self :
  init ws ev delta metric sp online track = Ok self ->
  (ws = 0%Z -> step self = 0%Z)
  /\ (sp = 0.05%float -> (ws <= 1000)%Z ->
      (step self = 0%Z <-> (ws <= 10)%Z)).
Proof.
  intros Hinit.
  apply init_inv in Hinit as (st & n & b & Hst & _ & Hb & ->). fields.
  apply floor_sqrt_ok in Hb. split.
  - intros ->. exact (py_step_zero_window sp st Hst).
  - intros -> Hle. apply default_step_zero; [lia|exact Hst].
Qed.

(** *** A step of 0 *)

Lemma wp_monitoring_zero_step next_obs self :
  step self = 0%Z ->
  wp (monitoring next_obs) (fun _ _ => False)
    (fun self' =>
       _build_reference_and_test self' = _build_reference_and_test self
       /\ step self' = 0%Z /\ super self' = super self
       /\ _change_score self' = _change_score self)
    self.
Proof.
  intros Hs. unfold monitoring.
  wp_run; zbool; try (exfalso; congruence); auto.
Qed.

(** X12.  A monitoring detector whose step is 0 never returns from
    [update]: every call raises, [ZeroDivisionError] from the remainder by
    the step when the scaler and the principal components accept the
    observation, and leaves the detector monitoring with the same step, the
    same counters and the same change scores, so that the next call raises
    as well. *)
Theorem zero_step_update_raises self next_obs :
  _build_reference_and_test self = false -> step self = 0%Z ->
  let self' := snd (update next_obs self) in
  (exists e, fst (update next_obs self) = Raise e)
  /\ _build_reference_and_test self' = false /\ step self' = 0%Z
  /\ super self' = super self /\ _change_score self' = _change_score self
  /\ (online_scaling self = false ->
      forall pca projection,
        _pca self = Some pca ->
        PCA_transform pca [obs_values next_obs] = Ok projection ->
        fst (update next_obs self) = Raise ZeroDivisionError).
Proof.
  intros Hmon Hs self'. subst self'.
  pose proof (wp_monitoring_zero_step next_obs self Hs) as Hwp.
  unfold wp in Hwp. rewrite (update_monitoring self next_obs Hmon). unfold bind.
  destruct (monitoring next_obs self) as [[[]|e] self1] eqn:Hm; [contradiction|].
  cbn [fst snd]. destruct Hwp as (Hb & Hs1 & Hsup & Hcs).
  split; [eauto|]. split; [congruence|]. split; [exact Hs1|].
  split; [exact Hsup|]. split; [exact Hcs|].
  intros Hos pca projection Hpca Hproj.
  unfold monitoring, bind, gets, modify, attr, lift, ret, raise in Hm.
  rewrite Hos in Hm. fields. rewrite Hpca in Hm. cbn [concat] in Hm.
  rewrite app_nil_r, Hproj in Hm. fields. rewrite Hs in Hm.
  cbn [Z.eqb] in Hm. inversion Hm. reflexivity.
Qed.

(** *** The counter of samples *)

Lemma preserves_total_samples_update_body next_obs (build : bool) :
  preserves (fun self : state => total_samples (super self))
    (if build then building next_obs else monitoring next_obs : method unit).
Proof.
  destruct build;
    unfold building, monitoring, roll_over, fit_reference, evaluate,
      build_density_test;
    repeat first [frame_step | apply preserves_range_num_pcs
                 | apply preserves_combined_bounds
                 | apply preserves_compute_change_scores].
Qed.

(** X13.  [total_samples] counts the calls of [update] that returned: a
    call that returns adds one to it, whatever branch it took, roll-over
    included, and a call that raises leaves it as it was. *)
Theorem update_counts_returns self next_obs :
  total_samples (super (snd (update next_obs self)))
  = (total_samples (super self)
     + match fst (update next_obs self) with Ok _ => 1 | Raise _ => 0 end)%Z.
Proof.
  pose proof (preserves_total_samples_update_body next_obs
                (_build_reference_and_test self) self) as Hbody.
  unfold update, bind at 1, gets. cbv beta iota. unfold bind, modify.
  destruct ((if _build_reference_and_test self
             then building next_obs else monitoring next_obs) self)
    as [[[]|e] self1]; cbn [fst snd] in *; fields; lia.
Qed.

End DetectorMore.

Lemma zero_step_configurations_witness :
  exists self : Detector,
    init 10 0.99 0.1 "kl" 0.05%float false false = Ok self /\ step self = 0%Z.
Proof.
  destruct (init 10 0.99 0.1 "kl" 0.05%float false false : Res Detector)
    as [self|e] eqn:Hinit.
  - exists self. split; [reflexivity|].
    destruct (zero_step_configurations 10 0.99 0.1 "kl" 0.05%float false false
                self Hinit) as [_ Hdefault].
    apply (Hdefault eq_refl); lia.
  - exfalso. unfold init in Hinit.
    assert (Hst : py_step 0.05 10 = Ok 0%Z) by (vm_compute; reflexivity).
    assert (Hn : exists n, float_of_int 10 = Ok n) by (vm_compute; eauto).
    assert (Hb : floor_sqrt 10 = Ok 3%Z) by (vm_compute; reflexivity).
    destruct Hn as [n Hn]. rewrite Hst, Hn, Hb in Hinit. discriminate.
Defined.

Section Evaluation.

Context {P S T Snap : Type}.
Context {pca_model : PCAModel P} {scaler_model : ScalerModel S}
  {sequential_test : SequentialTest T Snap}.

Local Abbreviation state := (PCACD P S T Snap).
Local Abbreviation method := (M P S T Snap).

Implicit Types (self : state) (next_obs : Obs).

(** *** What an evaluation assigns *)

Lemma density_test_erased (self1 self : state) :
  set_density_test ∅ self1 = set_density_test ∅ self ->
  self1 = set_density_test (_density_test self1) self.
Proof.
  intros H. destruct self1, self. cbn in *. injection H. intros. subst.
  reflexivity.
Qed.

(** Building the test densities assigns [_density_test] only. *)
Lemma build_density_test_effect self :
  exists dt, snd (build_density_test self) = set_density_test dt self.
Proof.
  assert (Hp : preserves (fun self : state => set_density_test ∅ self)
                 (build_density_test : method unit)).
  { unfold build_density_test.
    repeat first [frame_step | apply preserves_range_num_pcs
                 | apply preserves_combined_bounds]. }
  eexists. apply density_test_erased. apply Hp.
Qed.

Lemma compute_change_scores_pure self :
  snd (compute_change_scores self) = self.
Proof.
  exact (preserves_compute_change_scores (fun self : state => self) self).
Qed.

(** The attributes after an evaluation: the test densities are rebuilt;
    then, unless the densities or the divergences raised, the change score
    is appended; then, unless the observation has no label, the sequential
    test is updated and its verdict followed. *)
Lemma evaluate_effect (label : Res Z) self :
  exists dt,
    match evaluate label self with
    | (Raise _, self') =>
        self' = set_density_test dt self
        \/ exists c, self' = set_change_score (_change_score self ++ [c])
                               (set_density_test dt self)
    | (Ok _, self') =>
        exists c obs_id,
          label = Ok obs_id
          /\ self'
             = match PH_drift_state
                       (PH_update (_drift_detection_monitor self) c obs_id) with
               | Some _ =>
                   (if track_state self
                    then set_drift_tracker
                           (_drift_tracker self
                            ++ [PH_to_dataframe
                                  (PH_update (_drift_detection_monitor self)
                                     c obs_id)])
                    else fun s => s)
                     (set_super
                        (DriftDetector_set_drift_state (Some drift) (super self))
                        (set_build_reference_and_test true
                           (set_drift_detection_monitor
                              (PH_update (_drift_detection_monitor self) c obs_id)
                              (set_change_score (_change_score self ++ [c])
                                 (set_density_test dt self)))))
               | None =>
                   set_drift_detection_monitor
                     (PH_update (_drift_detection_monitor self) c obs_id)
                     (set_change_score (_change_score self ++ [c])
                        (set_density_test dt self))
               end
    end.
Proof.
  destruct (build_density_test_effect self) as [dt Hdt]. exists dt.
  unfold evaluate. unfold bind at 1.
  destruct (build_density_test self) as [[[]|e] self1]; cbn [snd] in Hdt;
    subst self1; [|now left].
  unfold bind at 1.
  pose proof (compute_change_scores_pure (set_density_test dt self)) as Hpure.
  destruct (compute_change_scores (set_density_test dt self))
    as [[scores|e] self2]; cbn [snd] in Hpure; subst self2; [|now left].
  unfold bind, lift, modify, gets, ret.
  destruct (py_max_list scores) as [c|e]; [|now left].
  destruct label as [obs_id|e]; cbv beta iota; fields; [|right; now exists c].
  destruct (PH_drift_state (PH_update (_drift_detection_monitor self) c obs_id))
    eqn:Hverdict; cbv beta iota; fields.
  - destruct (track_state self); cbv beta iota; fields;
      exists c, obs_id; rewrite Hverdict; split; reflexivity.
  - exists c, obs_id. rewrite Hverdict. split; reflexivity.
Qed.

(** The three ways an evaluation ends, as a rule of the method-call
    logic. *)
Lemma wp_evaluate_cases (label : Res Z) self (Q : unit -> state -> Prop)
    (E : state -> Prop) :
  (forall dt, E (set_density_test dt self)) ->
  (forall dt c,
      E (set_change_score (_change_score self ++ [c])
           (set_density_test dt self))) ->
  (forall dt c obs_id,
      label = Ok obs_id ->
      Q tt
        match PH_drift_state
                (PH_update (_drift_detection_monitor self) c obs_id) with
        | Some _ =>
            (if track_state self
             then set_drift_tracker
                    (_drift_tracker self
                     ++ [PH_to_dataframe
                           (PH_update (_drift_detection_monitor self)
                              c obs_id)])
             else fun s => s)
              (set_super
                 (DriftDetector_set_drift_state (Some drift) (super self))
                 (set_build_reference_and_test true
                    (set_drift_detection_monitor
                       (PH_update (_drift_detection_monitor self) c obs_id)
                       (set_change_score (_change_score self ++ [c])
                          (set_density_test dt self)))))
        | None =>
            set_drift_detection_monitor
              (PH_update (_drift_detection_monitor self) c obs_id)
              (set_change_score (_change_score self ++ [c])
                 (set_density_test dt self))
        end) ->
  wp (evaluate label) Q E self.
Proof.
  intros H1 H2 H3. unfold wp.
  destruct (evaluate_effect label self) as [dt Heff].
  destruct (evaluate label self) as [[[]|e] self'].
  - destruct Heff as (c & obs_id & Hl & ->). now apply H3.
  - destruct Heff as [->|[c ->]]; auto.
Qed.

(** *** The history of change scores *)

Lemma preserves_change_score_building next_obs :
  preserves _change_score (building next_obs : method unit).
Proof.
  unfold building, roll_over, fit_reference.
  repeat first [frame_step | apply preserves_range_num_pcs
               | apply preserves_combined_bounds].
Qed.

Lemma wp_monitoring_history next_obs self :
  wp (monitoring next_obs)
    (fun _ self' =>
       _change_score self' = _change_score self
       \/ exists c, _change_score self' = _change_score self ++ [c])
    (fun self' =>
       _change_score self' = _change_score self
       \/ exists c, _change_score self' = _change_score self ++ [c])
    self.
Proof.
  unfold monitoring. wp_run.
  all: lazymatch goal with
       | |- wp (evaluate _) _ _ _ =>
           apply wp_evaluate_cases;
           [intros dt|intros dt c|intros dt c obs_id _]; fields;
           [left; reflexivity|right; exists c; reflexivity|];
           destruct (PH_drift_state _); [destruct (track_state _)|]; fields;
           right; exists c; reflexivity
       | |- _ => left; reflexivity
       end.
Qed.

Lemma update_building self next_obs :
  _build_reference_and_test self = true ->
  update next_obs self
  = bind (building next_obs)
      (fun _ => modify (fun self : state =>
                          set_super (DriftDetector_update (super self)) self))
      self.
Proof.
  intros Hb. unfold update. unfold bind at 1, gets. rewrite Hb. reflexivity.
Qed.

Lemma update_history self next_obs :
  (_change_score (snd (update next_obs self)) = _change_score self
   \/ exists c,
        _change_score (snd (update next_obs self)) = _change_score self ++ [c])
  /\ (_build_reference_and_test self = true ->
      _change_score (snd (update next_obs self)) = _change_score self).
Proof.
  destruct (_build_reference_and_test self) eqn:Hb.
  - pose proof (preserves_change_score_building next_obs self) as Hp.
    rewrite (update_building self next_obs Hb). unfold bind, modify.
    destruct (building next_obs self) as [[[]|e] self1]; cbn [snd] in *; fields;
      (split; [left; exact Hp|intros _; exact Hp]).
  - pose proof (wp_monitoring_history next_obs self) as Hwp. unfold wp in Hwp.
    rewrite (update_monitoring self next_obs Hb). unfold bind, modify.
    destruct (monitoring next_obs self) as [[[]|e] self1]; cbn [snd]; fields;
      (split; [exact Hwp|discriminate]).
Qed.

(** X14.  The history of change scores is only ever appended to: a call of
    [update], whether it returns or raises, leaves it as it was or with one
    more score at its end, and leaves it as it was while the windows are
    being built, roll-over included; in every state of a detector it starts
    with the 0 the constructor put there. *)
Theorem change_scores_append_only self next_obs :
  (_change_score (snd (update next_obs self)) = _change_score self
   \/ exists c,
        _change_score (snd (update next_obs self)) = _change_score self ++ [c])
  /\ (_build_reference_and_test self = true ->
      _change_score (snd (update next_obs self)) = _change_score self)
  /\ (reachable self -> exists scores, _change_score self = Fin 0 :: scores).
Proof.
  destruct (update_history self next_obs) as [H1 H2].
  split; [exact H1|]. split; [exact H2|].
  clear. induction 1 as [? ? ? ? ? ? ? self Hinit|self next_obs _ IH].
  - apply init_inv in Hinit as (st & n & b & _ & _ & _ & ->).
    exists []. reflexivity.
  - destruct IH as [scores IH].
    destruct (update_history self next_obs) as [[H|[c H]] _];
      rewrite H, IH; [eauto|].
    exists (scores ++ [c]). reflexivity.
Qed.

(** *** The drift state *)

Lemma preserves_super_fit_reference :
  preserves super (fit_reference : method unit).
Proof.
  unfold fit_reference.
  repeat first [frame_step | apply preserves_range_num_pcs
               | apply preserves_combined_bounds].
Qed.

Lemma wp_update_drift_state self next_obs :
  drift_state (super self) <> Some warning ->
  drift_state (super (snd (update next_obs self))) <> Some warning.
Proof.
  intros Hd.
  assert (Hwp : wp (update next_obs)
                  (fun _ self' => drift_state (super self') <> Some warning)
                  (fun self' => drift_state (super self') <> Some warning) self).
  { assert (Hfit : forall self1 : state,
              drift_state (super self1) <> Some warning ->
              wp fit_reference
                (fun _ self' =>
                   wp (modify (fun self : state =>
                                 set_super (DriftDetector_update (super self)) self))
                     (fun _ self' => drift_state (super self') <> Some warning)
                     (fun self' => drift_state (super self') <> Some warning)
                     self')
                (fun self' => drift_state (super self') <> Some warning) self1).
    { intros self1 H1. apply (wp_frame super);
        [apply preserves_super_fit_reference|].
      intros self2 H2. split; [intros _; wp_step|]; rewrite H2; exact H1. }
    unfold update, building, monitoring, roll_over.
    wp_run.
    all: lazymatch goal with
         | |- wp fit_reference _ _ _ => apply Hfit; fields; congruence
         | |- wp (evaluate _) _ _ _ =>
             apply wp_evaluate_cases;
             [intros dt|intros dt c|intros dt c obs_id _]; fields;
             [congruence|congruence|];
             destruct (PH_drift_state _); [destruct (track_state _)|];
             wp_run; congruence
         | |- _ => congruence
         end. }
  unfold wp in Hwp. destruct (update next_obs self) as [[[]|e] self']; exact Hwp.
Qed.

(** X15.  In every state of a detector the drift state is None or "drift",
    never "warning", whatever state the sequential test reports; and while
    it is "drift" the detector is set to rebuild its windows, so that the
    next call of [update] rolls over. *)
Theorem drift_state_none_or_drift self :
  reachable self ->
  drift_state (super self) = None
  \/ (drift_state (super self) = Some drift
      /\ _build_reference_and_test self = true).
Proof.
  intros Hreach. pose proof (reachable_control self Hreach) as (Hctl & _).
  assert (Hw : drift_state (super self) <> Some warning).
  { clear Hctl. induction Hreach as [? ? ? ? ? ? ? self Hinit|self next_obs _ IH].
    - apply init_inv in Hinit as (st & n & b & _ & _ & _ & ->).
      discriminate.
    - now apply wp_update_drift_state. }
  fields. destruct (drift_state (super self)) as [[]|]; [right|contradiction|now left].
  split; [reflexivity|]. apply Hctl. discriminate.
Qed.

(** *** The monitoring phase and the sequential test *)




End Evaluation.

Section Windows.

Context {P S T Snap : Type}.
Context {pca_model : PCAModel P} {scaler_model : ScalerModel S}
  {sequential_test : SequentialTest T Snap}.

Local Abbreviation state := (PCACD P S T Snap).
Local Abbreviation method := (M P S T Snap).

Implicit Types (self : state) (next_obs : Obs).

(** *** The fit and the windows *)

(** The fit clears the request to build first, and assigns neither the
    counters nor the change scores; without online scaling it leaves both
    windows as they are.  All this whether it returns or raises. *)
Lemma wp_fit_reference_frame self :
  let kept (self' : state) :=
    _build_reference_and_test self' = false
    /\ super self' = super self
    /\ window_size self' = window_size self
    /\ online_scaling self' = online_scaling self
    /\ (online_scaling self = false ->
        _reference_window self' = _reference_window self
        /\ _test_window self' = _test_window self) in
  wp fit_reference (fun _ => kept) kept self.
Proof.
  intros kept. unfold fit_reference, range_num_pcs.
  assert (Hloop : forall self1 body pcs,
            (forall i : nat, preserves
               (fun s : state =>
                  (_build_reference_and_test s, super s, window_size s,
                   online_scaling s, _reference_window s, _test_window s))
               (body i : method unit)) ->
            kept self1 ->
            wp (for_each pcs body) (fun _ => kept) kept self1).
  { intros self1 body pcs Hbody Hk.
    apply (wp_frame (fun s : state =>
                  (_build_reference_and_test s, super s, window_size s,
                   online_scaling s, _reference_window s, _test_window s)));
      [now apply preserves_for_each|].
    intros self2 H2. inversion H2 as [[Hb Hs Hw Ho Hr Ht]].
    assert (kept self2).
    { unfold kept in *. rewrite Hb, Hs, Hw, Ho, Hr, Ht. exact Hk. }
    split; auto. }
  wp_run; unfold kept; fields;
    try (repeat split; try reflexivity; try congruence; intros; congruence).
  all: apply Hloop;
    [intros i; repeat first [frame_step | apply preserves_combined_bounds]|].
  all: unfold kept; fields;
    repeat split; try reflexivity; try congruence; intros; congruence.
Qed.

(** X16.  A fit that raises leaves the detector switched to monitoring:
    on the observation that completes the test window the request to build
    is cleared before the scaler, the principal components and the
    densities are fitted, so when one of them raises, the call raises with
    the counters as they were, the observation in the test window (without
    online scaling) and the detector no longer building; the next call of
    [update] takes the monitoring branch. *)
Theorem failed_fit_stops_building self next_obs (e : exn) self' :
  _build_reference_and_test self = true -> drift_state (super self) = None ->
  (window_size self <= len (_reference_window self))%Z ->
  (len (_test_window self) + 1 = window_size self)%Z ->
  update next_obs self = (Raise e, self') ->
  _build_reference_and_test self' = false
  /\ super self' = super self
  /\ (online_scaling self = false ->
      _reference_window self' = _reference_window self
      /\ _test_window self' = _test_window self ++ [obs_values next_obs])
  /\ forall other,
       update other self'
       = bind (monitoring other)
           (fun _ => modify (fun self : state =>
                               set_super (DriftDetector_update (super self)) self))
           self'.
Proof.
  intros Hb Hd Href Htest Hupd.
  rewrite update_fit in Hupd by assumption.
  pose proof (wp_fit_reference_frame
                (set_test_window (_test_window self ++ [obs_values next_obs]) self))
    as Hwp.
  cbv zeta in Hwp. unfold wp in Hwp. unfold bind, modify in Hupd.
  destruct (fit_reference
              (set_test_window (_test_window self ++ [obs_values next_obs]) self))
    as [[[]|e1] self1]; [discriminate|].
  inversion Hupd; subst e1 self1. fields.
  destruct Hwp as (Hb' & Hs & _ & _ & Hw).
  split; [exact Hb'|]. split; [exact Hs|]. split; [exact Hw|].
  intros other. now apply update_monitoring.
Qed.

(** *** The size of the windows *)

Local Abbreviation windows_ok := (fun (w : Z) (self : state) =>
  if _build_reference_and_test self
     && match drift_state (super self) with None => true | Some _ => false end
  then (len (_reference_window self) <= w)%Z
       /\ (len (_test_window self) < w)%Z
       /\ ((len (_reference_window self) < w)%Z -> len (_test_window self) = 0%Z)
  else len (_reference_window self) = w /\ len (_test_window self) = w).

Lemma len_tail_app (df : DataFrame) (row : list R) :
  (0 < len df)%Z -> len (iloc_tail df ++ [row]) = len df.
Proof.
  unfold len, iloc_tail. destruct df as [|r df]; simpl; [lia|].
  rewrite length_app. simpl. lia.
Qed.

Lemma windows_ok_update (w : Z) self next_obs :
  (0 < w)%Z -> window_size self = w -> online_scaling self = false ->
  windows_ok w self -> windows_ok w (snd (update next_obs self)).
Proof.
  intros Hw Hws Hos HJ. cbv beta in *.
  assert (Hwp : wp (update next_obs) (fun _ => windows_ok w) (windows_ok w) self).
  { assert (Hfit : forall self1 : state,
              online_scaling self1 = false ->
              drift_state (super self1) = None ->
              len (_reference_window self1) = w ->
              len (_test_window self1) = w ->
              wp fit_reference
                (fun _ self' =>
                   wp (modify (fun self : state =>
                                 set_super (DriftDetector_update (super self)) self))
                     (fun _ => windows_ok w) (windows_ok w) self')
                (windows_ok w) self1).
    { intros self1 Ho1 Hd1 Hr1 Ht1.
      eapply wp_mono; [| |apply wp_fit_reference_frame]; cbv beta.
      - intros _ self2 (Hb2 & Hs2 & _ & _ & Hwin). wp_step.
        rewrite Hb2. destruct (Hwin Ho1) as [-> ->]. cbn [andb]. auto.
      - intros self2 (Hb2 & Hs2 & _ & _ & Hwin).
        rewrite Hb2. destruct (Hwin Ho1) as [-> ->]. cbn [andb]. auto. }
    unfold update, building, monitoring, roll_over.
    do 2 wp_step. apply wp_bind.
    destruct (_build_reference_and_test self) eqn:Hb.
    - destruct (drift_state (super self)) eqn:Hd; cbn [andb] in HJ.
      + wp_run.
        all: lazymatch goal with
             | |- wp fit_reference _ _ _ =>
                 exfalso; clear Hfit; zbool; unfold len in *;
                 cbn [length] in *; first [congruence|lia]
             | |- _ =>
                 first [congruence
                       |zbool; unfold len in *; cbn [length] in *;
                        rewrite ?Hb; cbn [andb]; lia]
             end.
      + destruct HJ as (Hr & Ht & Hrt).
        wp_run.
        all: lazymatch goal with
             | |- wp fit_reference _ _ _ =>
                 zbool; rewrite ?len_app_one in *;
                 first [match goal with
                        | Hx : Some _ = None |- _ => discriminate Hx
                        end
                       |apply Hfit; fields; rewrite ?len_app_one; auto; lia
                       |exfalso; clear Hfit; lia]
             | |- _ =>
                 first [congruence
                       |zbool; rewrite ?len_app_one in *;
                        rewrite ?Hb;
                        try match goal with
                            | Hx : drift_state (super _) = None |- _ =>
                                rewrite Hx
                            end;
                        cbn [andb]; rewrite ?len_app_one; lia]
             end.
    - cbn [andb] in HJ. destruct HJ as [Hr Ht].
      assert (Hslide : len (iloc_tail (_test_window self)
                            ++ [obs_values next_obs]) = w).
      { rewrite len_tail_app; lia. }
      clear Hfit. wp_run.
      all: try match goal with
               | Hx : online_scaling _ = true |- _ => exfalso; congruence
               end.
      all: lazymatch goal with
           | |- wp (evaluate _) _ _ _ =>
               apply wp_evaluate_cases;
               [intros dt|intros dt c|intros dt c obs_id _]; fields;
               rewrite ?Hb; cbn [andb]; auto;
               destruct (PH_drift_state _); [destruct (track_state _)|];
               wp_run; rewrite ?Hb; cbn [andb]; auto
           | |- _ => rewrite ?Hb; cbn [andb]; auto
           end. }
  unfold wp in Hwp. destruct (update next_obs self) as [[[]|e] self']; exact Hwp.
Qed.

Lemma reachable_windows_ok self :
  reachable self -> online_scaling self = false -> (0 < window_size self)%Z ->
  windows_ok (window_size self) self.
Proof.
  intros Hreach.
  induction Hreach as [? ? ? ? ? ? ? self Hinit|self next_obs Hreach IH];
    intros Hos Hw.
  - apply init_inv in Hinit as (st & n & b & _ & _ & _ & ->).
    fields. cbn [andb]. unfold len. cbn [length]. fields. lia.
  - pose proof (preserves_configuration_update next_obs self) as Hcfg.
    pose proof (f_equal (fun c => fst (fst (fst (fst (fst c))))) Hcfg) as Hws.
    pose proof (f_equal snd Hcfg) as Ho. cbn [configuration fst snd] in Hws, Ho.
    rewrite Hws in *. rewrite Ho in Hos.
    apply windows_ok_update; auto. apply IH; assumption.
Qed.

(** X17.  Without online scaling, the windows of a detector of positive
    window size never outgrow it: in every state each window holds at most
    [window_size] rows, the test window stays empty until the reference
    window is full, and both hold exactly [window_size] rows while the
    detector monitors and once drift is declared. *)
Theorem windows_bounded self :
  reachable self -> online_scaling self = false -> (0 < window_size self)%Z ->
  (len (_reference_window self) <= window_size self)%Z
  /\ (len (_test_window self) <= window_size self)%Z
  /\ ((len (_reference_window self) < window_size self)%Z ->
      len (_test_window self) = 0%Z)
  /\ (_build_reference_and_test self = false \/ drift_state (super self) <> None ->
      len (_reference_window self) = window_size self
      /\ len (_test_window self) = window_size self).
Proof.
  intros Hreach Hos Hw.
  pose proof (reachable_windows_ok self Hreach Hos Hw) as HJ.
  cbv beta in HJ.
  destruct (_build_reference_and_test self), (drift_state (super self));
    cbn [andb] in HJ; (split; [|split; [|split]]); try lia;
    intros [H|H]; try discriminate; try contradiction; lia.
Qed.

(** X18.  After a drift, without online scaling, the detector needs
    [window_size] new observations besides the one that triggers the
    roll-over: that one is dropped, and while fewer than [window_size] have
    followed, every call of [update] returns with the detector still
    building, its reference window the test window of the drift and its
    test window the observations that followed, in order. *)
Theorem second_epoch_refill self next_obs (stream : list Obs) :
  reachable self -> drift_state (super self) <> None ->
  online_scaling self = false ->
  (Z.of_nat (length stream) < window_size self)%Z ->
  exists self',
    feed self (next_obs :: stream) = Ok self'
    /\ _build_reference_and_test self' = true
    /\ drift_state (super self') = None
    /\ _reference_window self' = _test_window self
    /\ _test_window self' = map obs_values stream
    /\ total_samples (super self')
       = (total_samples (super self) + 1 + Z.of_nat (length stream))%Z.
Proof.
  intros Hreach Hd Hos Hlen.
  pose proof (reachable_control self Hreach) as Hctl.
  assert (Hw : (0 < window_size self)%Z) by lia.
  pose proof (reachable_windows_ok self Hreach Hos Hw) as HJ. cbv beta in HJ.
  destruct (drift_window_size self Hctl Hd) as [Hb _].
  assert (Hfull : len (_test_window self) = window_size self).
  { destruct (drift_state (super self)); [|contradiction].
    rewrite Hb in HJ. cbn [andb] in HJ. tauto. }
  assert (Hroll : update next_obs self
                  = (Ok tt, rolled_over (_test_window self) self)).
  { apply update_roll_over; auto. unfold unscaled_test_window.
    rewrite Hos. reflexivity. }
  cbn [feed]. rewrite Hroll.
  rewrite feed_fill_test; unfold rolled_over; fields; rewrite ?Hfull;
    try reflexivity; try assumption; try lia.
  eexists. split; [reflexivity|]. fields.
  rewrite advance_total, advance_drift. fields. cbn [app].
  repeat split; try reflexivity; try assumption; lia.
Qed.

End Windows.

Section Decision.

Context {P S T Snap : Type}.
Context {pca_model : PCAModel P} {scaler_model : ScalerModel S}
  {sequential_test : SequentialTest T Snap}.

Local Abbreviation state := (PCACD P S T Snap).
Local Abbreviation method := (M P S T Snap).

Implicit Types (self : state) (next_obs : Obs).

(** *** The verdict of an evaluation *)

(** X19.  A call of [update] that evaluates the divergence and returns has
    appended the change score, handed it to the sequential test under the
    label of the observation (0 under online scaling, where the observation
    has been rebuilt as a frame) and followed the verdict: when the test
    reports a state, "warning" included, drift is declared, the detector is
    set to rebuild its windows and, if states are tracked, the snapshot of
    the test is recorded; otherwise the drift state, the building flag and
    the tracked states are as they were. *)
Theorem evaluation_follows_sequential_test self next_obs self' :
  _build_reference_and_test self = false ->
  (total_samples (super self) mod step self = 0)%Z ->
  total_samples (super self) <> 0%Z ->
  update next_obs self = (Ok tt, self') ->
  exists c,
    _change_score self' = _change_score self ++ [c]
    /\ _drift_detection_monitor self'
       = PH_update (_drift_detection_monitor self) c
           (if online_scaling self then 0%Z else obs_label next_obs)
    /\ match PH_drift_state (_drift_detection_monitor self') with
       | Some _ =>
           drift_state (super self') = Some drift
           /\ _build_reference_and_test self' = true
           /\ _drift_tracker self'
              = (if track_state self
                 then _drift_tracker self
                      ++ [PH_to_dataframe (_drift_detection_monitor self')]
                 else _drift_tracker self)
       | None =>
           drift_state (super self') = drift_state (super self)
           /\ _build_reference_and_test self' = false
           /\ _drift_tracker self' = _drift_tracker self
       end.
Proof.
  intros Hmon Hmod Hnz Hupd.
  rewrite (update_monitoring self next_obs Hmon) in Hupd.
  set (Q := fun self1 : state =>
    exists c,
      _change_score self1 = _change_score self ++ [c]
      /\ _drift_detection_monitor self1
         = PH_update (_drift_detection_monitor self) c
             (if online_scaling self then 0%Z else obs_label next_obs)
      /\ match PH_drift_state (_drift_detection_monitor self1) with
         | Some _ =>
             drift_state (super self1) = Some drift
             /\ _build_reference_and_test self1 = true
             /\ _drift_tracker self1
                = (if track_state self
                   then _drift_tracker self
                        ++ [PH_to_dataframe (_drift_detection_monitor self1)]
                   else _drift_tracker self)
         | None =>
             drift_state (super self1) = drift_state (super self)
             /\ _build_reference_and_test self1 = false
             /\ _drift_tracker self1 = _drift_tracker self
         end).
  assert (Hwp : wp (monitoring next_obs) (fun _ => Q) (fun _ => True) self).
  { unfold monitoring. wp_run.
    all: lazymatch goal with
         | |- wp (evaluate _) _ _ _ =>
             apply wp_evaluate_cases;
             [intros dt; exact I|intros dt c; exact I|intros dt c obs_id Hl];
             unfold Q; exists c; fields;
             first [injection Hl as <-
                   |match goal with
                    | a : DataFrame |- _ =>
                        destruct a; [discriminate|injection Hl as <-]
                    end];
             match goal with
             | |- context [PH_drift_state (PH_update ?m ?x ?i)] =>
                 destruct (PH_drift_state (PH_update m x i)) eqn:Hverdict
             end;
             [destruct (track_state self)|]; fields; rewrite Hverdict;
             repeat split; first [reflexivity|exact Hmon]
         | |- True => exact I
         | |- _ =>
             exfalso;
             match goal with
             | Hx : _ && _ = false |- _ =>
                 apply andb_false_iff in Hx as [Hx|Hx]; zbool; contradiction
             end
         end. }
  unfold wp in Hwp. unfold bind, modify in Hupd.
  destruct (monitoring next_obs self) as [[[]|e] self1]; [|discriminate].
  inversion Hupd; subst self'. fields. exact Hwp.
Qed.

(** *** An evaluation without scores *)

Lemma for_each_skipped (pcs : list nat) (body : nat -> method unit) self :
  (forall i, body i self = (Ok tt, self)) ->
  for_each pcs body self = (Ok tt, self).
Proof.
  intros Hbody. induction pcs as [|i pcs IH]; [reflexivity|].
  cbn [for_each]. unfold bind. rewrite Hbody. exact IH.
Qed.

Lemma evaluate_no_scores (label : Res Z) self (n : nat) :
  num_pcs self = Some n ->
  n = 0%nat
  \/ (divergence_metric self <> "kl" /\ divergence_metric self <> "llh"
      /\ divergence_metric self <> "intersection") ->
  evaluate label self = (Raise ValueError, set_density_test ∅ self).
Proof.
  intros Hn Hcase.
  assert (Hbuild : build_density_test self = (Ok tt, set_density_test ∅ self)).
  { unfold build_density_test, range_num_pcs.
    unfold bind at 1, modify. unfold bind at 1. unfold bind at 1, gets.
    fields. rewrite Hn. unfold ret at 1.
    destruct Hcase as [->|(Hkl & Hllh & Hint)]; [reflexivity|].
    apply for_each_skipped. intros i. unfold bind, gets, ret. fields.
    apply String.eqb_neq in Hkl, Hint. rewrite Hkl, Hint. reflexivity. }
  assert (Hscores : compute_change_scores (set_density_test ∅ self)
                    = (Ok [], set_density_test ∅ self)).
  { unfold compute_change_scores, range_num_pcs.
    unfold bind at 1, gets. fields.
    destruct Hcase as [->|(Hkl & Hllh & Hint)].
    - destruct (String.eqb _ "kl"); [|destruct (String.eqb _ "llh");
        [|destruct (String.eqb _ "intersection")]];
        try reflexivity; unfold bind, gets, ret; fields; rewrite Hn; reflexivity.
    - apply String.eqb_neq in Hkl, Hllh, Hint. rewrite Hkl, Hllh, Hint.
      reflexivity. }
  unfold evaluate. unfold bind at 1. rewrite Hbuild.
  unfold bind at 1. rewrite Hscores. reflexivity.
Qed.

(** X20.  An evaluation that produces no score raises: when the principal
    components are none, or when the divergence metric is none of "kl",
    "llh" and "intersection" (the constructor accepts any), the list of
    change scores of the components is empty and [max] raises [ValueError];
    the test window has been slid and the test densities cleared, the
    history of change scores is as it was. *)
Theorem evaluation_without_scores_raises self next_obs pca projection (n : nat) :
  _build_reference_and_test self = false -> online_scaling self = false ->
  _pca self = Some pca ->
  PCA_transform pca [obs_values next_obs] = Ok projection ->
  step self <> 0%Z ->
  (total_samples (super self) mod step self = 0)%Z ->
  total_samples (super self) <> 0%Z ->
  num_pcs self = Some n ->
  n = 0%nat
  \/ (divergence_metric self <> "kl" /\ divergence_metric self <> "llh"
      /\ divergence_metric self <> "intersection") ->
  exists self',
    update next_obs self = (Raise ValueError, self')
    /\ _change_score self' = _change_score self
    /\ _density_test self' = ∅
    /\ _test_window self'
       = iloc_tail (_test_window self) ++ [obs_values next_obs]
    /\ super self' = super self.
Proof.
  intros Hmon Hos Hpca Hproj Hstep Hmod Hnz Hn Hcase.
  rewrite (update_monitoring self next_obs Hmon).
  apply Z.eqb_neq in Hstep, Hnz. apply Z.eqb_eq in Hmod.
  set (self1 := set_test_pca_projection
                  (iloc_tail (_test_pca_projection self) ++ projection)
                  (set_test_window
                     (iloc_tail (_test_window self) ++ [obs_values next_obs])
                     self)).
  assert (Hm : monitoring next_obs self
               = (Raise ValueError, set_density_test ∅ self1)).
  { unfold monitoring, bind at 1, gets. rewrite Hos.
    unfold bind at 1, ret. unfold bind at 1, modify. unfold bind at 1, attr.
    fields. rewrite Hpca. unfold bind at 1, lift. cbn [concat].
    rewrite app_nil_r, Hproj. unfold bind at 1. unfold bind at 1. fields.
    unfold bind at 1. fields. rewrite Hstep, Hmod, Hnz. cbn [andb negb].
    apply (evaluate_no_scores _ self1 n); assumption. }
  unfold bind. rewrite Hm. eexists. split; [reflexivity|].
  repeat split; reflexivity.
Qed.

(** *** Between two evaluations *)

(** X21.  Between two evaluations a monitoring call of [update] on an
    observation the principal components accept only slides the test
    window and the test projection, each by one row, and counts the sample:
    no density is rebuilt, no score is appended, the sequential test is not
    consulted. *)
Theorem monitoring_slides_between_evaluations self next_obs pca projection :
  _build_reference_and_test self = false -> online_scaling self = false ->
  _pca self = Some pca ->
  PCA_transform pca [obs_values next_obs] = Ok projection ->
  step self <> 0%Z ->
  ~ ((total_samples (super self) mod step self = 0)%Z
     /\ total_samples (super self) <> 0%Z) ->
  update next_obs self
  = (Ok tt,
     set_super (DriftDetector_update (super self))
       (set_test_pca_projection
          (iloc_tail (_test_pca_projection self) ++ projection)
          (set_test_window
             (iloc_tail (_test_window self) ++ [obs_values next_obs]) self))).
Proof.
  intros Hmon Hos Hpca Hproj Hstep Hguard.
  rewrite (update_monitoring self next_obs Hmon).
  apply Z.eqb_neq in Hstep.
  assert (Hg : (total_samples (super self) mod step self =? 0)%Z
               && negb (total_samples (super self) =? 0)%Z = false).
  { destruct ((total_samples (super self) mod step self =? 0)%Z
              && negb (total_samples (super self) =? 0)%Z) eqn:Hg;
      [|reflexivity].
    exfalso. apply Hguard. zbool. auto. }
  apply wp_computes. unfold monitoring.
  apply wp_bind. apply wp_bind. apply wp_gets. cbv beta. rewrite Hos.
  apply wp_bind. apply wp_ret. apply wp_bind. apply wp_modify. cbv beta.
  apply wp_bind. apply wp_attr. fields. rewrite Hpca.
  apply wp_bind. apply wp_lift. cbn [concat fst]. rewrite app_nil_r, Hproj.
  apply wp_bind. apply wp_modify. cbv beta.
  apply wp_bind. apply wp_gets. cbv beta. apply wp_bind. apply wp_gets.
  cbv beta. fields. rewrite Hstep, Hg.
  apply wp_ret. apply wp_modify. split; reflexivity.
Qed.

End Decision.

Section FirstEpoch.

Context {P S T Snap : Type}.
Context {pca_model : PCAModel P} {scaler_model : ScalerModel S}
  {sequential_test : SequentialTest T Snap}.

Local Abbreviation state := (PCACD P S T Snap).
Local Abbreviation method := (M P S T Snap).

Implicit Types (self : state) (next_obs : Obs).

(** X22.  While fewer than twice [window_size] observations have been
    given, every call of [update] returns without a call to the scaler, the
    principal components or a density estimate: the detector is still
    building, the reference window holds the first [window_size]
    observations in the order they came, the test window the ones after
    them, and [total_samples] is their number. *)
Theorem first_epoch_windows (ws : Z) ev delta metric sp online track
    (self0 : state) (stream : list Obs) :
  init ws ev delta metric sp online track = Ok self0 ->
  (Z.of_nat (length stream) < 2 * ws)%Z ->
  exists self,
    feed self0 stream = Ok self
    /\ _build_reference_and_test self = true
    /\ _reference_window self = map obs_values (firstn (Z.to_nat ws) stream)
    /\ _test_window self = map obs_values (skipn (Z.to_nat ws) stream)
    /\ total_samples (super self) = Z.of_nat (length stream)
    /\ _pca self = None /\ num_pcs self = None
    /\ _change_score self = [Fin 0].
Proof.
  intros Hinit Hlen.
  apply init_inv in Hinit as (st & fl & b & _ & _ & Hneg & ->).
  apply floor_sqrt_ok in Hneg.
  set (n := Z.to_nat ws).
  assert (Hsplit : stream = firstn n stream ++ skipn n stream)
    by (symmetry; apply firstn_skipn).
  assert (Hxs : (length (firstn n stream) <= n)%nat) by apply firstn_le_length.
  assert (Hfull : skipn n stream <> [] -> length (firstn n stream) = n).
  { intros Hne. apply firstn_length_le.
    destruct (Nat.le_gt_cases n (length stream)) as [|Hlt]; [assumption|].
    exfalso. apply Hne. apply skipn_all2. lia. }
  remember (firstn n stream) as xs eqn:Hxs'.
  remember (skipn n stream) as ys eqn:Hys''.
  assert (Hys : (length stream = length xs + length ys)%nat).
  { rewrite Hsplit. apply length_app. }
  rewrite Hsplit.
  erewrite feed_app.
  2:{ apply feed_fill_reference; fields; unfold len; cbn [length];
        try reflexivity; lia. }
  fields. cbn [app].
  destruct ys as [|y ys'] eqn:Hys'.
  - cbn [feed]. eexists. split; [reflexivity|]. fields.
    rewrite advance_total. cbn [DriftDetector_init total_samples].
    repeat split; try reflexivity. rewrite ?length_app. cbn [length]. lia.
  - specialize (Hfull ltac:(discriminate)).
    erewrite feed_fill_test; fields; rewrite ?advance_drift;
      unfold len; rewrite ?length_map; cbn [length] in *; try reflexivity;
      try lia.
    eexists. split; [reflexivity|]. fields.
    rewrite !advance_total. cbn [DriftDetector_init total_samples app].
    repeat split; try reflexivity. rewrite ?length_app. cbn [length]. lia.
Qed.

End FirstEpoch.

(** ** A run of the small detector *)

#[local] Arguments _build_histograms : simpl never.
#[local] Arguments py_min_R : simpl never.
#[local] Arguments py_max_R : simpl never.
#[local] Arguments _intersection_divergence : simpl never.
#[local] Arguments pc_key : simpl never.

(** Stepping through a call on known attributes, as far as the calls into
    the histogram backend. *)
Ltac run_step :=
  lazymatch goal with
  | |- wp (bind _ _) _ _ _ => apply wp_bind
  | |- wp (ret _) _ _ _ => apply wp_ret
  | |- wp (gets _) _ _ _ => apply wp_gets
  | |- wp (modify _) _ _ _ => apply wp_modify
  | |- wp (lift (Ok _)) _ _ _ => apply wp_lift
  | |- wp (attr _) _ _ _ => apply wp_attr
  end; cbv beta; simpl.

Ltac run := repeat run_step.

Ltac run_update :=
  erewrite wp_computes;
  [|unfold update, building, monitoring, fit_reference, evaluate,
      build_density_test, compute_change_scores, range_num_pcs,
      combined_bounds, getitem; run].

#[local] Arguments round_float : simpl never.
#[local] Arguments PrimFloat.mul : simpl never.

Lemma small_step : py_step 0.5 2 = Ok 1%Z.
Proof. vm_compute. reflexivity. Qed.

Lemma float_of_int_2 : float_of_int 2 = Ok 2%float.
Proof. vm_compute. reflexivity. Qed.

Lemma floor_sqrt_2 : floor_sqrt 2 = Ok 1%Z.
Proof. vm_compute. reflexivity. Qed.

Lemma float_of_int_10 : float_of_int 10 = Ok 10%float.
Proof. vm_compute. reflexivity. Qed.

Lemma floor_sqrt_10 : floor_sqrt 10 = Ok 3%Z.
Proof. vm_compute. reflexivity. Qed.

Lemma py_step_default_10 : py_step 0.05 10 = Ok 0%Z.
Proof. vm_compute. reflexivity. Qed.

Lemma py_step_default_0 : py_step 0.05 0 = Ok 0%Z.
Proof. vm_compute. reflexivity. Qed.

Lemma floor_sqrt_0 : floor_sqrt 0 = Ok 0%Z.
Proof. vm_compute. reflexivity. Qed.

(** The small detector takes its four observations, fits, and on the
    fifth observation, the first of its monitoring phase, evaluates the
    divergence and declares drift. *)
Lemma small_run :
  exists (s0 s4 s5 : Detector) (c : float64),
    small_detector = Ok s0 /\ feed s0 small_stream = Ok s4
    /\ _build_reference_and_test s4 = false
    /\ update (obs1 4 2) s4 = (Ok tt, s5)
    /\ _change_score s4 = [Fin 0] /\ _change_score s5 = [Fin 0; c]
    /\ drift_state (super s5) = Some drift
    /\ total_samples (super s4) = 4%Z /\ step s4 = 1%Z
    /\ online_scaling s4 = false
    /\ _pca s4 = Some {| axis_width := Some 1%nat |}
    /\ _test_window s4 = [[0]; [1]]
    /\ online_scaling s5 = false /\ _test_window s5 = [[1]; [2]].
Proof.
  destruct (histogram_at_bounds [0; 1; 0; 1] [0; 1] 1)
    as (lo & hi & first & last & Hlo & Hhi & Hh);
    [lia|discriminate|intros x Hx; simpl in *; tauto|].
  destruct (histogram_at_bounds [0; 1; 1; 2] [1; 2] 1)
    as (lo' & hi' & first' & last' & Hlo' & Hhi' & Hh');
    [lia|discriminate|intros x Hx; simpl in *; tauto|].
  eexists. eexists. eexists. eexists.
  split.
  { unfold small_detector.
    exact (init_returns 2 0.99 0.1 "intersection" 0.5%float false false
             1 2%float 1 small_step float_of_int_2 floor_sqrt_2). }
  split.
  { unfold small_stream. cbn [feed].
    run_update; [|split; reflexivity].
    run_update; [|split; reflexivity].
    run_update; [|split; reflexivity].
    run_update.
    2:{ rewrite Hlo. run. rewrite Hhi. run. rewrite Hh. run.
        split; reflexivity. }
    reflexivity. }
  split; [reflexivity|].
  split.
  { run_update.
    2:{ rewrite Hlo'. run. rewrite Hhi'. run. rewrite Hh'. run.
        rewrite !lookup_insert_eq. run. rewrite !lookup_insert_eq. run.
        lazymatch goal with
        | |- context [_intersection_divergence (HistDensity ?e1 [Fin ?x])
                        (HistDensity ?e2 [Fin ?y])] =>
            rewrite (intersection_divergence_value e1 e2 [x] [y] eq_refl
                     : _intersection_divergence (HistDensity e1 [Fin x])
                         (HistDensity e2 [Fin y]) = _)
        end.
        run. split; reflexivity. }
    reflexivity. }
  repeat split; reflexivity.
Qed.

(** The states of that run are states of a detector. *)
Lemma small_run_reachable (s0 s4 s5 : Detector) :
  small_detector = Ok s0 -> feed s0 small_stream = Ok s4 ->
  update (obs1 4 2) s4 = (Ok tt, s5) ->
  reachable s4 /\ reachable s5.
Proof.
  intros H0 H4 H5. unfold small_detector in H0.
  assert (Hr0 : reachable s0) by (eapply reachable_init; exact H0).
  destruct (feed_reachable small_stream s0 s4 Hr0 H4) as [Hr4 _].
  split; [exact Hr4|].
  pose proof (reachable_update s4 (obs1 4 2) Hr4) as Hr5.
  rewrite H5 in Hr5. exact Hr5.
Qed.

(** ** The small detector against the specification *)

(** C1, as stated, fails: the constructor accepts an unknown divergence
    metric, a window size of 0 and an explained-variance threshold of 2. *)
Lemma init_accepts_invalid_configuration :
  (~ valid_configuration 10 0.99 "euclid"
   /\ exists self : Detector,
        init 10 0.99 0.1 "euclid" 0.05%float false false = Ok self)
  /\ (~ valid_configuration 0 0.99 "kl"
      /\ exists self : Detector,
           init 0 0.99 0.1 "kl" 0.05%float false false = Ok self)
  /\ (~ valid_configuration 10 2 "kl"
      /\ exists self : Detector,
           init 10 2 0.1 "kl" 0.05%float false false = Ok self).
Proof.
  unfold valid_configuration.
  split; [|split]; split.
  - intros (_ & _ & [Hm|[Hm|Hm]]); discriminate.
  - eexists. exact (init_returns 10 0.99 0.1 "euclid" 0.05%float false false
                      0 10%float 3 py_step_default_10 float_of_int_10
                      floor_sqrt_10).
  - intros (Hws & _). lia.
  - eexists. exact (init_returns 0 0.99 0.1 "kl" 0.05%float false false
                      0 PrimFloat.zero 0 py_step_default_0 float_of_int_0
                      floor_sqrt_0).
  - intros (_ & [_ Hev] & _). lra.
  - eexists. exact (init_returns 10 2 0.1 "kl" 0.05%float false false
                      0 10%float 3 py_step_default_10 float_of_int_10
                      floor_sqrt_10).
Qed.

Lemma drift_swaps_windows_witness :
  exists (s5 : Detector),
    reachable s5 /\ drift_state (super s5) <> None
    /\ unscaled_test_window s5 = Ok [[1]; [2]]
    /\ exists s6,
         update (obs1 5 7) s5 = (Ok tt, s6)
         /\ _reference_window s6 = [[1]; [2]] /\ _test_window s6 = [].
Proof.
  destruct small_run as (s0 & s4 & s5 & c & H0 & H4 & Hb & H5 & _ & _ & Hd
                         & _ & _ & _ & _ & _ & Hos & Htw).
  destruct (small_run_reachable s0 s4 s5 H0 H4 H5) as [_ Hr5].
  assert (Hdrift : drift_state (super s5) <> None) by (rewrite Hd; discriminate).
  assert (Hw : unscaled_test_window s5 = Ok [[1]; [2]]).
  { unfold unscaled_test_window. rewrite Hos, Htw. reflexivity. }
  exists s5. split; [exact Hr5|]. split; [exact Hdrift|]. split; [exact Hw|].
  destruct (drift_swaps_windows s5 (obs1 5 7) [[1]; [2]] Hr5 Hdrift Hw)
    as (s6 & Hupd & Href & _ & _ & Htest & _).
  exists s6. auto.
Defined.

Lemma drift_discards_observation_witness :
  exists (s5 : Detector),
    reachable s5 /\ drift_state (super s5) <> None
    /\ update (obs1 5 7) s5 = update (obs1 5 (- 3)) s5.
Proof.
  destruct small_run as (s0 & s4 & s5 & c & H0 & H4 & Hb & H5 & _ & _ & Hd & _).
  destruct (small_run_reachable s0 s4 s5 H0 H4 H5) as [_ Hr5].
  assert (Hdrift : drift_state (super s5) <> None) by (rewrite Hd; discriminate).
  exists s5. split; [exact Hr5|]. split; [exact Hdrift|].
  exact (proj1 (drift_discards_observation s5 (obs1 5 (- 3)) Hr5 Hdrift)
           (obs1 5 7)).
Defined.



(** C9, as stated, fails: the small detector, monitoring one feature, is
    given an observation of two features; the call raises, and the test
    window is no longer what it was. *)
Lemma shape_error_leaves_window_slid :
  exists (s4 s' : Detector) (e : exn),
    reachable s4 /\ _build_reference_and_test s4 = false
    /\ update wide_obs s4 = (Raise e, s')
    /\ _test_window s' <> _test_window s4.
Proof.
  destruct small_run as (s0 & s4 & s5 & c & H0 & H4 & Hb & H5 & _ & _ & _
                         & _ & _ & Hos & Hpca & Htw & _).
  destruct (small_run_reachable s0 s4 s5 H0 H4 H5) as [Hr4 _].
  eexists s4, _, ValueError. split; [exact Hr4|]. split; [exact Hb|].
  split.
  - apply update_rejected_by_pca with {| axis_width := Some 1%nat |};
      [exact Hb|exact Hos|exact Hpca|reflexivity].
  - cbn [_test_window set_test_window]. rewrite Htw. simpl.
    intros Heq. apply (f_equal (fun df => length (nth 1 df []))) in Heq.
    simpl in Heq. discriminate.
Qed.

Lemma shape_error_mutation_witness :
  exists (s4 : Detector),
    _build_reference_and_test s4 = false
    /\ update wide_obs s4
       = (Raise ValueError,
          set_test_window (iloc_tail (_test_window s4) ++ [[2; 3]]) s4).
Proof.
  destruct small_run as (s0 & s4 & s5 & c & H0 & H4 & Hb & H5 & _ & _ & _
                         & _ & _ & Hos & Hpca & _).
  exists s4. split; [exact Hb|].
  exact (proj2 (shape_error_mutation s4 wide_obs ValueError Hb) Hos
           {| axis_width := Some 1%nat |} Hpca eq_refl).
Defined.

(** ** A run of the first epoch *)

Lemma rows_app (l1 l2 : list R) : rows (l1 ++ l2) = rows l1 ++ rows l2.
Proof. apply map_app. Qed.

Lemma ramp_values (start n : nat) :
  map obs_values (ramp start n) = rows (map INR (seq start n)).
Proof. unfold ramp, rows. rewrite !map_map. reflexivity. Qed.

Lemma ramp_app (start n m : nat) :
  ramp start (n + m) = ramp start n ++ ramp (start + n) m.
Proof. unfold ramp. rewrite seq_app, map_app. reflexivity. Qed.

Lemma len_rows (vs : list R) : len (rows vs) = Z.of_nat (length vs).
Proof. unfold len, rows. now rewrite length_map. Qed.

Lemma iloc_col_rows (vs : list R) : iloc_col (rows vs) 0 = Ok vs.
Proof.
  induction vs as [|v vs IH]; [reflexivity|].
  cbn [rows map iloc_col nth_error]. fold (rows vs). rewrite IH. reflexivity.
Qed.

Lemma iloc_tail_rows (vs : list R) : iloc_tail (rows vs) = rows (tl vs).
Proof. destruct vs; reflexivity. Qed.

Lemma axis_fit (p : AxisPCA) (vs : list R) :
  vs <> [] ->
  PCA_fit p (rows vs) = Ok {| axis_width := Some 1%nat |}.
Proof. destruct vs; [contradiction|reflexivity]. Qed.

Lemma axis_transform (vs : list R) :
  PCA_transform {| axis_width := Some 1%nat |} (rows vs) = Ok (rows vs).
Proof.
  cbn [PCA_transform AxisPCA_model axis_width].
  assert (Hall : forallb (fun row : list R => Nat.eqb (length row) 1) (rows vs)
                 = true).
  { induction vs as [|v vs IH]; [reflexivity|]. simpl. exact IH. }
  rewrite Hall. reflexivity.
Qed.

#[local] Arguments rows : simpl never.
#[local] Arguments iloc_col : simpl never.
#[local] Arguments iloc_tail : simpl never.
#[local] Arguments advance : simpl never.
#[local] Arguments PCA_fit : simpl never.
#[local] Arguments PCA_transform : simpl never.
#[local] Arguments Z.min : simpl never.
#[local] Arguments Z.modulo : simpl never.
#[local] Arguments Z.eqb : simpl never.

(** With the collaborators of the small model and the histogram
    intersection, a detector whose doubled window size is a multiple of its
    step takes the observations of its two windows, fits, and evaluates the
    divergence on the next observation, the first of its monitoring
    phase. *)
Lemma first_epoch_run (ws : Z) (sp : float) (sx sy : list Obs) (oy oz : Obs)
    (xs ys : list R) (y z : R) (st : Z) (n : float) (b : Z) :
  (1 <= ws)%Z ->
  map obs_values sx = rows xs -> map obs_values sy = rows ys ->
  obs_values oy = [y] -> obs_values oz = [z] ->
  Z.of_nat (length xs) = ws -> (Z.of_nat (length ys) + 1)%Z = ws ->
  py_step sp ws = Ok st -> float_of_int ws = Ok n ->
  floor_sqrt ws = Ok b -> (1 <= b)%Z ->
  st <> 0%Z -> ((2 * ws) mod st = 0)%Z ->
  exists (s0 s s' : Detector) (c : float64),
    init ws 0.99 0.1 "intersection" sp false false = Ok s0
    /\ feed s0 (sx ++ sy ++ [oy]) = Ok s
    /\ _build_reference_and_test s = false
    /\ update oz s = (Ok tt, s')
    /\ _change_score s = [Fin 0] /\ _change_score s' = [Fin 0; c]
    /\ _test_window s = rows (ys ++ [y])
    /\ _test_window s' = rows (tl (ys ++ [y]) ++ [z])
    /\ step s = st
    /\ total_samples (super s) = (2 * ws)%Z.
Proof.
  intros Hws Hsx Hsy Hoy Hoz Hxs Hys Hst Hn Hb Hbins Hstep Hmod.
  destruct oy as [ly vy], oz as [lz vz]. cbn [obs_values] in Hoy, Hoz.
  subst vy vz.
  assert (Hlx : length sx = length xs).
  { apply (f_equal (@length _)) in Hsx.
    unfold rows in Hsx. now rewrite !length_map in Hsx. }
  assert (Hly : length sy = length ys).
  { apply (f_equal (@length _)) in Hsy.
    unfold rows in Hsy. now rewrite !length_map in Hsy. }
  assert (Hxne : xs <> []) by (destruct xs; [simpl in Hxs; lia|discriminate]).
  destruct (histogram_at_bounds (xs ++ ys ++ [y]) xs b)
    as (lo & hi & first & last & Hlo & Hhi & Hh);
    [exact Hbins|exact Hxne|intros x Hx; apply in_or_app; now left|].
  destruct (histogram_at_bounds (xs ++ tl (ys ++ [y]) ++ [z])
              (tl (ys ++ [y]) ++ [z]) b)
    as (lo' & hi' & first' & last' & Hlo' & Hhi' & Hh');
    [exact Hbins|now destruct (tl (ys ++ [y]))
    |intros x Hx; apply in_or_app; now right|].
  assert (Htot : total_samples
            (DriftDetector_update
               (advance (length sy) (advance (length sx) DriftDetector_init)))
          = (2 * ws)%Z).
  { cbn [DriftDetector_update total_samples]. rewrite !advance_total.
    cbn [DriftDetector_init total_samples]. lia. }
  cbn [DriftDetector_update total_samples] in Htot.
  apply Z.eqb_neq in Hstep. apply Z.eqb_eq in Hmod.
  assert (Hnz : (2 * ws =? 0)%Z = false) by (apply Z.eqb_neq; lia).
  eexists. eexists. eexists. eexists.
  split.
  { exact (init_returns ws 0.99 0.1 "intersection" sp false false st n b
             Hst Hn Hb). }
  split.
  { erewrite feed_app.
    2:{ apply feed_fill_reference; fields;
          unfold len; simpl; auto; try lia. }
    fields. rewrite Hsx. cbn [app].
    erewrite feed_app.
    2:{ apply feed_fill_test; fields;
          rewrite ?len_rows, ?advance_drift;
          try reflexivity; try (unfold len; simpl; lia). }
    fields. rewrite Hsy. cbn [app map feed].
    rewrite update_fit; fields; rewrite ?len_rows, ?advance_drift;
      try reflexivity; try (unfold len; simpl; lia).
    fields. cbn [obs_values]. change [[y]] with (rows [y]).
    rewrite <- rows_app.
    erewrite wp_computes.
    2:{ unfold fit_reference, range_num_pcs, combined_bounds. run.
        rewrite axis_fit by exact Hxne.
        repeat (progress (run; rewrite ?axis_transform, ?iloc_col_rows,
                            ?Hlo, ?Hhi, ?Hh)).
        split; reflexivity. }
    reflexivity. }
  split; [reflexivity|].
  split.
  { rewrite update_monitoring by reflexivity.
    apply wp_computes. unfold monitoring. run.
    change [[z]] with (rows [z]). rewrite axis_transform. run.
    rewrite Htot, Hstep, Hmod, Hnz. cbn [andb negb].
    rewrite !iloc_tail_rows, <- !rows_app.
    unfold evaluate, build_density_test, compute_change_scores, range_num_pcs,
      combined_bounds, getitem.
    repeat (progress (run; rewrite ?iloc_col_rows, ?Hlo', ?Hhi', ?Hh',
                        ?lookup_insert_eq)).
    rewrite intersection_divergence_value
      by (unfold bin_probabilities; now rewrite !length_map, !length_seq).
    run. split; reflexivity. }
  do 5 (split; [reflexivity|]). fields. exact Htot.
Qed.

(** The detector of the documentation, of window size 1000 and sample
    period 0.05, on the observations 0, 1, ..., 2000. *)
Lemma documented_run :
  exists (s0 s s' : Detector) (c : float64),
    documented_detector = Ok s0
    /\ feed s0 (ramp 0 2000) = Ok s
    /\ _build_reference_and_test s = false
    /\ update (obs1 2000 2000) s = (Ok tt, s')
    /\ _change_score s = [Fin 0] /\ _change_score s' = [Fin 0; c]
    /\ step s = 50%Z /\ total_samples (super s) = 2000%Z.
Proof.
  destruct (first_epoch_run 1000 0.05%float (ramp 0 1000) (ramp 1000 999)
              (obs1 1999 (INR 1999)) (obs1 2000 2000)
              (map INR (seq 0 1000)) (map INR (seq 1000 999))
              (INR 1999) 2000 50 1000%float 31)
    as (s0 & s & s' & c & H0 & Hf & Hb & Hu & Hc & Hc' & _ & _ & Hst & Ht).
  - lia.
  - apply ramp_values.
  - apply ramp_values.
  - reflexivity.
  - reflexivity.
  - rewrite length_map, length_seq. reflexivity.
  - rewrite length_map, length_seq. reflexivity.
  - exact py_step_documented.
  - vm_compute. reflexivity.
  - vm_compute. reflexivity.
  - lia.
  - discriminate.
  - reflexivity.
  - exists s0, s, s', c. split; [exact H0|]. split; [|auto 10].
    rewrite <- Hf. change 2000%nat with (1000 + (999 + 1))%nat.
    rewrite !ramp_app. reflexivity.
Qed.

(** C2, as stated, fails.  The small detector, of window size 2 and step 1,
    is still filling after each of its first three observations, monitors
    after the fourth, and on the next observation, the first of its
    monitoring phase, it evaluates the divergence and appends a change
    score.  So does the detector of the documentation, of window size 1000
    and sample period 0.05: it is filling up to its observation of index
    1999, and evaluates the divergence on the observation of index 2000,
    the first of its monitoring phase, 2000 being a multiple of its step
    50. *)
Lemma first_monitoring_observation_evaluated :
  (exists (s0 s4 s5 : Detector) (c : float64),
      small_detector = Ok s0 /\ feed s0 small_stream = Ok s4
      /\ (forall n s, (n < 4)%nat -> feed s0 (firstn n small_stream) = Ok s ->
            _build_reference_and_test s = true)
      /\ _build_reference_and_test s4 = false
      /\ update (obs1 4 2) s4 = (Ok tt, s5)
      /\ _change_score s4 = [Fin 0] /\ _change_score s5 = [Fin 0; c])
  /\ (exists (s0 s s' : Detector) (c : float64),
        documented_detector = Ok s0 /\ feed s0 (ramp 0 2000) = Ok s
        /\ (forall n t, (n < 2000)%nat -> feed s0 (ramp 0 n) = Ok t ->
              _build_reference_and_test t = true)
        /\ _build_reference_and_test s = false
        /\ step s = 50%Z /\ total_samples (super s) = 2000%Z
        /\ update (obs1 2000 2000) s = (Ok tt, s')
        /\ _change_score s = [Fin 0] /\ _change_score s' = [Fin 0; c]).
Proof.
  split.
  - destruct small_run
      as (s0 & s4 & s5 & c & H0 & H4 & Hb & H5 & Hh4 & Hh5 & _).
    exists s0, s4, s5, c. repeat split; try assumption.
    intros n s Hn Hfeed. unfold small_detector in H0.
    assert (Hlen : length (firstn n small_stream) = n).
    { rewrite length_firstn. simpl. lia. }
    pose proof (first_epoch_phase _ _ _ _ _ _ _ _ _ _ H0 ltac:(lia) Hfeed)
      as Hphase.
    rewrite Hlen in Hphase. specialize (Hphase ltac:(lia)).
    destruct (Z.of_nat n <? 2 * 2)%Z eqn:Hlt; [apply Hphase|].
    apply Z.ltb_ge in Hlt. lia.
  - destruct documented_run
      as (s0 & s & s' & c & H0 & Hf & Hb & Hu & Hc & Hc' & Hst & Ht).
    exists s0, s, s', c. repeat split; try assumption.
    intros n t Hn Hfeed. unfold documented_detector in H0.
    assert (Hlen : length (ramp 0 n) = n).
    { unfold ramp. now rewrite length_map, length_seq. }
    pose proof (first_epoch_phase _ _ _ _ _ _ _ _ _ _ H0 ltac:(lia) Hfeed)
      as Hphase.
    rewrite Hlen in Hphase. specialize (Hphase ltac:(lia)).
    destruct (Z.of_nat n <? 2 * 1000)%Z eqn:Hlt; [apply Hphase|].
    apply Z.ltb_ge in Hlt. lia.
Qed.

Lemma evaluation_cadence_witness :
  (exists (s4 s5 : Detector),
      reachable s4 /\ _build_reference_and_test s4 = false
      /\ update (obs1 4 2) s4 = (Ok tt, s5)
      /\ step s4 <> 0%Z
      /\ (((total_samples (super s4) mod step s4 = 0)%Z
           /\ total_samples (super s4) <> 0%Z
           /\ exists c, _change_score s5 = _change_score s4 ++ [c])
          \/ (~ ((total_samples (super s4) mod step s4 = 0)%Z
                 /\ total_samples (super s4) <> 0%Z)
              /\ _change_score s5 = _change_score s4)))
  /\ (exists (s0 s s' : Detector),
        documented_detector = Ok s0 /\ length (ramp 0 2000) = 2000%nat
        /\ feed s0 (ramp 0 2000) = Ok s
        /\ update (obs1 2000 2000) s = (Ok tt, s')
        /\ (exists n r,
              float_of_int 1000 = Ok n
              /\ py_round (PrimFloat.mul 0.05 n) = Ok r
              /\ step s0 = Z.min 100 r)
        /\ _build_reference_and_test s = false
        /\ step s = 50%Z /\ total_samples (super s) = 2000%Z
        /\ exists c, _change_score s' = [Fin 0; c]).
Proof.
  split.
  - destruct small_run as (s0 & s4 & s5 & c & H0 & H4 & Hb & H5 & _).
    destruct (small_run_reachable s0 s4 s5 H0 H4 H5) as [Hr4 _].
    exists s4, s5. split; [exact Hr4|]. split; [exact Hb|]. split; [exact H5|].
    exact (proj1 (proj2 evaluation_cadence) s4 (obs1 4 2) s5 Hr4 Hb H5).
  - destruct documented_run as (s0 & s & s' & c & H0 & Hf & Hb & Hu & _).
    assert (Hlen : length (ramp 0 2000) = 2000%nat).
    { unfold ramp. rewrite length_map, length_seq. reflexivity. }
    exists s0, s, s'. split; [exact H0|]. split; [exact Hlen|].
    split; [exact Hf|]. split; [exact Hu|]. unfold documented_detector in H0.
    split; [exact (proj1 evaluation_cadence _ _ _ _ _ _ _ s0 H0)|].
    split.
    + apply (proj1 (proj2 (proj2 evaluation_cadence)) _ _ _ _ _ _ _ s0
               (ramp 0 2000) s H0 ltac:(lia) Hf).
      rewrite Hlen. reflexivity.
    + exact (proj2 (proj2 (proj2 evaluation_cadence)) _ _ _ _ _ s0
               (ramp 0 2000) s (obs1 2000 2000) s' H0 Hlen Hf Hu).
Defined.

(** ** Runs of the first epoch under any metric *)

#[local] Arguments String.eqb : simpl never.
#[local] Arguments _build_kde : simpl never.

(** With the collaborators of the small model, a detector takes the
    observations of its two windows and fits, whatever its step: under the
    metric "intersection" on the histogram of the reference column, under
    any other metric on its kernel density estimate, which exists when the
    column has two distinct values. *)
Lemma first_epoch_fit (ws : Z) (metric : string) (sp : float)
    (sx sy : list Obs) (oy : Obs) (xs ys : list R) (y : R)
    (st : Z) (n : float) (b : Z) :
  (1 <= ws)%Z ->
  map obs_values sx = rows xs -> map obs_values sy = rows ys ->
  obs_values oy = [y] ->
  Z.of_nat (length xs) = ws -> (Z.of_nat (length ys) + 1)%Z = ws ->
  py_step sp ws = Ok st -> float_of_int ws = Ok n ->
  floor_sqrt ws = Ok b -> (1 <= b)%Z ->
  (String.eqb metric "intersection" = false ->
   exists d, _build_kde xs = Ok d) ->
  exists (s0 s : Detector),
    init ws 0.99 0.1 metric sp false false = Ok s0
    /\ feed s0 (sx ++ sy ++ [oy]) = Ok s
    /\ _build_reference_and_test s = false
    /\ online_scaling s = false
    /\ _pca s = Some {| axis_width := Some 1%nat |}
    /\ num_pcs s = Some 1%nat
    /\ divergence_metric s = metric
    /\ window_size s = ws
    /\ step s = st
    /\ total_samples (super s) = (2 * ws)%Z
    /\ _test_window s = rows (ys ++ [y])
    /\ _change_score s = [Fin 0].
Proof.
  intros Hws Hsx Hsy Hoy Hxs Hys Hst Hn Hb Hbins Hkde.
  destruct oy as [ly vy]. cbn [obs_values] in Hoy. subst vy.
  assert (Hlx : length sx = length xs).
  { apply (f_equal (@length _)) in Hsx.
    unfold rows in Hsx. now rewrite !length_map in Hsx. }
  assert (Hly : length sy = length ys).
  { apply (f_equal (@length _)) in Hsy.
    unfold rows in Hsy. now rewrite !length_map in Hsy. }
  assert (Hxne : xs <> []) by (destruct xs; [simpl in Hxs; lia|discriminate]).
  destruct (histogram_at_bounds (xs ++ ys ++ [y]) xs b)
    as (lo & hi & first & last & Hlo & Hhi & Hh);
    [exact Hbins|exact Hxne|intros x Hx; apply in_or_app; now left|].
  assert (Htot : total_samples
            (DriftDetector_update
               (advance (length sy) (advance (length sx) DriftDetector_init)))
          = (2 * ws)%Z).
  { cbn [DriftDetector_update total_samples]. rewrite !advance_total.
    cbn [DriftDetector_init total_samples]. lia. }
  cbn [DriftDetector_update total_samples] in Htot.
  assert (Hfeed : forall density,
            (if String.eqb metric "intersection"
             then _build_histograms xs b (lo, hi) = Ok density
             else _build_kde xs = Ok density) ->
            exists s : Detector,
              feed {| super := DriftDetector_init;
                      window_size := ws;
                      ev_threshold := 0.99;
                      divergence_metric := metric;
                      track_state := false;
                      sample_period := sp;
                      step := st;
                      ph_threshold := round_float (PrimFloat.mul 0.01 n);
                      bins := b;
                      delta := 0.1;
                      _drift_detection_monitor :=
                        PH_new 0.1 (round_float (PrimFloat.mul 0.01 n)) 0;
                      _drift_tracker := [];
                      num_pcs := None;
                      online_scaling := false;
                      _reference_scaler := None;
                      _build_reference_and_test := true;
                      _reference_window := [];
                      _test_window := [];
                      _pca := None;
                      _reference_pca_projection := [];
                      _test_pca_projection := [];
                      _density_reference := ∅;
                      _density_test := ∅;
                      _change_score := [Fin 0] |} (sx ++ sy ++ [{| obs_label := ly; obs_values := [y] |}])
              = Ok s
              /\ _build_reference_and_test s = false
              /\ online_scaling s = false
              /\ _pca s = Some {| axis_width := Some 1%nat |}
              /\ num_pcs s = Some 1%nat
              /\ divergence_metric s = metric
              /\ window_size s = ws
              /\ step s = st
              /\ total_samples (super s) = (2 * ws)%Z
              /\ _test_window s = rows (ys ++ [y])
              /\ _change_score s = [Fin 0]).
  { intros density Hdensity. eexists. split.
    { erewrite feed_app.
      2:{ apply feed_fill_reference; fields;
            unfold len; simpl; auto; try lia. }
      fields. rewrite Hsx. cbn [app].
      erewrite feed_app.
      2:{ apply feed_fill_test; fields;
            rewrite ?len_rows, ?advance_drift;
            try reflexivity; try (unfold len; simpl; lia). }
      fields. rewrite Hsy. cbn [app map feed].
      rewrite update_fit; fields; rewrite ?len_rows, ?advance_drift;
        try reflexivity; try (unfold len; simpl; lia).
      fields. cbn [obs_values]. change [[y]] with (rows [y]).
      rewrite <- rows_app.
      erewrite wp_computes.
      2:{ unfold fit_reference, range_num_pcs, combined_bounds. run.
          rewrite axis_fit by exact Hxne.
          repeat (progress (run; rewrite ?axis_transform)).
          destruct (String.eqb metric "intersection");
            repeat (progress (run; rewrite ?iloc_col_rows, ?Hlo, ?Hhi,
                                ?Hdensity));
            split; reflexivity. }
      reflexivity. }
    do 7 (split; [reflexivity|]). split; [fields; exact Htot|].
    split; reflexivity. }
  destruct (String.eqb metric "intersection") eqn:Hm.
  - destruct (Hfeed _ Hh) as (s & Hs).
    eexists. exists s. split; [|exact Hs].
    exact (init_returns ws 0.99 0.1 metric sp false false st n b Hst Hn Hb).
  - destruct (Hkde eq_refl) as [d Hd]. destruct (Hfeed _ Hd) as (s & Hs).
    eexists. exists s. split; [|exact Hs].
    exact (init_returns ws 0.99 0.1 metric sp false false st n b Hst Hn Hb).
Qed.

(** ** The further properties on the small detector *)

Lemma small_window_size (s0 s4 : Detector) :
  small_detector = Ok s0 -> feed s0 small_stream = Ok s4 ->
  window_size s4 = 2%Z.
Proof.
  intros H0 H4. unfold small_detector in H0.
  assert (Hr0 : reachable s0) by (eapply reachable_init; exact H0).
  destruct (feed_reachable small_stream s0 s4 Hr0 H4) as [_ Hcfg].
  pose proof (f_equal (fun c => fst (fst (fst (fst (fst c))))) Hcfg) as Hws.
  cbn [configuration fst snd] in Hws. rewrite Hws.
  destruct (init_inv _ _ _ _ _ _ _ _ H0) as (st & n & b & _ & _ & _ & ->).
  reflexivity.
Qed.

Lemma float_of_int_1 : float_of_int 1 = Ok 1%float.
Proof. vm_compute. reflexivity. Qed.

Lemma floor_sqrt_1 : floor_sqrt 1 = Ok 1%Z.
Proof. vm_compute. reflexivity. Qed.

Lemma py_step_default_1 : py_step 0.05 1 = Ok 0%Z.
Proof. vm_compute. reflexivity. Qed.

Lemma zero_step_update_raises_witness :
  exists s : Detector,
    _build_reference_and_test s = false /\ step s = 0%Z
    /\ fst (update (obs1 2 2) s) = Raise ZeroDivisionError
    /\ _build_reference_and_test (snd (update (obs1 2 2) s)) = false
    /\ step (snd (update (obs1 2 2) s)) = 0%Z.
Proof.
  destruct (first_epoch_fit 1 "intersection" 0.05%float [obs1 0 0] []
              (obs1 1 1) [0] [] 1 0 1%float 1)
    as (s0 & s & _ & _ & Hb & Hos & Hpca & _ & _ & _ & Hzero & _);
    [lia|reflexivity|reflexivity|reflexivity|reflexivity|reflexivity
    |exact py_step_default_1|exact float_of_int_1|exact floor_sqrt_1|lia
    |intros H; vm_compute in H; discriminate|].
  exists s. split; [exact Hb|]. split; [exact Hzero|].
  destruct (zero_step_update_raises s (obs1 2 2) Hb Hzero)
    as (_ & Hb' & Hs' & _ & _ & Hraise).
  split; [|split; [exact Hb'|exact Hs']].
  apply (Hraise Hos {| axis_width := Some 1%nat |} (rows [2]) Hpca).
  exact (axis_transform [2]).
Defined.

Lemma change_scores_append_only_witness :
  exists (s0 s4 : Detector),
    _build_reference_and_test s0 = true
    /\ _change_score (snd (update (obs1 0 0) s0)) = _change_score s0
    /\ reachable s4
    /\ exists scores, _change_score s4 = Fin 0 :: scores.
Proof.
  destruct small_run as (s0 & s4 & s5 & c & H0 & H4 & Hb & H5 & _).
  destruct (small_run_reachable s0 s4 s5 H0 H4 H5) as [Hr4 _].
  assert (Hb0 : _build_reference_and_test s0 = true).
  { unfold small_detector in H0.
    destruct (init_inv _ _ _ _ _ _ _ _ H0) as (st & n & b & _ & _ & _ & ->).
    reflexivity. }
  exists s0, s4. split; [exact Hb0|].
  split; [exact (proj1 (proj2 (change_scores_append_only s0 (obs1 0 0))) Hb0)|].
  split; [exact Hr4|].
  exact (proj2 (proj2 (change_scores_append_only s4 (obs1 4 2))) Hr4).
Defined.

Lemma drift_state_none_or_drift_witness :
  exists s5 : Detector,
    reachable s5
    /\ (drift_state (super s5) = None
        \/ (drift_state (super s5) = Some drift
            /\ _build_reference_and_test s5 = true)).
Proof.
  destruct small_run as (s0 & s4 & s5 & c & H0 & H4 & Hb & H5 & _).
  destruct (small_run_reachable s0 s4 s5 H0 H4 H5) as [_ Hr5].
  exists s5. split; [exact Hr5|]. exact (drift_state_none_or_drift s5 Hr5).
Defined.

Lemma windows_bounded_witness :
  exists s4 : Detector,
    reachable s4 /\ online_scaling s4 = false /\ (0 < window_size s4)%Z
    /\ _build_reference_and_test s4 = false
    /\ len (_reference_window s4) = window_size s4
    /\ len (_test_window s4) = window_size s4.
Proof.
  destruct small_run as (s0 & s4 & s5 & c & H0 & H4 & Hb & H5 & _ & _ & _
                         & _ & _ & Hos & _).
  destruct (small_run_reachable s0 s4 s5 H0 H4 H5) as [Hr4 _].
  pose proof (small_window_size s0 s4 H0 H4) as Hws.
  assert (Hpos : (0 < window_size s4)%Z) by (rewrite Hws; lia).
  exists s4. split; [exact Hr4|]. split; [exact Hos|]. split; [exact Hpos|].
  split; [exact Hb|].
  destruct (windows_bounded s4 Hr4 Hos Hpos) as (_ & _ & _ & Hfull).
  apply Hfull. now left.
Defined.

Lemma evaluation_follows_sequential_test_witness :
  exists (s4 s5 : Detector) (c : float64),
    _build_reference_and_test s4 = false
    /\ update (obs1 4 2) s4 = (Ok tt, s5)
    /\ _change_score s5 = _change_score s4 ++ [c]
    /\ _drift_detection_monitor s5
       = PH_update (_drift_detection_monitor s4) c 4.
Proof.
  destruct small_run as (s0 & s4 & s5 & c & H0 & H4 & Hb & H5 & _ & _ & _
                         & Ht & Hst & Hos & _).
  assert (Hmod : (total_samples (super s4) mod step s4 = 0)%Z)
    by (rewrite Ht, Hst; reflexivity).
  assert (Hnz : total_samples (super s4) <> 0%Z) by (rewrite Ht; discriminate).
  destruct (evaluation_follows_sequential_test s4 (obs1 4 2) s5 Hb Hmod Hnz H5)
    as (c' & Hc & Hm & _).
  rewrite Hos in Hm.
  exists s4, s5, c'. split; [exact Hb|]. split; [exact H5|].
  split; [exact Hc|exact Hm].
Defined.

Lemma evaluation_without_scores_raises_witness :
  exists (s s' : Detector),
    _build_reference_and_test s = false
    /\ divergence_metric s = "foo"
    /\ update (obs1 4 2) s = (Raise ValueError, s')
    /\ _change_score s' = _change_score s.
Proof.
  destruct (first_epoch_fit 2 "foo" 0.5%float [obs1 0 0; obs1 1 1]
              [obs1 2 0] (obs1 3 1) [0; 1] [0] 1 1 2%float 1)
    as (s0 & s & _ & _ & Hb & Hos & Hpca & Hn & Hmetric & _ & Hstep & Htot & _);
    [lia|reflexivity|reflexivity|reflexivity|reflexivity|reflexivity
    |exact small_step|exact float_of_int_2|exact floor_sqrt_2|lia
    |intros _; exact (build_kde_total [0; 1] ltac:(simpl; lia)
                        (variance_pos 0 1 [] ltac:(lra)))|].
  destruct (evaluation_without_scores_raises s (obs1 4 2)
              {| axis_width := Some 1%nat |} (rows [2]) 1 Hb Hos Hpca
              (axis_transform [2]))
    as (s' & Hupd & Hcs & _);
    [rewrite Hstep; discriminate|rewrite Hstep, Htot; reflexivity
    |rewrite Htot; discriminate|exact Hn
    |right; rewrite Hmetric; repeat split; discriminate|].
  exists s, s'. split; [exact Hb|]. split; [exact Hmetric|].
  split; [exact Hupd|exact Hcs].
Defined.

Lemma first_epoch_windows_witness :
  exists (s0 s3 : Detector),
    small_detector = Ok s0
    /\ feed s0 [obs1 0 0; obs1 1 1; obs1 2 0] = Ok s3
    /\ _build_reference_and_test s3 = true
    /\ _reference_window s3 = [[0]; [1]] /\ _test_window s3 = [[0]]
    /\ total_samples (super s3) = 3%Z.
Proof.
  destruct small_run as (s0 & _ & _ & _ & H0 & _).
  destruct (first_epoch_windows 2 0.99 0.1 "intersection" 0.5%float false
              false s0
              [obs1 0 0; obs1 1 1; obs1 2 0] H0 ltac:(simpl; lia))
    as (s3 & Hfeed & Hb & Href & Htest & Htot & _).
  exists s0, s3. split; [exact H0|]. split; [exact Hfeed|]. split; [exact Hb|].
  split; [exact Href|]. split; [exact Htest|exact Htot].
Defined.

(** A call known to raise, and the attributes it leaves. *)
Lemma wp_raises {P S T Snap A} (m : M P S T Snap A) (self self' : PCACD P S T Snap) :
  wp m (fun _ _ => False) (fun s => s = self') self ->
  exists e, m self = (Raise e, self').
Proof.
  unfold wp. destruct (m self) as [[a|e] s]; [contradiction|].
  intros ->. now exists e.
Qed.

Lemma axis_transform_wide (rows_ : DataFrame) :
  PCA_transform {| axis_width := Some 1%nat |} ([2; 3] :: rows_)
  = Raise ValueError.
Proof. reflexivity. Qed.

Lemma unit_step : py_step 1 1 = Ok 1%Z.
Proof. vm_compute. reflexivity. Qed.

(** A detector of window size 1 whose second observation has one feature
    too many: the principal components, fitted on the first, reject the
    test window. *)
Lemma failed_fit_stops_building_witness :
  exists (s0 s1 s' : Detector) (e : exn),
    init 1 0.99 0.1 "intersection" 1%float false false = Ok s0
    /\ update (obs1 0 0) s0 = (Ok tt, s1)
    /\ _build_reference_and_test s1 = true
    /\ update wide_obs s1 = (Raise e, s')
    /\ _build_reference_and_test s' = false
    /\ super s' = super s1
    /\ _test_window s' = [[2; 3]].
Proof.
  pose proof (init_returns (sequential_test := AlarmTest_model)
                1 0.99 0.1 "intersection" 1%float false false
                1 1%float 1 unit_step float_of_int_1 floor_sqrt_1) as Hinit.
  match type of Hinit with
  | _ = Ok ?r => remember (r : Detector) as s0 eqn:H0
  end.
  symmetry in H0.
  assert (H1 : update (obs1 0 0) s0
               = (Ok tt,
                  set_super (DriftDetector_update (super s0))
                    (set_reference_window
                       (_reference_window s0 ++ [obs_values (obs1 0 0)]) s0))).
  { apply update_fill_reference; rewrite <- H0; fields; unfold len;
      cbn [length]; try reflexivity; lia. }
  set (s1 := set_super (DriftDetector_update (super s0))
               (set_reference_window
                  (_reference_window s0 ++ [obs_values (obs1 0 0)]) s0)) in *.
  assert (Hb1 : _build_reference_and_test s1 = true)
    by (unfold s1; rewrite <- H0; reflexivity).
  assert (Hd1 : drift_state (super s1) = None)
    by (unfold s1; rewrite <- H0; reflexivity).
  assert (Hr1 : (window_size s1 <= len (_reference_window s1))%Z).
  { unfold s1. rewrite <- H0. fields. unfold len. cbn [length app]. lia. }
  assert (Ht1 : (len (_test_window s1) + 1 = window_size s1)%Z).
  { unfold s1. rewrite <- H0. fields. unfold len. cbn [length]. lia. }
  assert (Hu : exists s' e, update wide_obs s1 = (Raise e, s')).
  { rewrite update_fit by assumption.
    unfold s1. rewrite <- H0. fields. cbn [app obs1 wide_obs obs_values].
    eexists. apply wp_raises.
    unfold fit_reference, range_num_pcs. run.
    rewrite (axis_fit _ [0]) by discriminate. run.
    change [[0]] with (rows [0]). rewrite (axis_transform [0]). run.
    rewrite axis_transform_wide. apply wp_lift. reflexivity. }
  destruct Hu as (s' & e & Hu).
  destruct (failed_fit_stops_building s1 wide_obs e s' Hb1 Hd1 Hr1 Ht1 Hu)
    as (Hb' & Hs' & Hw & _).
  exists s0, s1, s', e. split; [exact Hinit|]. split; [exact H1|].
  split; [exact Hb1|]. split; [exact Hu|]. split; [exact Hb'|].
  split; [exact Hs'|].
  rewrite (proj2 (Hw ltac:(unfold s1; rewrite <- H0; reflexivity))).
  unfold s1. rewrite <- H0. reflexivity.
Defined.

(** After the drift of the small run, the observation that triggers the
    roll-over is dropped and the next one starts the new test window. *)
Lemma second_epoch_refill_witness :
  exists (s5 s7 : Detector),
    reachable s5 /\ drift_state (super s5) = Some drift
    /\ feed s5 [obs1 5 9; obs1 6 5] = Ok s7
    /\ _build_reference_and_test s7 = true
    /\ drift_state (super s7) = None
    /\ _reference_window s7 = [[1]; [2]]
    /\ _test_window s7 = [[5]].
Proof.
  destruct small_run as (s0 & s4 & s5 & c & H0 & H4 & Hb & H5 & _ & _ & Hd
                         & _ & _ & _ & _ & _ & Hos5 & Htw5).
  destruct (small_run_reachable s0 s4 s5 H0 H4 H5) as [_ Hr5].
  assert (Hws : window_size s5 = 2%Z).
  { pose proof (preserves_configuration_update (obs1 4 2) s4) as Hcfg.
    rewrite H5 in Hcfg. cbn [snd] in Hcfg.
    pose proof (f_equal (fun c => fst (fst (fst (fst (fst c))))) Hcfg) as Hw.
    cbn [configuration fst snd] in Hw. rewrite Hw.
    exact (small_window_size s0 s4 H0 H4). }
  destruct (second_epoch_refill s5 (obs1 5 9) [obs1 6 5] Hr5)
    as (s7 & Hfeed & Hb7 & Hd7 & Href & Htest & _);
    [rewrite Hd; discriminate|exact Hos5|rewrite Hws; reflexivity|].
  exists s5, s7. split; [exact Hr5|]. split; [exact Hd|].
  split; [exact Hfeed|]. split; [exact Hb7|]. split; [exact Hd7|].
  split; [rewrite Href; exact Htw5|exact Htest].
Defined.

Lemma sparse_step : py_step 1.5 2 = Ok 3%Z.
Proof. vm_compute. reflexivity. Qed.

(** A detector of window size 2 evaluated every third observation: its
    fifth observation, the first of the monitoring phase, only slides the
    test window. *)
Lemma monitoring_slides_between_evaluations_witness :
  exists (s s' : Detector),
    _build_reference_and_test s = false
    /\ total_samples (super s) = 4%Z /\ step s = 3%Z
    /\ update (obs1 4 2) s = (Ok tt, s')
    /\ _test_window s' = [[1]; [2]]
    /\ _change_score s' = _change_score s
    /\ total_samples (super s') = 5%Z.
Proof.
  destruct (first_epoch_fit 2 "intersection" 1.5%float [obs1 0 0; obs1 1 1]
              [obs1 2 0] (obs1 3 1) [0; 1] [0] 1 3 2%float 1)
    as (s0 & s & _ & _ & Hb & Hos & Hpca & _ & _ & _ & Hstep & Htot & Htw & _);
    [lia|reflexivity|reflexivity|reflexivity|reflexivity|reflexivity
    |exact sparse_step|exact float_of_int_2|exact floor_sqrt_2|lia
    |intros H; vm_compute in H; discriminate|].
  pose proof (monitoring_slides_between_evaluations s (obs1 4 2)
                {| axis_width := Some 1%nat |} (rows [2]) Hb Hos Hpca
                (axis_transform [2])) as Hupd.
  rewrite Hstep, Htot in Hupd.
  specialize (Hupd ltac:(discriminate)
                ltac:(intros [Hm _]; vm_compute in Hm; discriminate)).
  eexists s, _. split; [exact Hb|]. split; [exact Htot|].
  split; [exact Hstep|]. split; [exact Hupd|].
  fields. rewrite Htw, Htot.
  split; [reflexivity|]. split; reflexivity.
Defined.
